(** * SeleniumBase [BaseCase]: a shallow embedding and its verified properties

    The development follows [seleniumbase/fixtures/base_case.py].  Part I
    holds the embedding (Python text helpers, the exception model, the
    driver-effect monad and the embedded methods); Part II holds the
    lemmas and theorems about them. *)

From Stdlib Require Import ZArith String Ascii List Bool Lia QArith Qround.
From Stdlib Require Import Floats.SpecFloat.
From stdpp Require Import gmap strings list sorting.

Local Open Scope Z_scope.

(* ===================================================================== *)
(** * Part I -- the embedding                                             *)
(* ===================================================================== *)

(** ** Python text

    A Python [str] is modelled by its UTF-8 bytes ([string]); comparing
    byte by byte agrees with comparing code point by code point. *)

Module PyStr.

(** The double-quote character, for the literals of the source that
    contain one. *)
Definition dq : string := String "034"%char EmptyString.

(** The newline character. *)
Definition nl : string := String "010"%char EmptyString.

(** [s.startswith(p)] *)
Definition startswith (s p : string) : bool := String.prefix p s.

(** [sub in s] *)
Fixpoint contains (s sub : string) : bool :=
  String.prefix sub s ||
  match s with
  | EmptyString => false
  | String _ s' => contains s' sub
  end.

(** [s[n:]] *)
Fixpoint drop (n : nat) (s : string) : string :=
  match n, s with
  | O, _ => s
  | S n', EmptyString => EmptyString
  | S n', String _ s' => drop n' s'
  end.

Definition rev (s : string) : string :=
  string_of_list_ascii (List.rev (list_ascii_of_string s)).

(** [s.endswith(p)] *)
Definition endswith (s p : string) : bool := String.prefix (rev p) (rev s).

(** [s[:-1]] *)
Fixpoint drop_last (s : string) : string :=
  match s with
  | EmptyString => EmptyString
  | String c EmptyString => EmptyString
  | String c s' => String c (drop_last s')
  end.

(** The ASCII characters [str.strip()] removes: tab, line feed, vertical
    tab, form feed, carriage return, the separators 28..31 and space.
    (Python also strips the non-ASCII Unicode spaces; no property below
    depends on which characters are stripped.) *)
Definition is_space (c : ascii) : bool :=
  let n := nat_of_ascii c in
  ((9 <=? n)%nat && (n <=? 13)%nat) || ((28 <=? n)%nat && (n <=? 32)%nat).

Fixpoint lstrip (s : string) : string :=
  match s with
  | EmptyString => EmptyString
  | String c s' => if is_space c then lstrip s' else s
  end.

(** [s.strip()] *)
Definition strip (s : string) : string := rev (lstrip (rev (lstrip s))).

(** [s.replace(c, r)] for a one-character pattern [c]. *)
Fixpoint replace_char (c : ascii) (r : string) (s : string) : string :=
  match s with
  | EmptyString => EmptyString
  | String d s' =>
      if Ascii.eqb d c then r +:+ replace_char c r s'
      else String d (replace_char c r s')
  end.

Definition lower_char (c : ascii) : ascii :=
  let n := nat_of_ascii c in
  if ((65 <=? n)%nat && (n <=? 90)%nat)%bool then ascii_of_nat (n + 32) else c.

(** [s.lower()] on ASCII letters. *)
Fixpoint lower (s : string) : string :=
  match s with
  | EmptyString => EmptyString
  | String c s' => String (lower_char c) (lower s')
  end.

(** Lexicographic comparison of two texts, character code by character
    code: Python's [<=] on [str], which [sorted] uses. *)
Fixpoint leb (s t : string) : bool :=
  match s, t with
  | EmptyString, _ => true
  | String _ _, EmptyString => false
  | String a s', String b t' =>
      if (nat_of_ascii a <? nat_of_ascii b)%nat then true
      else if (nat_of_ascii b <? nat_of_ascii a)%nat then false
      else leb s' t'
  end.

Definition digit_char (d : nat) : ascii := ascii_of_nat (48 + d).

(** The decimal digits of [n], most significant first; [fuel] bounds the
    number of digits. *)
Fixpoint digits_fuel (fuel : nat) (n : N) (acc : string) : string :=
  match fuel with
  | O => acc
  | S fuel' =>
      let acc' := String (digit_char (N.to_nat (n mod 10))) acc in
      if (n <? 10)%N then acc' else digits_fuel fuel' (n / 10)%N acc'
  end.

(** [str(n)] for a natural number. *)
Definition str_N (n : N) : string :=
  digits_fuel (S (N.to_nat (N.log2 n))) n EmptyString.

(** [str(z)] for an [int]. *)
Definition str_int (z : Z) : string :=
  match z with
  | Z0 => "0"
  | Zpos p => str_N (Npos p)
  | Zneg p => "-" +:+ str_N (Npos p)
  end.

(** [s.split(sep)] for a one-character separator. *)
Fixpoint split_char (sep : ascii) (s : string) : list string :=
  match s with
  | EmptyString => [EmptyString]
  | String c s' =>
      if Ascii.eqb c sep then EmptyString :: split_char sep s'
      else match split_char sep s' with
           | [] => [String c EmptyString]
           | w :: ws => String c w :: ws
           end
  end.

End PyStr.

Abbreviation dq := PyStr.dq.
Abbreviation nl := PyStr.nl.

(** ** Exceptions

    The exception classes the embedded methods raise, catch or let
    through.  [WebDriverException] stands for the base class itself and
    for every subclass not listed. *)

Inductive exn_class : Type :=
  | StaleElementReferenceException
  | ENI_Exception                    (* ElementNotInteractableException *)
  | ECI_Exception                    (* ElementClickInterceptedException *)
  | MoveTargetOutOfBoundsException
  | NoSuchElementException
  | ElementNotVisibleException
  | WebDriverException
  | OutOfScopeException
  | AssertionError
  | AttributeError
  | KeyError
  | IndexError
  | FileNotFoundError
  | ValueError
  | Exception_.                      (* the builtin [Exception] itself *)

(** A raised exception: its class and message, or the generic
    [Exception(sys.exc_info())] that wraps the exception being handled
    when that one carries no message attribute. *)
Inductive exn : Type :=
  | Raised (cls : exn_class) (msg : string)
  | ExceptionOf (info : exn).

Definition class_of (e : exn) : exn_class :=
  match e with
  | Raised c _ => c
  | ExceptionOf _ => Exception_
  end.

(** [isinstance(e, WebDriverException)]: Selenium's own hierarchy. *)
Definition is_WebDriverException (c : exn_class) : bool :=
  match c with
  | StaleElementReferenceException | ENI_Exception | ECI_Exception
  | MoveTargetOutOfBoundsException | NoSuchElementException
  | ElementNotVisibleException | WebDriverException => true
  | _ => false
  end.

Definition is_Stale (c : exn_class) : bool :=
  match c with StaleElementReferenceException => true | _ => false end.

Definition is_ENI (c : exn_class) : bool :=
  match c with ENI_Exception => true | _ => false end.

(** The outcome of a Python call: a value, or a raised exception. *)
Inductive outcome (A : Type) : Type :=
  | Returns (a : A)
  | Raises (e : exn).
Arguments Returns {A} a.
Arguments Raises {A} e.

(** ** Selector strategies ([selenium.webdriver.common.by.By]) *)

Inductive By : Type :=
  | CSS_SELECTOR | XPATH | LINK_TEXT | PARTIAL_LINK_TEXT
  | ID | NAME | TAG_NAME | CLASS_NAME.

Definition By_eqb (a b : By) : bool :=
  match a, b with
  | CSS_SELECTOR, CSS_SELECTOR | XPATH, XPATH | LINK_TEXT, LINK_TEXT
  | PARTIAL_LINK_TEXT, PARTIAL_LINK_TEXT | ID, ID | NAME, NAME
  | TAG_NAME, TAG_NAME | CLASS_NAME, CLASS_NAME => true
  | _, _ => false
  end.

(** ** The driver-effect monad

    Every operation the embedded methods perform on the browser, the
    clock or another [BaseCase] method is a [call].  Durations are in
    milliseconds; a web element is the handle the driver returned. *)

Definition element : Type := nat.

Inductive call : Type :=
  | CheckScope
  | Sleep (ms : Z)
  | TimeTime
  | WaitForReadyStateComplete
  | PageWaitForElementVisible (sel : string) (by_ : By) (timeout : Z)
  | WaitForElementVisible (sel : string) (by_ : By) (timeout : Z)
  | GetElement (sel : string)
  | IsLinkTextVisible (sel : string)
  | ClickLinkText (sel : string) (timeout : Z)
  | IsPartialLinkTextVisible (sel : string)
  | ClickPartialLinkText (sel : string) (timeout : Z)
  | ShadowClick (sel : string)
  | ShadowType (sel text : string)
  | GetShadowText (sel : string)
  | DemoModeHighlightIfActive (sel : string) (by_ : By)
  | ScrollToElement (el : element) (sel : string) (by_ : By)
  | CurrentUrl
  | WindowHandlesCount
  | CurrentWindowHandle
  | JqueryClick (sel : string) (by_ : By)
  | JsClick (sel : string) (by_ : By)
  | ElementTagName (el : element)
  | ElementGetAttribute (el : element) (name : string)
  | ElementClick (el : element)
  | ElementClear (el : element)
  | ElementSendKeys (el : element) (keys : string)
  | ExecuteScript (script : string)
  | OpenNewWindow
  | Open (url : string)
  | SwitchToWindow (handle : string)
  | SwitchToNewestWindow
  | DemoModePauseIfActive (tiny : bool)
  | SlowModePauseIfActive
  | SetValue (sel text : string) (by_ : By)
  | LoggingDebug (msg : string).

(** What each call returns when it does not raise. *)
Definition resp (c : call) : Type :=
  match c with
  | PageWaitForElementVisible _ _ _ | WaitForElementVisible _ _ _
  | GetElement _ => element
  | IsLinkTextVisible _ | IsPartialLinkTextVisible _ => bool
  | GetShadowText _ | CurrentUrl | CurrentWindowHandle
  | ElementTagName _ => string
  | ElementGetAttribute _ _ => option string
  | WindowHandlesCount => nat
  | TimeTime => Z
  | _ => unit
  end.

(** The environment (browser, page, clock): it answers a call knowing the
    calls made so far, most recent first. *)
Definition env : Type := list call -> forall c : call, outcome (resp c).

(** A computation reads the environment and extends the log of calls. *)
Definition M (A : Type) : Type := env -> list call -> outcome A * list call.

Definition ret {A} (a : A) : M A := fun _ log => (Returns a, log).

Definition bind {A B} (m : M A) (k : A -> M B) : M B :=
  fun e log =>
    match m e log with
    | (Returns a, log') => k a e log'
    | (Raises x, log') => (Raises x, log')
    end.

(** [raise x] *)
Definition raise {A} (x : exn) : M A := fun _ log => (Raises x, log).

(** Ask the environment; the call is logged whether or not it raises. *)
Definition perform (c : call) : M (resp c) := fun e log => (e log c, c :: log).

(** [try: m  except Exception as x: h x] -- every modelled exception is
    an [Exception], so a handler that does not re-raise swallows it. *)
Definition try_except {A} (m : M A) (h : exn -> M A) : M A :=
  fun e log =>
    match m e log with
    | (Returns a, log') => (Returns a, log')
    | (Raises x, log') => h x e log'
    end.

(** Lift a pure outcome. *)
Definition lift {A} (o : outcome A) : M A := fun _ log => (o, log).

(** [if b: m] *)
Definition when (b : bool) (m : M unit) : M unit := if b then m else ret tt.

#[global] Instance M_ret : MRet M := @ret.
#[global] Instance M_bind : MBind M := fun A B k m => bind m k.

(** The calls of a run, in the order they were made. *)
Definition run {A} (m : M A) (e : env) : outcome A * list call :=
  let '(r, log) := m e [] in (r, List.rev log).

Definition result_of {A} (m : M A) (e : env) : outcome A := fst (run m e).
Definition trace_of {A} (m : M A) (e : env) : list call := snd (run m e).

(** ** Configuration and the modules that are not among the sources

    [config] gathers the attributes of [self] and the constants of
    [seleniumbase.config.settings] that the embedded methods read.
    Timeouts are whole seconds. *)

Record config : Type := {
  browser : string;
  headless : bool;
  demo_mode : bool;
  slow_mode : bool;
  recorder_mode : bool;
  timeout_multiplier : option Q;
  SMALL_TIMEOUT : Z;
  LARGE_TIMEOUT : Z;
  SWITCH_TO_NEW_TABS_ON_CLICK : bool;
  WAIT_FOR_RSC_ON_CLICKS : bool;
  WAIT_FOR_RSC_ON_PAGE_LOADS : bool
}.

(** The helpers of [page_utils], [css_to_xpath] and [js_utils] that
    [base_case.py] calls.  Those modules are not among the sources, so
    the embedded methods take them as a parameter. *)
Record helpers : Type := {
  is_xpath_selector : string -> bool;
  is_link_text_selector : string -> bool;
  get_link_text_from_selector : string -> string;
  is_partial_link_text_selector : string -> bool;
  get_partial_link_text_from_selector : string -> string;
  is_name_selector : string -> bool;
  get_name_from_selector : string -> string;
  convert_css_to_xpath : string -> string;
  convert_to_css_selector : string -> By -> string;
  escape_quotes_if_needed : string -> string;
  make_css_match_first_element_only : string -> string;
  get_domain_url : string -> string
}.

(** A Python argument that should be a [str]: the text, or the printed
    type of anything else. *)
Inductive pyarg : Type :=
  | PyText (s : string)
  | PyOther (type_repr : string).

(** ** [BaseCase.__looks_like_a_page_url] and [BaseCase.get] *)

Definition looks_like_a_page_url (url : string) : bool :=
  PyStr.startswith url "http:"
  || PyStr.startswith url "https:"
  || PyStr.startswith url "://"
  || PyStr.startswith url "chrome:"
  || PyStr.startswith url "about:"
  || PyStr.startswith url "data:"
  || PyStr.startswith url "file:"
  || PyStr.startswith url "edge:"
  || PyStr.startswith url "opera:".

(** [get] returns [None] after navigating and the element otherwise. *)
Definition get (url : string) : M (option element) :=
  perform CheckScope;;
  if looks_like_a_page_url url then
    perform (Open url);;
    mret None
  else
    el ← perform (GetElement url);
    mret (Some el).

(** ** [BaseCase.__recalculate_selector] *)

(** ['[name="%s"]' % name] *)
Definition name_css (name : string) : string :=
  "[name=" +:+ dq +:+ name +:+ dq +:+ "]".

Section RecalculateSelector.
Context (h : helpers).

Definition invalid_selector_message (type_repr : string) : string :=
  "Invalid selector type: " +:+ PyStr.dq +:+ type_repr +:+ PyStr.dq
  +:+ PyStr.nl +:+ "Expecting a selector of type: " +:+ PyStr.dq
  +:+ "<class 'str'>" +:+ PyStr.dq +:+ " (string)!".

(** The four rewriting steps, each applied to what the one before
    left, then the [":contains("] step guarded by [xp_ok]. *)
Definition recalculate_text (selector : string) (by_ : By) (xp_ok : bool)
  : string * By :=
  let by_ := if is_xpath_selector h selector then XPATH else by_ in
  let '(selector, by_) :=
    if is_link_text_selector h selector
    then (get_link_text_from_selector h selector, LINK_TEXT)
    else (selector, by_) in
  let '(selector, by_) :=
    if is_partial_link_text_selector h selector
    then (get_partial_link_text_from_selector h selector, PARTIAL_LINK_TEXT)
    else (selector, by_) in
  let '(selector, by_) :=
    if is_name_selector h selector
    then (name_css (get_name_from_selector h selector), CSS_SELECTOR)
    else (selector, by_) in
  if xp_ok && PyStr.contains selector ":contains(" && By_eqb by_ CSS_SELECTOR
  then (convert_css_to_xpath h selector, XPATH)
  else (selector, by_).

Definition recalculate_selector (selector : pyarg) (by_ : By) (xp_ok : bool)
  : outcome (string * By) :=
  match selector with
  | PyOther type_repr =>
      Raises (Raised Exception_ (invalid_selector_message type_repr))
  | PyText s => Returns (recalculate_text s by_ xp_ok)
  end.

End RecalculateSelector.

(** The text up to the first ["/"]. *)
Definition up_to_slash (s : string) : string :=
  match PyStr.split_char "/" s with
  | w :: _ => w
  | [] => s
  end.

(** Modelled from the spec: the page domain of a URL -- its scheme and
    host for an ["http://"] or ["https://"] URL, the URL itself
    otherwise ([page_utils] is not among the sources). *)
Definition domain_of (url : string) : string :=
  if PyStr.startswith url "http://"
  then "http://" +:+ up_to_slash (PyStr.drop 7 url)
  else if PyStr.startswith url "https://"
  then "https://" +:+ up_to_slash (PyStr.drop 8 url)
  else url.

(** Modelled from the spec: the helpers of [page_utils] (a module that
    is not among the sources), as the selector rules name them -- a
    selector looks like XPath when it starts with ["/"], ["./"] or ["("];
    the link-text prefix is ["link="]; a name selector has the form
    ["name=N"]; a partial-link-text selector starts with
    ["partial_link="].  The conversions and the quote escaping are left
    as the identity. *)
Definition spec_helpers : helpers := {|
  is_xpath_selector s :=
    PyStr.startswith s "/" || PyStr.startswith s "./" || PyStr.startswith s "(";
  is_link_text_selector s := PyStr.startswith s "link=";
  get_link_text_from_selector s :=
    if PyStr.startswith s "link=" then PyStr.drop 5 s else s;
  is_partial_link_text_selector s := PyStr.startswith s "partial_link=";
  get_partial_link_text_from_selector s :=
    if PyStr.startswith s "partial_link=" then PyStr.drop 13 s else s;
  is_name_selector s := PyStr.startswith s "name=";
  get_name_from_selector s :=
    if PyStr.startswith s "name=" then PyStr.drop 5 s else s;
  convert_css_to_xpath s := s;
  convert_to_css_selector s _ := s;
  escape_quotes_if_needed s := s;
  make_css_match_first_element_only s := s;
  get_domain_url := domain_of
|}.

(** ** Timeouts: the common prologue of the action methods *)

(** A Python value is falsy when it is [None] or zero. *)
Definition timeout_given (timeout : option Z) : bool :=
  match timeout with
  | Some t => negb (t =? 0)
  | None => false
  end.

Definition multiplier_set (cfg : config) : bool :=
  match timeout_multiplier cfg with
  | Some q => negb (Qeq_bool q 0)
  | None => false
  end.

(** [BaseCase.__get_new_timeout]: [ceil(max(multiplier, 0.5) * timeout)],
    computed on rationals. *)
Definition get_new_timeout (cfg : config) (timeout : Z) : M Z :=
  perform CheckScope;;
  match timeout_multiplier cfg with
  | Some q =>
      let q := if Qle_bool q (1 # 2) then (1 # 2)%Q else q in
      mret (Qceiling (q * inject_Z timeout))
  | None => mret timeout
  end.

(** [if not timeout: timeout = default] and the multiplier step. *)
Definition resolve_timeout (cfg : config) (timeout : option Z) (default : Z)
  : M Z :=
  let timeout :=
    match timeout with
    | Some t => if timeout_given (Some t) then t else default
    | None => default
    end in
  if multiplier_set cfg && (timeout =? default)
  then get_new_timeout cfg timeout
  else mret timeout.

(** ** Shadow-DOM selectors *)

Definition invalid_shadow_usage_message : string :=
  "A Shadow DOM selector cannot end on a shadow root element!"
  +:+ " End the selector with an element inside the shadow root!".

(** [BaseCase.__is_shadow_selector], with the check of
    [__fail_if_invalid_shadow_selector_usage] it starts with. *)
Definition is_shadow_selector (selector : string) : outcome bool :=
  if PyStr.endswith (PyStr.strip selector) "::shadow"
  then Raises (Raised Exception_ invalid_shadow_usage_message)
  else Returns (PyStr.contains selector "::shadow ").

(** ** [BaseCase.click] *)

(** Whether a method body reached a [return] or runs on to the next
    statement. *)
Inductive flow : Type := Returned | Next.

Definition truthy_text (o : option string) : bool :=
  match o with
  | Some s => negb (String.eqb s "")
  | None => false
  end.

Section Click.
Context (cfg : config) (h : helpers).

(** The click that Safari needs instead of the native one. *)
Definition safari_click (selector : string) (by_ : By) : M unit :=
  if By_eqb by_ LINK_TEXT
  then perform (JqueryClick selector by_)
  else perform (JsClick selector by_).

(** "Handle a special case of opening a new tab": a link with
    [target="_blank"] whose [href] looks like a page URL is opened in a
    new window, and [click] returns.  [gate] is [self.headless] in the
    [try] block and [True] in the not-interactable handler. *)
Definition new_tab_special_case (gate : bool) (el : element) : M flow :=
  is_link ← (if gate
             then tag ← perform (ElementTagName el); mret (String.eqb tag "a")
             else mret false);
  if is_link : bool then
    href0 ← perform (ElementGetAttribute el "href");
    href ← match href0 with
           | Some s => mret (PyStr.strip s)
           | None =>
               raise (Raised AttributeError
                        "'NoneType' object has no attribute 'strip'")
           end;
    onclick ← perform (ElementGetAttribute el "onclick");
    target ← perform (ElementGetAttribute el "target");
    let new_tab := match target with
                   | Some t => String.eqb t "_blank"
                   | None => false
                   end in
    if new_tab && looks_like_a_page_url href then
      (if truthy_text onclick
       then try_except (perform (ExecuteScript (default "" onclick)))
                       (fun _ => mret tt)
       else mret tt);;
      current_window ← perform CurrentWindowHandle;
      perform OpenNewWindow;;
      try_except (perform (Open href)) (fun _ => mret tt);;
      perform (SwitchToWindow current_window);;
      mret Returned
    else mret Next
  else mret Next.

(** The body of the [try] statement. *)
Definition click_try (el : element) (selector : string) (by_ : By) : M flow :=
  if String.eqb (browser cfg) "ie" && By_eqb by_ LINK_TEXT then
    perform (JqueryClick selector by_);; mret Next
  else if String.eqb (browser cfg) "safari" then
    safari_click selector by_;; mret Next
  else
    fl ← try_except (new_tab_special_case (headless cfg) el)
                    (fun _ => mret Next);
    match fl with
    | Returned => mret Returned
    | Next => perform (ElementClick el);; mret Next
    end.

(** [except StaleElementReferenceException:] *)
Definition click_on_stale (selector : string) (by_ : By) (timeout : Z)
  : M flow :=
  perform WaitForReadyStateComplete;;
  perform (Sleep 160);;
  el ← perform (PageWaitForElementVisible selector by_ timeout);
  try_except (perform (ScrollToElement el selector by_)) (fun _ => mret tt);;
  (if String.eqb (browser cfg) "safari"
   then safari_click selector by_
   else perform (ElementClick el));;
  mret Next.

(** [except ENI_Exception:] *)
Definition click_on_not_interactable (selector : string) (by_ : By)
  (timeout : Z) : M flow :=
  perform WaitForReadyStateComplete;;
  perform (Sleep 100);;
  el ← perform (PageWaitForElementVisible selector by_ timeout);
  fl ← try_except (new_tab_special_case true el) (fun _ => mret Next);
  match fl with
  | Returned => mret Returned
  | Next =>
      perform (ScrollToElement el selector by_);;
      (if String.eqb (browser cfg) "safari"
       then safari_click selector by_
       else perform (ElementClick el));;
      mret Next
  end.

(** [except (WebDriverException, MoveTargetOutOfBoundsException):] *)
Definition click_on_webdriver_error (selector : string) (by_ : By)
  (timeout : Z) : M flow :=
  perform WaitForReadyStateComplete;;
  try_except (perform (JsClick selector by_))
    (fun _ =>
       try_except (perform (JqueryClick selector by_))
         (fun _ =>
            (* One more attempt to click on the element *)
            el ← perform (PageWaitForElementVisible selector by_ timeout);
            perform (ElementClick el)));;
  mret Next.

(** The [except] clauses, tried in the order of the source. *)
Definition click_handlers (selector : string) (by_ : By) (timeout : Z)
  (x : exn) : M flow :=
  if is_Stale (class_of x) then click_on_stale selector by_ timeout
  else if is_ENI (class_of x) then click_on_not_interactable selector by_ timeout
  else if is_WebDriverException (class_of x)
  then click_on_webdriver_error selector by_ timeout
  else raise x.

(** The [try] statement as a whole.  An exception raised in a handler
    is not handled again. *)
Definition click_try_statement (el : element) (selector : string) (by_ : By)
  (timeout : Z) : M flow :=
  try_except (click_try el selector by_) (click_handlers selector by_ timeout).

(** What follows the [try] statement. *)
Definition click_epilogue (pre_action_url : string) (pre_window_count : nat)
  : M unit :=
  latest_window_count ← perform WindowHandlesCount;
  switch ← (if (pre_window_count <? latest_window_count)%nat then
              if recorder_mode cfg then mret true
              else if SWITCH_TO_NEW_TABS_ON_CLICK cfg then
                url ← perform CurrentUrl;
                mret (String.eqb url pre_action_url)
              else mret false
            else mret false);
  when switch (perform SwitchToNewestWindow);;
  when (WAIT_FOR_RSC_ON_CLICKS cfg) (perform WaitForReadyStateComplete);;
  if demo_mode cfg then
    url ← perform CurrentUrl;
    if negb (String.eqb url pre_action_url)
    then perform (DemoModePauseIfActive false)
    else perform (DemoModePauseIfActive true)
  else if slow_mode cfg then perform SlowModePauseIfActive
  else mret tt.

Definition arg_text (a : pyarg) : string :=
  match a with PyText s => s | PyOther t => t end.

(** [click(selector, by, timeout, delay, scroll)]; [delay] is in
    milliseconds. *)
Definition click (selector : pyarg) (by0 : By) (timeout : option Z)
  (delay : Z) (scroll : bool) : M unit :=
  perform CheckScope;;
  timeout ← resolve_timeout cfg timeout (SMALL_TIMEOUT cfg);
  let original_selector := arg_text selector in
  let original_by := by0 in
  '(sel, by_) ← lift (recalculate_selector h selector by0 true);
  when (0 <? delay) (perform (Sleep delay));;
  hidden_link ←
    (if is_link_text_selector h sel || By_eqb by_ LINK_TEXT
     then visible ← perform (IsLinkTextVisible sel); mret (negb visible)
     else mret false);
  if hidden_link : bool then perform (ClickLinkText sel timeout) else
  hidden_partial_link ←
    (if is_partial_link_text_selector h sel || By_eqb by_ PARTIAL_LINK_TEXT
     then visible ← perform (IsPartialLinkTextVisible sel); mret (negb visible)
     else mret false);
  if hidden_partial_link : bool
  then perform (ClickPartialLinkText sel timeout) else
  shadow ← lift (is_shadow_selector sel);
  if shadow : bool then perform (ShadowClick sel) else
  el ← perform (PageWaitForElementVisible sel by_ timeout);
  perform (DemoModeHighlightIfActive original_selector original_by);;
  when (scroll && negb (demo_mode cfg) && negb (slow_mode cfg))
       (perform (ScrollToElement el sel by_));;
  pre_action_url ← perform CurrentUrl;
  pre_window_count ← perform WindowHandlesCount;
  fl ← click_try_statement el sel by_ timeout;
  match fl with
  | Returned => mret tt
  | Next => click_epilogue pre_action_url pre_window_count
  end.

End Click.

(** ** [BaseCase.update_text] *)

(** [selenium.webdriver.common.keys.Keys]: the private-use code points
    U+E003 and U+E006, in UTF-8. *)
Definition Keys_BACK_SPACE : string :=
  String "238"%char (String "128"%char (String "131"%char EmptyString)).
Definition Keys_RETURN : string :=
  String "238"%char (String "128"%char (String "134"%char EmptyString)).

Fixpoint repeat_text (s : string) (n : nat) : string :=
  match n with
  | O => EmptyString
  | S n' => s +:+ repeat_text s n'
  end.

(** [Keys.BACK_SPACE * 42] *)
Definition backspaces : string := repeat_text Keys_BACK_SPACE 42.

(** What [__get_exception_message] finds in the exception being
    handled: its [msg] attribute, which the WebDriver exceptions carry,
    or else the whole [sys.exc_info()]. *)
Inductive exc_message : Type :=
  | MsgText (s : string)
  | MsgExcInfo (x : exn).

Definition get_exception_message (x : exn) : exc_message :=
  match x with
  | Raised c m => if is_WebDriverException c then MsgText m else MsgExcInfo x
  | ExceptionOf _ => MsgExcInfo x
  end.

Definition old_chromedriver_marker : string :=
  "unknown error: call function result missing".

Definition chromedriver_update_message (original : string) : string :=
  "Your version of ChromeDriver may be out-of-date! "
  +:+ "Please go to "
  +:+ "https://sites.google.com/a/chromium.org/chromedriver/ "
  +:+ "and download the latest version to your system PATH! "
  +:+ "Or use: ``seleniumbase install chromedriver`` . "
  +:+ "Original Exception Message: " +:+ original.

(** [BaseCase.__get_improved_exception_message] *)
Definition get_improved_exception_message (cfg : config) (x : exn)
  : exc_message :=
  match get_exception_message x with
  | MsgText m =>
      if String.eqb (browser cfg) "chrome"
         && PyStr.contains m old_chromedriver_marker
      then MsgText (chromedriver_update_message m)
      else MsgText m
  | MsgExcInfo i => MsgExcInfo i
  end.

(** [Exception(exc_message)] *)
Definition generic_exception (m : exc_message) : exn :=
  match m with
  | MsgText s => Raised Exception_ s
  | MsgExcInfo x => ExceptionOf x
  end.

Section UpdateText.
Context (cfg : config) (h : helpers).

(** The keystrokes of the typing step: the text, or the text without
    its final newline followed by RETURN. *)
Definition send_text (el : element) (text : string) (rsc_after_plain : bool)
  : M unit :=
  if negb (PyStr.endswith text PyStr.nl) then
    perform (ElementSendKeys el text);;
    when (rsc_after_plain && WAIT_FOR_RSC_ON_PAGE_LOADS cfg)
         (perform WaitForReadyStateComplete)
  else
    perform (ElementSendKeys el (PyStr.drop_last text));;
    perform (ElementSendKeys el Keys_RETURN);;
    when (WAIT_FOR_RSC_ON_PAGE_LOADS cfg) (perform WaitForReadyStateComplete).

(** The first [try] statement: clear the field.  It yields the element
    the rest of the method goes on with. *)
Definition clear_step (el : element) (selector : string) (by_ : By)
  (timeout : Z) : M element :=
  try_except
    (perform (ElementClear el);;
     perform (ElementSendKeys el backspaces);;
     mret el)
    (fun x =>
       if is_Stale (class_of x) || is_ENI (class_of x) then
         perform WaitForReadyStateComplete;;
         perform (Sleep 160);;
         el' ← perform (WaitForElementVisible selector by_ timeout);
         try_except (perform (ElementClear el')) (fun _ => mret tt);;
         mret el'
       else mret el).

(** The handler of the typing step for a stale or not-interactable
    element: one re-wait, a fixed sleep, and the keystrokes again. *)
Definition typing_retry (selector text : string) (by_ : By) (timeout : Z)
  : M element :=
  perform WaitForReadyStateComplete;;
  perform (Sleep 160);;
  el' ← perform (WaitForElementVisible selector by_ timeout);
  perform (ElementClear el');;
  send_text el' text false;;
  mret el'.

(** The second [try] statement: type the text. *)
Definition typing_step (el : element) (selector text : string) (by_ : By)
  (timeout : Z) : M element :=
  try_except
    (send_text el text true;; mret el)
    (fun x =>
       if is_Stale (class_of x) || is_ENI (class_of x)
       then typing_retry selector text by_ timeout
       else raise (generic_exception (get_improved_exception_message cfg x))).

Definition update_text (selector : pyarg) (text : string) (by0 : By)
  (timeout : option Z) (retry : bool) : M unit :=
  perform CheckScope;;
  timeout ← resolve_timeout cfg timeout (LARGE_TIMEOUT cfg);
  '(sel, by_) ← lift (recalculate_selector h selector by0 true);
  shadow ← lift (is_shadow_selector sel);
  if shadow : bool then perform (ShadowType sel text) else
  el ← perform (WaitForElementVisible sel by_ timeout);
  perform (DemoModeHighlightIfActive sel by_);;
  when (negb (demo_mode cfg) && negb (slow_mode cfg))
       (perform (ScrollToElement el sel by_));;
  el ← clear_step el sel by_ timeout;
  perform (DemoModePauseIfActive true);;
  pre_action_url ← perform CurrentUrl;
  el ← typing_step el sel text by_ timeout;
  fall_back ←
    (if retry then
       value ← perform (ElementGetAttribute el "value");
       mret (negb (bool_decide (value = Some text))
             && negb (PyStr.endswith text PyStr.nl))
     else mret false);
  when fall_back
       (perform (LoggingDebug "update_text() is falling back to JavaScript!");;
        perform (SetValue sel text by_));;
  if demo_mode cfg then
    url ← perform CurrentUrl;
    if negb (String.eqb url pre_action_url)
    then perform (DemoModePauseIfActive false)
    else perform (DemoModePauseIfActive true)
  else if slow_mode cfg then perform SlowModePauseIfActive
  else mret tt.

End UpdateText.

(** ** The shadow-DOM text waits *)

Section ShadowText.
Context (cfg : config).

Definition text_not_visible_message (text selector : string) : string :=
  "Expected text {" +:+ text +:+ "} in element {" +:+ selector
  +:+ "} was not visible!".

Definition exact_text_not_visible_in_loop (text selector : string) : string :=
  "Expected exact text {" +:+ text +:+ "} in element {" +:+ selector
  +:+ "} not visible!".

Definition exact_text_not_visible_message (text selector : string) : string :=
  "Expected exact text {" +:+ text +:+ "} in element {" +:+ selector
  +:+ "} was not visible!".

(** [page_actions.timeout_exception(ElementNotVisibleException, msg)] *)
Definition timeout_exception (cls : exn_class) (msg : string) : exn :=
  Raised cls msg.

(** One reading of the element's text and its comparison with the
    expected text: [matches actual expected] decides the comparison
    ([in] for the plain wait, [==] for the exact one).  The attempt
    yields what the statements did -- returned [True] or raised -- and
    the local variable [text], which is stripped once the reading has
    succeeded. *)
Definition shadow_text_attempt (matches : string -> string -> bool)
  (msg : string -> string -> string) (text selector : string)
  : M (outcome bool * string) :=
  r ← try_except (actual ← perform (GetShadowText selector);
                  mret (Returns actual))
                 (fun x => mret (Raises x));
  match r with
  | Raises x => mret (Raises x, text)
  | Returns actual =>
      let actual_text := PyStr.strip actual in
      let text := PyStr.strip text in
      if negb (matches actual_text text)
      then mret (Raises (timeout_exception ElementNotVisibleException
                           (msg text selector)), text)
      else mret (Returns true, text)
  end.

(** [for x in range(n): try: ... return True  except Exception: ...]:
    [Some true] when an iteration returned, [None] when the loop ended
    by [break] or by exhausting the range. *)
Fixpoint shadow_text_loop (matches : string -> string -> bool)
  (msg : string -> string -> string) (n : nat) (text selector : string)
  (stop_ms : Z) : M (option bool * string) :=
  match n with
  | O => mret (None, text)
  | S n' =>
      '(o, text) ← shadow_text_attempt matches msg text selector;
      match o with
      | Returns b => mret (Some b, text)
      | Raises _ =>
          now_ms ← perform TimeTime;
          if stop_ms <=? now_ms then mret (None, text) else
          perform (Sleep 100);;
          shadow_text_loop matches msg n' text selector stop_ms
      end
  end.

Definition shadow_text_wait (matches : string -> string -> bool)
  (loop_msg final_msg : string -> string -> string) (text selector : string)
  : M bool :=
  start_ms ← perform TimeTime;
  let stop_ms := start_ms + SMALL_TIMEOUT cfg * 1000 in
  '(r, text) ← shadow_text_loop matches loop_msg
                 (Z.to_nat (SMALL_TIMEOUT cfg * 10)) text selector stop_ms;
  match r with
  | Some b => mret b
  | None =>
      '(o, _) ← shadow_text_attempt matches final_msg text selector;
      lift o
  end.

(** [BaseCase.__wait_for_shadow_text_visible] *)
Definition wait_for_shadow_text_visible (text selector : string) : M bool :=
  shadow_text_wait (fun actual text => PyStr.contains actual text)
    text_not_visible_message text_not_visible_message text selector.

(** [BaseCase.__wait_for_exact_shadow_text_visible] *)
Definition wait_for_exact_shadow_text_visible (text selector : string)
  : M bool :=
  shadow_text_wait (fun actual text => String.eqb text actual)
    exact_text_not_visible_in_loop exact_text_not_visible_message
    text selector.

End ShadowText.

(** ** The recorder: [BaseCase.__process_recorded_actions]

    A recorded action is the list [[kind, target, value, time_stamp]];
    the time stamps are the integers that [Date.now()] returned. *)

Record action : Type := {
  kind : string;
  target : string;
  value : string;
  time_stamp : Z
}.

#[global] Instance action_eq_dec : EqDecision action.
Proof. solve_decision. Defined.

(** Python's [<=] on [str]. *)
Definition str_le (s t : string) : Prop := PyStr.leb s t = true.

#[global] Instance str_le_dec : RelDecision str_le.
Proof. intros s t. unfold str_le. apply _. Defined.

(** [sorted(keys)] on texts. *)
Definition sorted (keys : list string) : list string := merge_sort str_le keys.

Section Recorder.
Context (reuse_session : bool) (js_start_time : Z).

(** [if action not in used_actions: used_actions.append(action);
    raw_actions.append(action)] *)
Definition note_action (lists : list action * list action) (a : action)
  : list action * list action :=
  let '(used_actions, raw_actions) := lists in
  if bool_decide (a ∈ used_actions) then lists
  else (used_actions ++ [a], raw_actions ++ [a]).

(** The two gathering loops: over the recorded actions of every browser
    tab, then over the extra actions. *)
Definition raw_actions_of (tabs : list (list action))
  (extra_actions : list action) : list action :=
  let lists :=
    fold_left (fun lists tab_actions => fold_left note_action tab_actions lists)
              tabs ([], []) in
  snd (fold_left note_action extra_actions lists).

(** [key = str(action[3]) + "-" + str(action[0])] *)
Definition action_key (a : action) : string :=
  PyStr.str_int (time_stamp a) +:+ "-" +:+ kind a.

(** The loop that fills [action_dict]. *)
Definition fill_action_dict (raw_actions : list action) : gmap string action :=
  fold_left
    (fun action_dict a =>
       if reuse_session && (time_stamp a <? js_start_time) then action_dict
       else <[action_key a := a]> action_dict)
    raw_actions ∅.

(** [for key in sorted(action_dict): srt_actions.append(action_dict[key])] *)
Definition srt_actions_of (action_dict : gmap string action) : list action :=
  omap (fun key => action_dict !! key) (sorted (map_to_list action_dict).*1).

(** The processing step up to the sorted list [srt_actions]. *)
Definition process_recorded_actions (tabs : list (list action))
  (extra_actions : list action) : list action :=
  srt_actions_of (fill_action_dict (raw_actions_of tabs extra_actions)).

End Recorder.

(** ** Python values *)

(** A Python argument of any type; [PyObject truthy] is an object of a
    type not listed, equal to no literal. *)
Inductive py_value : Type :=
  | PyNone
  | PyBool (b : bool)
  | PyInt (z : Z)
  | PyFloat (f : spec_float)
  | PyString (s : string)
  | PyObject (truthy : bool).

(** [f == z] for a float and an integer: the exact values agree. *)
Definition float_eq_int (f : spec_float) (z : Z) : bool :=
  match f with
  | S754_zero _ => z =? 0
  | S754_finite sign m e =>
      let v := if sign then Z.neg m else Z.pos m in
      if 0 <=? e then z =? v * 2 ^ e else v =? z * 2 ^ (- e)
  | _ => false
  end.

(** [v == z] against an integer literal: numbers, booleans included,
    compare by value. *)
Definition py_eq_int (v : py_value) (z : Z) : bool :=
  match v with
  | PyInt n => n =? z
  | PyBool b => (if b then 1 else 0) =? z
  | PyFloat f => float_eq_int f z
  | _ => false
  end.

(** [v == s] against a text literal. *)
Definition py_eq_str (v : py_value) (s : string) : bool :=
  match v with
  | PyString t => String.eqb t s
  | _ => false
  end.

(** [not v] *)
Definition py_not (v : py_value) : bool :=
  match v with
  | PyNone => true
  | PyBool b => negb b
  | PyInt z => z =? 0
  | PyFloat (S754_zero _) => true
  | PyFloat _ => false
  | PyString s => String.eqb s ""
  | PyObject truthy => negb truthy
  end.

(** A state-and-exception monad for the methods that work on files or
    on the attributes of [self]: a raised exception keeps the changes
    made before it. *)
Definition St (S A : Type) : Type := S -> outcome A * S.

#[global] Instance St_ret {S} : MRet (St S) := fun A a s => (Returns a, s).
#[global] Instance St_bind {S} : MBind (St S) := fun A B k m s =>
  match m s with
  | (Returns a, s') => k a s'
  | (Raises x, s') => (Raises x, s')
  end.

Definition st_raise {S A} (x : exn) : St S A := fun s => (Raises x, s).
Definition st_lift {S A} (o : outcome A) : St S A := fun s => (o, s).
Definition st_get {S} : St S S := fun s => (Returns s, s).
Definition st_modify {S} (f : S -> S) : St S unit := fun s => (Returns tt, f s).
Definition st_try {S A} (m : St S A) (h : exn -> St S A) : St S A := fun s =>
  match m s with
  | (Returns a, s') => (Returns a, s')
  | (Raises x, s') => h x s'
  end.
Definition st_when {S} (b : bool) (m : St S unit) : St S unit :=
  if b then m else mret tt.

(** [str(e)] *)
Definition exn_text (x : exn) : string :=
  match x with
  | Raised _ m => m
  | ExceptionOf _ => "<exc_info>"
  end.

(** ** Visual baselines: [BaseCase.check_window] *)

(** A parsed JSON document, as far as the tag lists need it. *)
#[warnings="-register-all"]
Inductive json : Type :=
  | JNull
  | JString (s : string)
  | JList (l : list json).

(** [a == b] on parsed JSON: structural equality. *)
Fixpoint json_eqb (a b : json) : bool :=
  match a, b with
  | JNull, JNull => true
  | JString s, JString t => String.eqb s t
  | JList l, JList m =>
      (fix all2 (l m : list json) : bool :=
         match l, m with
         | [], [] => true
         | x :: l', y :: m' => json_eqb x y && all2 l' m'
         | _, _ => false
         end) l m
  | _, _ => false
  end.

(** A tag of the parsed page: its name and its attributes. *)
Record tag : Type := {
  tag_name : string;
  tag_attrs : gmap string json
}.

(** What the browser shows when [check_window] is called. *)
Record page : Type := {
  page_url : string;
  page_screenshot : string;
  page_tags : list tag            (* soup.body.find_all() *)
}.

(** The content of a file: a text, the bytes of an image, or the JSON
    document its text denotes. *)
Inductive content : Type :=
  | Text (s : string)
  | Png (bytes : string)
  | Json (j : json).

(** The part of the world [check_window] reads and changes. *)
Record world : Type := {
  files : gmap string content;
  dirs : gset string;
  stdout : list string
}.

Definition sorted_attr_names (t : tag) : list string :=
  sorted (map_to_list (tag_attrs t)).*1.

(** [[[tag.name] for tag in html_tags]] *)
Definition level_1_of (tags : list tag) : json :=
  JList (map (fun t => JList [JString (tag_name t)]) tags).

(** [[[tag.name, sorted(tag.attrs.keys())] for tag in html_tags]] *)
Definition level_2_of (tags : list tag) : json :=
  JList (map (fun t =>
                JList [JString (tag_name t);
                       JList (map JString (sorted_attr_names t))]) tags).

(** [[[tag.name, sorted(tag.attrs.items())] for tag in html_tags]];
    the keys of a dict are distinct, so the pairs are in key order. *)
Definition level_3_of (tags : list tag) : json :=
  JList (map (fun t =>
                JList [JString (tag_name t);
                       JList (omap (fun k =>
                                      v ← tag_attrs t !! k;
                                      Some (JList [JString k; v]))
                                   (sorted_attr_names t))]) tags).

Definition level_error_message : string :=
  "Parameter " +:+ dq +:+ "level" +:+ dq +:+ " must be set to 0, 1, 2, or 3!".

Definition domain_fail : string :=
  nl
  +:+ "*" +:+ nl
  +:+ "Page Domain Mismatch Failure: Current Page Domain doesn't match the Page Domain of the Baseline! Can't compare two completely different sites! Run with --visual_baseline to reset the baseline!".

Definition level_1_failure : string :=
  nl
  +:+ "*" +:+ nl
  +:+ "*** Exception: <Level 1> Visual Diff Failure:" +:+ nl
  +:+ "* HTML tags don't match the baseline!".

Definition level_2_failure : string :=
  nl
  +:+ "*" +:+ nl
  +:+ "*** Exception: <Level 2> Visual Diff Failure:" +:+ nl
  +:+ "* HTML tag attribute names don't match the baseline!".

Definition level_3_failure : string :=
  nl
  +:+ "*" +:+ nl
  +:+ "*** Exception: <Level 3> Visual Diff Failure:" +:+ nl
  +:+ "* HTML tag attribute values don't match the baseline!".

(** The state of the loop of [__assert_eq] over the lines of the
    failure text. *)
Record minify_state : Type := {
  minified_exception : string;
  countdown : Z;
  countdown_on : bool;
  first_differing : bool;
  skip_lines : bool
}.

Definition minify_line (st : minify_state) (line : string) : minify_state :=
  let keep st := {| minified_exception := minified_exception st +:+ line +:+ nl;
                    countdown := countdown st;
                    countdown_on := countdown_on st;
                    first_differing := first_differing st;
                    skip_lines := skip_lines st |} in
  let start st fd sk := {| minified_exception := minified_exception st;
                           countdown := 3;
                           countdown_on := true;
                           first_differing := fd;
                           skip_lines := sk |} in
  if countdown_on st then
    let st := if negb (skip_lines st) then keep st else st in
    let n := countdown st - 1 in
    if n =? 0
    then {| minified_exception := minified_exception st;
            countdown := n; countdown_on := false;
            first_differing := first_differing st; skip_lines := false |}
    else {| minified_exception := minified_exception st;
            countdown := n; countdown_on := countdown_on st;
            first_differing := first_differing st;
            skip_lines := skip_lines st |}
  else if PyStr.startswith line "First differing" then
    keep (start st true (skip_lines st))
  else if PyStr.startswith line "First list" then
    if negb (first_differing st)
    then keep (start st (first_differing st) (skip_lines st))
    else start st (first_differing st) true
  else if PyStr.startswith line "F" then
    keep (start st (first_differing st) (skip_lines st))
  else if PyStr.startswith line "+" || PyStr.startswith line "-" then keep st
  else if PyStr.startswith line "?" then keep st
  else if PyStr.startswith (PyStr.strip line) "*" then keep st
  else st.

(** The text [__assert_eq] raises with, from the text of the failed
    [assertEqual]. *)
Definition minify (str_e : string) : string :=
  minified_exception
    (fold_left minify_line (PyStr.split_char "010" str_e)
       {| minified_exception := nl +:+ "AssertionError:" +:+ nl;
          countdown := 3; countdown_on := false;
          first_differing := false; skip_lines := false |}).

Section CheckWindow.
(** [constants.VisualBaseline.STORAGE_FOLDER], the domain of a URL
    ([page_utils.get_domain_url]) and the texts of a failed
    [unittest.TestCase.assertEqual] come from outside [base_case.py]. *)
Context (STORAGE_FOLDER : string) (h : helpers)
        (text_diff : string -> string -> string -> string)
        (json_diff : json -> json -> string -> string).

(** [self.assertEqual(first, second, msg)] on two texts. *)
Definition assertEqual_text (first second msg : string) : St world unit :=
  if String.eqb first second then mret tt
  else st_raise (Raised AssertionError (text_diff first second msg)).

(** [BaseCase.__assert_eq]: the comparison, with the text of a failure
    cut down to the list diff. *)
Definition assert_eq (first second : json) (msg : string) : St world unit :=
  minified ← st_try
    (if json_eqb first second then mret None
     else st_raise (Raised AssertionError (json_diff first second msg)))
    (fun e => mret (Some (minify (exn_text e))));
  match minified with
  | Some m => if negb (String.eqb m "") then st_raise (Raised Exception_ m)
              else mret tt
  | None => mret tt
  end.

Definition print (msg : string) : St world unit :=
  st_modify (fun w => {| files := files w; dirs := dirs w;
                         stdout := stdout w ++ [msg] |}).

(** [os.path.exists(path)] *)
Definition path_exists (path : string) : St world bool :=
  w ← st_get;
  mret (bool_decide (path ∈ dirs w) || bool_decide (is_Some (files w !! path))).

Definition make_dir (path : string) : St world unit :=
  st_modify (fun w => {| files := files w; dirs := {[path]} ∪ dirs w;
                         stdout := stdout w |}).

Definition write_file (path : string) (c : content) : St world unit :=
  st_modify (fun w => {| files := <[path := c]> (files w); dirs := dirs w;
                         stdout := stdout w |}).

(** [open(path, "r").read()] *)
Definition read_text (path : string) : St world string :=
  w ← st_get;
  match files w !! path with
  | Some (Text s) => mret s
  | Some _ => st_raise (Raised ValueError path)
  | None => st_raise (Raised FileNotFoundError path)
  end.

(** [json.loads(open(path, "r").read())] *)
Definition read_json (path : string) : St world json :=
  w ← st_get;
  match files w !! path with
  | Some (Json j) => mret j
  | Some _ => st_raise (Raised ValueError path)
  | None => st_raise (Raised FileNotFoundError path)
  end.

(** The four [if level == "n": level = n] statements. *)
Definition normalize_level (level : py_value) : py_value :=
  let level := if py_eq_str level "0" then PyInt 0 else level in
  let level := if py_eq_str level "1" then PyInt 1 else level in
  let level := if py_eq_str level "2" then PyInt 2 else level in
  let level := if py_eq_str level "3" then PyInt 3 else level in
  level.

(** [level != 0 and level != 1 and level != 2 and level != 3] *)
Definition level_rejected (level : py_value) : bool :=
  negb (py_eq_int level 0) && negb (py_eq_int level 1)
  && negb (py_eq_int level 2) && negb (py_eq_int level 3).

Definition baseline_path (test_id name : string) : string :=
  STORAGE_FOLDER +:+ "/" +:+ test_id +:+ "/" +:+ name.

Definition page_url_file (path : string) := path +:+ "/page_url.txt".
Definition screenshot_file (path : string) := path +:+ "/screenshot.png".
Definition level_1_file (path : string) := path +:+ "/tags_level_1.txt".
Definition level_2_file (path : string) := path +:+ "/tags_level_2.txt".
Definition level_3_file (path : string) := path +:+ "/tags_level_3.txt".

(** The statements that decide [set_baseline]; a missing folder is
    created on the way. *)
Definition decide_set_baseline (baseline visual_baseline : bool)
  (path : string) : St world bool :=
  let set_baseline := baseline || visual_baseline in
  folder ← path_exists path;
  set_baseline ← (if negb folder then make_dir path;; mret true
                  else mret set_baseline);
  f ← path_exists (page_url_file path);
  let set_baseline := if negb f then true else set_baseline in
  f ← path_exists (screenshot_file path);
  let set_baseline := if negb f then true else set_baseline in
  f ← path_exists (level_1_file path);
  let set_baseline := if negb f then true else set_baseline in
  f ← path_exists (level_2_file path);
  let set_baseline := if negb f then true else set_baseline in
  f ← path_exists (level_3_file path);
  let set_baseline := if negb f then true else set_baseline in
  mret set_baseline.

(** [if set_baseline:] -- the five files of the ground truth. *)
Definition write_baseline (path : string) (pg : page) (level_1 level_2 level_3 : json)
  : St world unit :=
  write_file (screenshot_file path) (Png (page_screenshot pg));;
  write_file (page_url_file path) (Text (page_url pg));;
  write_file (level_1_file path) (Json level_1);;
  write_file (level_2_file path) (Json level_2);;
  write_file (level_3_file path) (Json level_3).

(** [if level == 0:] -- the dry run. *)
Definition dry_run (check_domain : bool) (page_domain page_data_domain : string)
  (level_1_data level_1 level_2_data level_2 level_3_data level_3 : json)
  : St world unit :=
  st_try
    (st_when check_domain
       (assertEqual_text page_domain page_data_domain domain_fail);;
     st_try (assert_eq level_1_data level_1 level_1_failure)
            (fun e => print (exn_text e));;
     st_try (assert_eq level_2_data level_2 level_2_failure)
            (fun e => print (exn_text e));;
     assert_eq level_3_data level_3 level_3_failure)
    (fun e => print (exn_text e)).

(** [if not set_baseline:] -- read the stored files and compare. *)
Definition compare_to_baseline (path : string) (pg : page)
  (level : py_value) (check_domain : bool) (level_1 level_2 level_3 : json)
  : St world unit :=
  page_url_text ← read_text (page_url_file path);
  let page_url_data := PyStr.strip page_url_text in
  level_1_data ← read_json (level_1_file path);
  level_2_data ← read_json (level_2_file path);
  level_3_data ← read_json (level_3_file path);
  let page_domain := get_domain_url h (page_url pg) in
  let page_data_domain := get_domain_url h page_url_data in
  st_when (negb (py_eq_int level 0) && check_domain)
    (assertEqual_text page_data_domain page_domain domain_fail);;
  st_when (py_eq_int level 3) (assert_eq level_3_data level_3 level_3_failure);;
  st_when (py_eq_int level 2) (assert_eq level_2_data level_2 level_2_failure);;
  st_when (py_eq_int level 1) (assert_eq level_1_data level_1 level_1_failure);;
  st_when (py_eq_int level 0)
    (dry_run check_domain page_domain page_data_domain
       level_1_data level_1 level_2_data level_2 level_3_data level_3).

(** [check_window(name, level, baseline, check_domain)] for the test
    [test_id], with [self.visual_baseline] and the page on display.  The
    driver calls that only read the page are taken to return. *)
Definition check_window (test_id : string) (visual_baseline : bool) (pg : page)
  (name : option string) (level : py_value) (baseline check_domain : bool)
  : St world unit :=
  let level := normalize_level level in
  if level_rejected level
  then st_raise (Raised Exception_ level_error_message) else
  let name := match name with
              | Some n => if String.eqb n "" then "default" else n
              | None => "default"
              end in
  (* visual_helper.visual_baseline_folder_setup() *)
  make_dir STORAGE_FOLDER;;
  let path := baseline_path test_id name in
  set_baseline ← decide_set_baseline baseline visual_baseline path;
  let level_1 := level_1_of (page_tags pg) in
  let level_2 := level_2_of (page_tags pg) in
  let level_3 := level_3_of (page_tags pg) in
  st_when set_baseline (write_baseline path pg level_1 level_2 level_3);;
  st_when (negb set_baseline)
    (compare_to_baseline path pg level check_domain level_1 level_2 level_3).

End CheckWindow.

(** ** Tours, charts and presentations

    The lists of fragments are attributes of [self], keyed by the name
    the user chose. *)

Record builders : Type := {
  _tour_steps : gmap string (list string);
  _chart_data : gmap string (list string);
  _chart_label : gmap string (list string);
  _chart_first_series : gmap string bool;
  _chart_series_count : gmap string Z;
  _chart_count : Z;
  _presentation_slides : gmap string (list string);
  _presentation_transition : gmap string string;
  introjs_theme_color : option string;     (* sb_config.introjs_theme_color *)
  introjs_hover_color : option string      (* sb_config.introjs_hover_color *)
}.

Definition set_tour_steps (f : gmap string (list string) -> gmap string (list string))
  (b : builders) : builders :=
  {| _tour_steps := f (_tour_steps b);
     _chart_data := _chart_data b; _chart_label := _chart_label b;
     _chart_first_series := _chart_first_series b;
     _chart_series_count := _chart_series_count b;
     _chart_count := _chart_count b;
     _presentation_slides := _presentation_slides b;
     _presentation_transition := _presentation_transition b;
     introjs_theme_color := introjs_theme_color b;
     introjs_hover_color := introjs_hover_color b |}.

Definition set_presentation
  (f : gmap string (list string) -> gmap string (list string))
  (g : gmap string string -> gmap string string) (b : builders) : builders :=
  {| _tour_steps := _tour_steps b;
     _chart_data := _chart_data b; _chart_label := _chart_label b;
     _chart_first_series := _chart_first_series b;
     _chart_series_count := _chart_series_count b;
     _chart_count := _chart_count b;
     _presentation_slides := f (_presentation_slides b);
     _presentation_transition := g (_presentation_transition b);
     introjs_theme_color := introjs_theme_color b;
     introjs_hover_color := introjs_hover_color b |}.

Definition set_chart_data
  (f : gmap string (list string) -> gmap string (list string))
  (b : builders) : builders :=
  {| _tour_steps := _tour_steps b;
     _chart_data := f (_chart_data b); _chart_label := _chart_label b;
     _chart_first_series := _chart_first_series b;
     _chart_series_count := _chart_series_count b;
     _chart_count := _chart_count b;
     _presentation_slides := _presentation_slides b;
     _presentation_transition := _presentation_transition b;
     introjs_theme_color := introjs_theme_color b;
     introjs_hover_color := introjs_hover_color b |}.

Definition set_chart_label
  (f : gmap string (list string) -> gmap string (list string))
  (b : builders) : builders :=
  {| _tour_steps := _tour_steps b;
     _chart_data := _chart_data b; _chart_label := f (_chart_label b);
     _chart_first_series := _chart_first_series b;
     _chart_series_count := _chart_series_count b;
     _chart_count := _chart_count b;
     _presentation_slides := _presentation_slides b;
     _presentation_transition := _presentation_transition b;
     introjs_theme_color := introjs_theme_color b;
     introjs_hover_color := introjs_hover_color b |}.

(** [x or default] for an optional text: [None] and [""] are falsy. *)
Definition text_or (o : option string) (default : string) : string :=
  match o with
  | Some s => if String.eqb s "" then default else s
  | None => default
  end.

(** [d[name].append(x)]; a missing key raises [KeyError]. *)
Definition append_to (d : gmap string (list string)) (name x : string)
  : outcome (gmap string (list string)) :=
  match d !! name with
  | Some l => Returns (<[name := l ++ [x]]> d)
  | None => Raises (Raised KeyError name)
  end.

Definition tour_append (name step : string) : St builders unit :=
  b ← st_get;
  d ← st_lift (append_to (_tour_steps b) name step);
  st_modify (set_tour_steps (fun _ => d)).

(** [self._tour_steps[name][0]] *)
Definition tour_header (name : string) : St builders string :=
  b ← st_get;
  match _tour_steps b !! name with
  | Some (t :: _) => mret t
  | Some [] => st_raise (Raised IndexError "list index out of range")
  | None => st_raise (Raised KeyError name)
  end.

(** [self._tour_steps[name] = []; self._tour_steps[name].append(new_tour)] *)
Definition start_tour (name new_tour : string) : St builders unit :=
  st_modify (set_tour_steps (fun d => <[name := [new_tour]]> d)).

Definition shepherd_theme_of (theme : string) (default : string) : string :=
  if String.eqb theme "default" then "shepherd-theme-default"
  else if String.eqb theme "dark" then "shepherd-theme-dark"
  else if String.eqb theme "light" then "shepherd-theme-arrows"
  else if String.eqb theme "arrows" then "shepherd-theme-arrows"
  else if String.eqb theme "square" then "shepherd-theme-square"
  else if String.eqb theme "square-dark" then "shepherd-theme-square-dark"
  else default.

Definition shepherd_tour_header (shepherd_theme : string) : string :=
  nl
  +:+ "            // Shepherd Tour" +:+ nl
  +:+ "            var tour = new Shepherd.Tour({" +:+ nl
  +:+ "                defaults: {" +:+ nl
  +:+ "                    classes: '" +:+ shepherd_theme +:+ "'," +:+ nl
  +:+ "                    scrollTo: true" +:+ nl
  +:+ "                }" +:+ nl
  +:+ "            });" +:+ nl
  +:+ "            var allButtons = {" +:+ nl
  +:+ "                skip: {" +:+ nl
  +:+ "                    text: " +:+ dq +:+ "Skip" +:+ dq +:+ "," +:+ nl
  +:+ "                    action: tour.cancel," +:+ nl
  +:+ "                    classes: 'shepherd-button-secondary tour-button-left'"
  +:+ nl
  +:+ "                }," +:+ nl
  +:+ "                back: {" +:+ nl
  +:+ "                    text: " +:+ dq +:+ "Back" +:+ dq +:+ "," +:+ nl
  +:+ "                    action: tour.back," +:+ nl
  +:+ "                    classes: 'shepherd-button-secondary'" +:+ nl
  +:+ "                }," +:+ nl
  +:+ "                next: {" +:+ nl
  +:+ "                    text: " +:+ dq +:+ "Next" +:+ dq +:+ "," +:+ nl
  +:+ "                    action: tour.next," +:+ nl
  +:+ "                    classes: 'shepherd-button-primary tour-button-right'"
  +:+ nl
  +:+ "                }," +:+ nl
  +:+ "            };" +:+ nl
  +:+ "            var firstStepButtons = [allButtons.skip, allButtons.next];"
  +:+ nl
  +:+ "            var midTourButtons = [allButtons.back, allButtons.next];"
  +:+ nl
  +:+ "            ".

Definition bootstrap_tour_header : string :=
  nl
  +:+ "            // Bootstrap Tour" +:+ nl
  +:+ "            var tour = new Tour({" +:+ nl
  +:+ "            container: 'body'," +:+ nl
  +:+ "            animation: true," +:+ nl
  +:+ "            keyboard: true," +:+ nl
  +:+ "            orphan: true," +:+ nl
  +:+ "            smartPlacement: true," +:+ nl
  +:+ "            autoscroll: true," +:+ nl
  +:+ "            backdrop: true," +:+ nl
  +:+ "            backdropContainer: 'body'," +:+ nl
  +:+ "            backdropPadding: 3," +:+ nl
  +:+ "            });" +:+ nl
  +:+ "            tour.addSteps([" +:+ nl
  +:+ "            ".

Definition driverjs_tour_header : string :=
  nl
  +:+ "            // DriverJS Tour" +:+ nl
  +:+ "            var tour = new Driver({" +:+ nl
  +:+ "                opacity: 0.24,  // Background opacity (0: no popover / overlay)"
  +:+ nl
  +:+ "                padding: 6,    // Distance of element from around the edges"
  +:+ nl
  +:+ "                allowClose: false, // Whether clicking on overlay should close"
  +:+ nl
  +:+ "                overlayClickNext: false, // Move to next step on overlay click"
  +:+ nl
  +:+ "                doneBtnText: 'Done', // Text that appears on the Done button"
  +:+ nl
  +:+ "                closeBtnText: 'Close', // Text appearing on the Close button"
  +:+ nl
  +:+ "                nextBtnText: 'Next', // Text that appears on the Next button"
  +:+ nl
  +:+ "                prevBtnText: 'Previous', // Text appearing on Previous button"
  +:+ nl
  +:+ "                showButtons: true, // This shows control buttons in the footer"
  +:+ nl
  +:+ "                keyboardControl: true, // (escape to close, arrow keys to move)"
  +:+ nl
  +:+ "                animate: true,   // Animate while changing highlighted element"
  +:+ nl
  +:+ "            });" +:+ nl
  +:+ "            tour.defineSteps([" +:+ nl
  +:+ "            ".

Definition hopscotch_tour_header : string :=
  nl
  +:+ "            // Hopscotch Tour" +:+ nl
  +:+ "            var tour = {" +:+ nl
  +:+ "            id: " +:+ dq +:+ "hopscotch_tour" +:+ dq +:+ "," +:+ nl
  +:+ "            steps: [" +:+ nl
  +:+ "            ".

Definition introjs_tour_header : string :=
  nl
  +:+ "            // IntroJS Tour" +:+ nl
  +:+ "            function startIntro(){" +:+ nl
  +:+ "            var intro = introJs();" +:+ nl
  +:+ "            intro.setOptions({" +:+ nl
  +:+ "            steps: [" +:+ nl
  +:+ "            ".

Section Tours.
(** [page_utils], [js_utils] and the converters ([h]); the colours of
    [constants.TourColor]; and [re.search] for the classes of a Shepherd
    header, [None] when the pattern does not match. *)
Context (h : helpers)
        (TourColor_theme_color TourColor_hover_color : string)
        (shepherd_base_theme : string -> option string).

(** [create_shepherd_tour(name, theme)] *)
Definition create_shepherd_tour (name theme : option string) : St builders unit :=
  let shepherd_theme :=
    match theme with
    | Some t => if String.eqb t "" then "shepherd-theme-arrows"
                else shepherd_theme_of (PyStr.lower t) "shepherd-theme-arrows"
    | None => "shepherd-theme-arrows"
    end in
  let name := text_or name "default" in
  start_tour name (shepherd_tour_header shepherd_theme).

Definition create_bootstrap_tour (name : option string) : St builders unit :=
  start_tour (text_or name "default") bootstrap_tour_header.

Definition create_driverjs_tour (name : option string) : St builders unit :=
  start_tour (text_or name "default") driverjs_tour_header.

Definition create_hopscotch_tour (name : option string) : St builders unit :=
  start_tour (text_or name "default") hopscotch_tour_header.

Definition create_introjs_tour (name : option string) : St builders unit :=
  st_modify (fun b =>
    {| _tour_steps := _tour_steps b;
       _chart_data := _chart_data b; _chart_label := _chart_label b;
       _chart_first_series := _chart_first_series b;
       _chart_series_count := _chart_series_count b;
       _chart_count := _chart_count b;
       _presentation_slides := _presentation_slides b;
       _presentation_transition := _presentation_transition b;
       introjs_theme_color :=
         Some (default TourColor_theme_color (introjs_theme_color b));
       introjs_hover_color :=
         Some (default TourColor_hover_color (introjs_hover_color b)) |});;
  start_tour (text_or name "default") introjs_tour_header.

(** [create_tour(name, theme)] *)
Definition create_tour (name theme : option string) : St builders unit :=
  let name := Some (text_or name "default") in
  match theme with
  | Some t =>
      if String.eqb t "" then create_shepherd_tour name (Some "light") else
      let t' := PyStr.lower t in
      if String.eqb t' "bootstrap" then create_bootstrap_tour name
      else if String.eqb t' "hopscotch" then create_hopscotch_tour name
      else if String.eqb t' "intro" then create_introjs_tour name
      else if String.eqb t' "introjs" then create_introjs_tour name
      else if String.eqb t' "driver" then create_driverjs_tour name
      else if String.eqb t' "driverjs" then create_driverjs_tour name
      else if String.eqb t' "shepherd" then create_shepherd_tour name (Some "light")
      else if String.eqb t' "light" then create_shepherd_tour name (Some "light")
      else if String.eqb t' "dark" then create_shepherd_tour name (Some "dark")
      else if String.eqb t' "arrows" then create_shepherd_tour name (Some "light")
      else if String.eqb t' "square" then create_shepherd_tour name (Some "square")
      else if String.eqb t' "square-dark"
           then create_shepherd_tour name (Some "square-dark")
      else if String.eqb t' "default" then create_shepherd_tour name (Some "default")
      else create_shepherd_tour name (Some t)
  | None => create_shepherd_tour name (Some "light")
  end.

(** [__add_shepherd_tour_step] *)
Definition add_shepherd_tour_step (message selector name title : string)
  (theme : option string) (alignment : string) : St builders unit :=
  header ← tour_header name;
  shepherd_theme ←
    (let named := shepherd_theme_of (default "" theme) "" in
     if negb (String.eqb named "") then mret named
     else match shepherd_base_theme header with
          | Some t => mret t
          | None =>
              st_raise (Raised AttributeError
                          "'NoneType' object has no attribute 'group'")
          end);
  let shepherd_classes :=
    if String.eqb selector "html"
    then shepherd_theme +:+ " shepherd-orphan" else shepherd_theme in
  b ← st_get;
  let buttons :=
    match _tour_steps b !! name with
    | Some l => if (1 <? length l)%nat then "midTourButtons"
                else "firstStepButtons"
    | None => "firstStepButtons"
    end in
  let step :=
    "tour.addStep('" +:+ name +:+ "', {" +:+ nl
    +:+ "                    title: '" +:+ title +:+ "'," +:+ nl
    +:+ "                    classes: '" +:+ shepherd_classes +:+ "'," +:+ nl
    +:+ "                    text: '" +:+ message +:+ "'," +:+ nl
    +:+ "                    attachTo: {element: '" +:+ selector +:+ "', on: '" +:+ alignment +:+ "'}," +:+ nl
    +:+ "                    buttons: " +:+ buttons +:+ "," +:+ nl
    +:+ "                    advanceOn: '.docs-link click'" +:+ nl
    +:+ "                });" in
  tour_append name step.

(** [__add_bootstrap_tour_step]; [duration] is in whole seconds. *)
Definition add_bootstrap_tour_step (message selector name title alignment : string)
  (duration : option Z) : St builders unit :=
  let '(selector, element_row) :=
    if negb (String.eqb selector "html") then
      let selector := make_css_match_first_element_only h selector in
      (selector, "element: '" +:+ selector +:+ "',")
    else (selector, "") in
  let duration :=
    match duration with
    | Some d => if d =? 0 then "0" else PyStr.str_int (d * 1000) +:+ ".0"
    | None => "0"
    end in
  let bd := if String.eqb selector "html" then "backdrop: false,"
            else "backdrop: true," in
  let step :=
    "{" +:+ nl
    +:+ "                " +:+ element_row +:+ nl
    +:+ "                title: '" +:+ title +:+ "'," +:+ nl
    +:+ "                content: '" +:+ message +:+ "'," +:+ nl
    +:+ "                orphan: true," +:+ nl
    +:+ "                autoscroll: true," +:+ nl
    +:+ "                " +:+ bd +:+ nl
    +:+ "                placement: 'auto " +:+ alignment +:+ "'," +:+ nl
    +:+ "                smartPlacement: true," +:+ nl
    +:+ "                duration: " +:+ duration +:+ "," +:+ nl
    +:+ "                }," in
  tour_append name step.

(** [__add_driverjs_tour_step] *)
Definition add_driverjs_tour_step (message selector name title alignment : string)
  : St builders unit :=
  let message :=
    "<font size=" +:+ dq +:+ "3" +:+ dq +:+ " color=" +:+ dq +:+ "#33477B" +:+ dq +:+ "><b>" +:+ message +:+ "</b></font>" in
  let '(title_row, message) :=
    if String.eqb title "" then ("title: '" +:+ message +:+ "',", "")
    else ("title: '" +:+ title +:+ "',", message) in
  let align_row := "position: '" +:+ alignment +:+ "'," in
  let ani_row := "animate: true," in
  let '(selector, ani_row, align_row) :=
    if String.eqb selector "" || String.eqb selector "html"
       || String.eqb selector "body"
    then ("body", "animate: false,", "position: 'mid-center',")
    else (selector, ani_row, align_row) in
  let element_row := "element: '" +:+ selector +:+ "'," in
  let desc_row := "description: '" +:+ message +:+ "'," in
  let step :=
    "{" +:+ nl
    +:+ "                " +:+ element_row +:+ nl
    +:+ "                " +:+ ani_row +:+ nl
    +:+ "                popover: {" +:+ nl
    +:+ "                  className: 'popover-class'," +:+ nl
    +:+ "                  " +:+ title_row +:+ nl
    +:+ "                  " +:+ desc_row +:+ nl
    +:+ "                  " +:+ align_row +:+ nl
    +:+ "                }" +:+ nl
    +:+ "                }," in
  tour_append name step.

(** [__add_hopscotch_tour_step] *)
Definition add_hopscotch_tour_step (message selector name title alignment : string)
  : St builders unit :=
  let '(selector, alignment, arrow_offset_row) :=
    if String.eqb selector "" || String.eqb selector "html"
    then ("head", "bottom", "arrowOffset: '200',")
    else (selector, alignment, "") in
  let step :=
    "{" +:+ nl
    +:+ "                target: '" +:+ selector +:+ "'," +:+ nl
    +:+ "                title: '" +:+ title +:+ "'," +:+ nl
    +:+ "                content: '" +:+ message +:+ "'," +:+ nl
    +:+ "                " +:+ arrow_offset_row +:+ nl
    +:+ "                showPrevButton: 'true'," +:+ nl
    +:+ "                scrollDuration: '550'," +:+ nl
    +:+ "                placement: '" +:+ alignment +:+ "'}," +:+ nl
    +:+ "                " in
  tour_append name step.

(** [__add_introjs_tour_step] *)
Definition add_introjs_tour_step (message selector name title alignment : string)
  : St builders unit :=
  let element_row :=
    if negb (String.eqb selector "html")
    then "element: '" +:+ selector +:+ "'," else "" in
  let message :=
    if negb (String.eqb title "")
    then "<center><b>" +:+ title +:+ "</b></center><hr>" +:+ message
    else message in
  let message :=
    "<font size=" +:+ dq +:+ "3" +:+ dq +:+ " color=" +:+ dq +:+ "#33477B" +:+ dq +:+ ">" +:+ message +:+ "</font>" in
  let step :=
    "{" +:+ element_row +:+ nl
    +:+ "            intro: '" +:+ message +:+ "'," +:+ nl
    +:+ "            position: '" +:+ alignment +:+ "'}," in
  tour_append name step.

(** [add_tour_step(message, selector, name, title, theme, alignment,
    duration)] *)
Definition add_tour_step (message selector name title theme alignment : option string)
  (duration : option Z) : St builders unit :=
  let selector := text_or selector "html" in
  let '(name, selector) :=
    if is_name_selector h selector then
      let name := get_name_from_selector h selector in
      (Some name, name_css name)
    else (name, selector) in
  let selector :=
    if is_xpath_selector h selector
    then convert_to_css_selector h selector XPATH else selector in
  let selector := escape_quotes_if_needed h selector in
  let name := text_or name "default" in
  b ← st_get;
  st_when (negb (bool_decide (is_Some (_tour_steps b !! name))))
    (* By default, will create an IntroJS tour if no tours exist *)
    (create_tour (Some name) (Some "introjs"));;
  let title := escape_quotes_if_needed h (text_or title "") in
  let message :=
    match message with
    | Some m => if String.eqb m "" then "" else escape_quotes_if_needed h m
    | None => ""
    end in
  alignment ←
    (let a := default "" alignment in
     if String.eqb a "" || negb (bool_decide (a ∈ ["top"; "bottom"; "left"; "right"]))
     then t_name ← tour_header name;
          if negb (PyStr.contains t_name "Hopscotch")
             && negb (PyStr.contains t_name "DriverJS")
          then mret "top" else mret "bottom"
     else mret a);
  header ← tour_header name;
  if PyStr.contains header "Bootstrap" then
    add_bootstrap_tour_step message selector name title alignment duration
  else if PyStr.contains header "DriverJS" then
    add_driverjs_tour_step message selector name title alignment
  else if PyStr.contains header "Hopscotch" then
    add_hopscotch_tour_step message selector name title alignment
  else if PyStr.contains header "IntroJS" then
    add_introjs_tour_step message selector name title alignment
  else
    add_shepherd_tour_step message selector name title theme alignment.
End Tours.

(** [repr] of a list of texts, as ["%s" % a_list] prints it. *)
Definition repr_list (l : list string) : string :=
  "[" +:+ String.concat ", " (map (fun s => "'" +:+ s +:+ "'") l) +:+ "]".

Definition valid_themes : list string :=
  ["serif"; "white"; "black"; "beige"; "simple"; "sky"; "league"; "moon";
   "night"; "blood"; "solarized"].

Definition valid_transitions : list string :=
  ["none"; "slide"; "fade"; "zoom"; "convex"; "concave"].

Definition transition_not_found (transition : string) : exn :=
  Raised Exception_
    ("Transition {" +:+ transition +:+ "} not found! Valid transitions: "
     +:+ repr_list valid_transitions).

(** The arguments of a chart once their defaults are filled in. *)
Record chart_spec : Type := {
  chart_title : string;
  chart_subtitle : string;
  chart_style : string;
  chart_data_name : string;
  chart_unit : string;
  chart_zero : bool;
  chart_libs : bool;
  chart_labels : string;
  chart_legend : string
}.

Definition numeric_value_expected : exn :=
  Raised Exception_
    ("Expecting a numeric value for " +:+ dq +:+ "value" +:+ dq +:+ "!").

Section Charts.
(** The markup of a chart is a template over the scripts of
    [constants.HighCharts]; the style sheets of a presentation are those
    of [constants.Reveal], by theme; [str_float] is [str] on a float. *)
Context (highchart_markup : Z -> chart_spec -> string)
        (Reveal_MIN_CSS : string) (Reveal_theme_css : string -> string)
        (str_float : spec_float -> string).

Definition escape_single_quotes (s : string) : string :=
  PyStr.replace_char "'" "\'" s.

(** [BaseCase.__create_highchart] *)
Definition create_highchart (chart_name title subtitle style data_name unit_ : option string)
  (zero libs labels legend : bool) : St builders unit :=
  let chart_name := text_or chart_name "default" in
  let title := text_or title "" in
  let subtitle := text_or subtitle "" in
  let style := text_or style "pie" in
  let data_name := text_or data_name "Series 1" in
  let unit_ := text_or unit_ "Values" in
  let labels := if labels then "true" else "false" in
  let legend := if legend then "true" else "false" in
  let title := escape_single_quotes title in
  let subtitle := escape_single_quotes subtitle in
  let unit_ := escape_single_quotes unit_ in
  st_modify (fun b =>
    let chart_count := _chart_count b + 1 in
    let new_chart :=
      highchart_markup chart_count
        {| chart_title := title; chart_subtitle := subtitle;
           chart_style := style; chart_data_name := data_name;
           chart_unit := unit_; chart_zero := zero; chart_libs := libs;
           chart_labels := labels; chart_legend := legend |} in
    {| _tour_steps := _tour_steps b;
       _chart_data := <[chart_name := [new_chart]]> (_chart_data b);
       _chart_label := <[chart_name := []]> (_chart_label b);
       _chart_first_series := <[chart_name := true]> (_chart_first_series b);
       _chart_series_count := <[chart_name := 1]> (_chart_series_count b);
       _chart_count := chart_count;
       _presentation_slides := _presentation_slides b;
       _presentation_transition := _presentation_transition b;
       introjs_theme_color := introjs_theme_color b;
       introjs_hover_color := introjs_hover_color b |}).

(** [create_pie_chart(chart_name, title, subtitle, data_name, unit, libs,
    labels, legend)] *)
Definition create_pie_chart (chart_name title subtitle data_name unit_ : option string)
  (libs labels legend : bool) : St builders unit :=
  let chart_name := text_or chart_name "default" in
  let data_name := text_or data_name "" in
  create_highchart (Some chart_name) title subtitle (Some "pie")
    (Some data_name) unit_ false libs labels legend.

(** [type(value) is int or type(value) is float] *)
Definition is_int_or_float (v : py_value) : bool :=
  match v with
  | PyInt _ | PyFloat _ => true
  | _ => false
  end.

(** ["%s" % value] for a number. *)
Definition str_number (v : py_value) : string :=
  match v with
  | PyInt z => PyStr.str_int z
  | PyFloat f => str_float f
  | _ => ""
  end.

Definition data_point_fragment (label value color : string) : string :=
  nl
  +:+ "            {" +:+ nl
  +:+ "            name: '" +:+ label +:+ "'," +:+ nl
  +:+ "            y: " +:+ value +:+ "," +:+ nl
  +:+ "            color: '" +:+ color +:+ "'" +:+ nl
  +:+ "            }," +:+ nl
  +:+ "            ".

(** [add_data_point(label, value, color, chart_name)] *)
Definition add_data_point (label : string) (value : py_value)
  (color chart_name : option string) : St builders unit :=
  let chart_name := text_or chart_name "default" in
  b ← st_get;
  st_when (negb (bool_decide (is_Some (_chart_data b !! chart_name))))
    (* Create a chart if it doesn't already exist *)
    (create_pie_chart (Some chart_name) None None None None true true true);;
  let value := if py_not value then PyInt 0 else value in
  if negb (is_int_or_float value)
  then st_raise numeric_value_expected else
  let color := text_or color "" in
  let label := escape_single_quotes label in
  let color := escape_single_quotes color in
  let data_point := data_point_fragment label (str_number value) color in
  b ← st_get;
  data ← st_lift (append_to (_chart_data b) chart_name data_point);
  st_modify (set_chart_data (fun _ => data));;
  first ← match _chart_first_series b !! chart_name with
          | Some f => mret f
          | None => st_raise (Raised KeyError chart_name)
          end;
  if first : bool then
    labels ← st_lift (append_to (_chart_label b) chart_name label);
    st_modify (set_chart_label (fun _ => labels))
  else mret tt.

Definition presentation_header (reveal_theme_css : string) : string :=
  "<html>" +:+ nl
  +:+ "<head>" +:+ nl
  +:+ "<meta charset=" +:+ dq +:+ "utf-8" +:+ dq +:+ ">" +:+ nl
  +:+ "<meta http-equiv=" +:+ dq +:+ "Content-Type" +:+ dq +:+ " content=" +:+ dq +:+ "text/html" +:+ dq +:+ ">" +:+ nl
  +:+ "<meta name=" +:+ dq +:+ "viewport" +:+ dq +:+ " content=" +:+ dq +:+ "shrink-to-fit=no" +:+ dq +:+ ">" +:+ nl
  +:+ "<link rel=" +:+ dq +:+ "stylesheet" +:+ dq +:+ " href=" +:+ dq +:+ Reveal_MIN_CSS +:+ dq +:+ ">" +:+ nl
  +:+ "<link rel=" +:+ dq +:+ "stylesheet" +:+ dq +:+ " href=" +:+ dq +:+ reveal_theme_css +:+ dq +:+ ">" +:+ nl
  +:+ "<style>" +:+ nl
  +:+ "pre{background-color:#fbe8d4;border-radius:8px;}" +:+ nl
  +:+ "div[flex_div]{height:68vh;margin:0;align-items:center;justify-content:center;}"
  +:+ nl
  +:+ "img[rounded]{border-radius:16px;max-width:64%;}" +:+ nl
  +:+ "</style>" +:+ nl
  +:+ "</head>" +:+ nl
  +:+ nl
  +:+ "<body>" +:+ nl
  +:+ "<!-- Generated by SeleniumBase - https://seleniumbase.io -->"
  +:+ nl
  +:+ "<div class=" +:+ dq +:+ "reveal" +:+ dq +:+ ">" +:+ nl
  +:+ "<div class=" +:+ dq +:+ "slides" +:+ dq +:+ ">" +:+ nl.

(** [create_presentation(name, theme, transition)] *)
Definition create_presentation (name theme transition : option string)
  : St builders unit :=
  let name := text_or name "default" in
  let theme :=
    match theme with
    | Some t => if String.eqb t "" || String.eqb t "default" then "serif" else t
    | None => "serif"
    end in
  let theme := PyStr.lower theme in
  if negb (bool_decide (theme ∈ valid_themes))
  then st_raise (Raised Exception_
                   ("Theme {" +:+ theme +:+ "} not found! Valid themes: "
                    +:+ repr_list valid_themes)) else
  let transition :=
    match transition with
    | Some t => if String.eqb t "" || String.eqb t "default" then "none" else t
    | None => "none"
    end in
  let transition := PyStr.lower transition in
  if negb (bool_decide (transition ∈ valid_transitions))
  then st_raise (transition_not_found transition) else
  let new_presentation := presentation_header (Reveal_theme_css theme) in
  st_modify (set_presentation (fun d => <[name := [new_presentation]]> d)
                              (fun d => <[name := transition]> d)).

(** The markup of one slide. *)
Definition slide_html (transition content : string) (image code iframe : option string)
  (content2 notes : string) : string :=
  let add_line := if PyStr.startswith content "<" then nl else "" in
  let html :=
    nl
    +:+ "<section data-transition=" +:+ dq +:+ transition +:+ dq +:+ ">" +:+ add_line +:+ content in
  let html :=
    if truthy_text image
    then html +:+ nl
         +:+ "<div flex_div><img rounded src=" +:+ dq +:+ default "" image +:+ dq +:+ " /></div>"
    else html in
  let html :=
    if truthy_text code
    then html +:+ nl +:+ "<div></div>"
         +:+ nl
         +:+ "<pre class=" +:+ dq +:+ "prettyprint" +:+ dq +:+ ">" +:+ nl
         +:+ default "" code +:+ "</pre>"
    else html in
  let html :=
    if truthy_text iframe
    then html +:+ nl
         +:+ "<div></div>" +:+ nl
         +:+ "<iframe src=" +:+ dq +:+ default "" iframe +:+ dq +:+ " style=" +:+ dq +:+ "width:92%;height:550px;" +:+ dq +:+ " title=" +:+ dq +:+ "iframe content" +:+ dq +:+ "></iframe>"
    else html in
  let add_line := if PyStr.startswith content2 "<" then nl else "" in
  let html :=
    if negb (String.eqb content2 "")
    then html +:+ add_line +:+ content2 else html in
  let html := html +:+ nl
         +:+ "<aside class=" +:+ dq +:+ "notes" +:+ dq +:+ ">" +:+ notes +:+ "</aside>" in
  html +:+ nl
  +:+ "</section>" +:+ nl.

(** [add_slide(content, image, code, iframe, content2, notes,
    transition, name)] *)
Definition add_slide (content image code iframe content2 notes transition name : option string)
  : St builders unit :=
  let name := text_or name "default" in
  b ← st_get;
  st_when (negb (bool_decide (is_Some (_presentation_slides b !! name))))
    (* Create a presentation if it doesn't already exist *)
    (create_presentation (Some name) (Some "default") (Some "default"));;
  let content := text_or content "" in
  let content2 := text_or content2 "" in
  let notes := text_or notes "" in
  b ← st_get;
  transition ←
    (if negb (truthy_text transition) then
       match _presentation_transition b !! name with
       | Some t => mret t
       | None => st_raise (Raised KeyError name)
       end
     else if bool_decide (transition = Some "default") then mret "none"
     else mret (default "" transition));
  let transition := PyStr.lower transition in
  if negb (bool_decide (transition ∈ valid_transitions))
  then st_raise (transition_not_found transition) else
  let html := slide_html transition content image code iframe content2 notes in
  slides ← st_lift (append_to (_presentation_slides b) name html);
  st_modify (set_presentation (fun _ => slides) (fun d => d)).

End Charts.

(** The nine prefixes [__looks_like_a_page_url] tests for. *)
Definition page_url_prefixes : list string :=
  ["http:"; "https:"; "://"; "chrome:"; "about:"; "data:"; "file:";
   "edge:"; "opera:"].


(** Every chart that has data also has its first-series flag and its
    list of labels: [__create_highchart] sets the three together. *)
Definition charts_wf (b : builders) : Prop :=
  forall n, is_Some (_chart_data b !! n) ->
            is_Some (_chart_first_series b !! n)
            /\ is_Some (_chart_label b !! n).

(** Every single quote of [s] comes right after a backslash. *)
Fixpoint quotes_escaped_from (after_backslash : bool) (s : string) : bool :=
  match s with
  | EmptyString => true
  | String c s' =>
      if Ascii.eqb c "'" then after_backslash && quotes_escaped_from false s'
      else quotes_escaped_from (Ascii.eqb c "\") s'
  end.

Definition quotes_escaped (s : string) : bool := quotes_escaped_from false s.

(** [self] right after [__init__]. *)
Definition new_builders : builders := {|
  _tour_steps := ∅; _chart_data := ∅; _chart_label := ∅;
  _chart_first_series := ∅; _chart_series_count := ∅; _chart_count := 0;
  _presentation_slides := ∅; _presentation_transition := ∅;
  introjs_theme_color := None; introjs_hover_color := None |}.

(** The markup [create_pie_chart(chart_name)] renders when every other
    argument has its default, and [self] once that chart is created. *)
Definition pie_markup (highchart_markup : Z -> chart_spec -> string)
  (count : Z) : string :=
  highchart_markup count
    {| chart_title := ""; chart_subtitle := ""; chart_style := "pie";
       chart_data_name := "Series 1"; chart_unit := "Values";
       chart_zero := false; chart_libs := true; chart_labels := "true";
       chart_legend := "true" |}.

Definition with_new_pie_chart (highchart_markup : Z -> chart_spec -> string)
  (chart_name : string) (b : builders) : builders :=
  {| _tour_steps := _tour_steps b;
     _chart_data :=
       <[chart_name := [pie_markup highchart_markup (_chart_count b + 1)]]>
         (_chart_data b);
     _chart_label := <[chart_name := []]> (_chart_label b);
     _chart_first_series := <[chart_name := true]> (_chart_first_series b);
     _chart_series_count := <[chart_name := 1]> (_chart_series_count b);
     _chart_count := _chart_count b + 1;
     _presentation_slides := _presentation_slides b;
     _presentation_transition := _presentation_transition b;
     introjs_theme_color := introjs_theme_color b;
     introjs_hover_color := introjs_hover_color b |}.

(** ** Notions used to state the properties of [check_window] *)

(** The level is accepted: the [Exception] about [level] is not
    raised. *)
Definition level_accepted (level : py_value) : bool :=
  negb (level_rejected (normalize_level level)).

(** [os.path.exists(path)] in the world [w]. *)
Definition exists_in (w : world) (path : string) : bool :=
  bool_decide (path ∈ dirs w) || bool_decide (is_Some (files w !! path)).

(** The folder of the baseline and its five files are all there. *)
Definition baseline_present (w : world) (path : string) : bool :=
  exists_in w path
  && exists_in w (page_url_file path)
  && exists_in w (screenshot_file path)
  && exists_in w (level_1_file path)
  && exists_in w (level_2_file path)
  && exists_in w (level_3_file path).

(** The world once [visual_baseline_folder_setup()] has made sure of the
    storage folder, and once the folder of the baseline is there too. *)
Definition with_storage_folder (STORAGE_FOLDER : string) (w : world) : world :=
  {| files := files w; dirs := {[STORAGE_FOLDER]} ∪ dirs w; stdout := stdout w |}.

Definition with_folders (STORAGE_FOLDER path : string) (w : world) : world :=
  let w1 := with_storage_folder STORAGE_FOLDER w in
  if exists_in w1 path then w1
  else {| files := files w1; dirs := {[path]} ∪ dirs w1; stdout := stdout w1 |}.

(** The files of a world after the ground truth of [pg] is written. *)
Definition baseline_files (path : string) (pg : page)
  (fs : gmap string content) : gmap string content :=
  <[level_3_file path := Json (level_3_of (page_tags pg))]>
    (<[level_2_file path := Json (level_2_of (page_tags pg))]>
       (<[level_1_file path := Json (level_1_of (page_tags pg))]>
          (<[page_url_file path := Text (page_url pg)]>
             (<[screenshot_file path := Png (page_screenshot pg)]> fs)))).

(** The stored tag list and the current one for a level 1, 2 or 3. *)
Definition tag_list_of (level : Z) (tags : list tag) : json :=
  if level =? 1 then level_1_of tags
  else if level =? 2 then level_2_of tags
  else level_3_of tags.

Definition level_file (level : Z) (path : string) : string :=
  if level =? 1 then level_1_file path
  else if level =? 2 then level_2_file path
  else level_3_file path.

(** The operation [m] leaves the files and the folders as they are. *)
Definition keeps_files {A} (m : St world A) : Prop :=
  forall w, files (snd (m w)) = files w /\ dirs (snd (m w)) = dirs w.

(** The binary64 number [1.0]. *)
Definition float_one : spec_float := S754_finite false 4503599627370496 (-52).

(** ** Notions used to state the properties of the driver methods *)

(** [str.lstrip] on the list of characters. *)
Fixpoint drop_spaces (l : list ascii) : list ascii :=
  match l with
  | [] => []
  | c :: l' => if PyStr.is_space c then drop_spaces l' else l
  end.

Definition is_shadow_read (c : call) : bool :=
  match c with GetShadowText _ => true | _ => false end.

Definition is_sleep (c : call) : bool :=
  match c with Sleep _ => true | _ => false end.

(** The calls a shadow-text wait makes: readings of the text of
    [selector], readings of the clock, and sleeps of 0.1 second. *)
Definition shadow_wait_call (selector : string) (c : call) : Prop :=
  c = GetShadowText selector \/ c = TimeTime \/ c = Sleep 100.

(** [count p l]: how many calls of [l] satisfy [p]. *)
Definition count (p : call -> bool) (l : list call) : nat :=
  length (filter (fun c => p c = true) l).

(** Whether the loop that fills [action_dict] keeps the action: with a
    reused session, the actions older than the start of the test are
    skipped. *)
Definition kept_action (reuse_session : bool) (js_start_time : Z) (a : action)
  : bool :=
  negb (reuse_session && (time_stamp a <? js_start_time)).

(** Decimal numerals: the digit a character stands for, the texts made
    of digits, and the number a numeral denotes. *)
Definition digit_of (c : ascii) : N := N.of_nat (nat_of_ascii c - 48).

Definition is_digit (c : ascii) : bool :=
  (48 <=? nat_of_ascii c)%nat && (nat_of_ascii c <=? 57)%nat.

Fixpoint all_digits (s : string) : bool :=
  match s with
  | EmptyString => true
  | String c s' => is_digit c && all_digits s'
  end.

Fixpoint decimal_value (s : string) : N :=
  match s with
  | EmptyString => 0
  | String c s' =>
      digit_of c * 10 ^ N.of_nat (String.length s') + decimal_value s'
  end.

(** A click on the element: the native click, the JavaScript click, or
    the jQuery click. *)
Definition is_click_attempt (c : call) : bool :=
  match c with
  | ElementClick _ | JsClick _ _ | JqueryClick _ _ => true
  | _ => false
  end.

(** The clicks that a handler of [click] forgives: a failure of the
    JavaScript click or of the jQuery click leads to the next
    alternative. *)
Definition is_script_click (c : call) : bool :=
  match c with
  | JsClick _ _ | JqueryClick _ _ => true
  | _ => false
  end.

(** The calls of the special case of a link that opens a new tab. *)
Definition is_new_tab_call (c : call) : bool :=
  match c with
  | ElementTagName _ | ElementGetAttribute _ _ | ExecuteScript _
  | CurrentWindowHandle | OpenNewWindow | Open _ | SwitchToWindow _ => true
  | _ => false
  end.

(** The click that a handler of [click] retries on the element [el']:
    the native one, except on Safari. *)
Definition retry_click (cfg : config) (selector : string) (by_ : By)
  (el' : element) : call :=
  if String.eqb (browser cfg) "safari" then
    if By_eqb by_ LINK_TEXT then JqueryClick selector by_
    else JsClick selector by_
  else ElementClick el'.

(** The click of the [try] block on the element [el]. *)
Definition first_click (cfg : config) (selector : string) (by_ : By)
  (el : element) : call :=
  if String.eqb (browser cfg) "ie" && By_eqb by_ LINK_TEXT
  then JqueryClick selector by_
  else retry_click cfg selector by_ el.

(** The calls of the handler of a stale element, [el'] being the
    element that the re-wait returns. *)
Definition stale_retry_calls (cfg : config) (selector : string) (by_ : By)
  (timeout : Z) (el' : element) : list call :=
  [WaitForReadyStateComplete; Sleep 160;
   PageWaitForElementVisible selector by_ timeout;
   ScrollToElement el' selector by_; retry_click cfg selector by_ el'].

(** The first calls of the handler of a not-interactable element. *)
Definition not_interactable_retry_head (selector : string) (by_ : By)
  (timeout : Z) : list call :=
  [WaitForReadyStateComplete; Sleep 100;
   PageWaitForElementVisible selector by_ timeout].

(** The calls of the handler of the other WebDriver exceptions, when
    both script clicks fail. *)
Definition webdriver_fallback_calls (selector : string) (by_ : By)
  (timeout : Z) (el' : element) : list call :=
  [WaitForReadyStateComplete; JsClick selector by_; JqueryClick selector by_;
   PageWaitForElementVisible selector by_ timeout; ElementClick el'].

(** The run [r] raised [y] at its last call. *)
Definition raised_by_last_call {A} (e : env) (r : outcome A * list call)
  (y : exn) : Prop :=
  exists c log0, snd r = c :: log0 /\ e log0 c = Raises y.

(** The last call of the run [r] returned. *)
Definition last_call_returned {A} (e : env) (r : outcome A * list call)
  (p : call -> bool) : Prop :=
  exists c log0,
    snd r = c :: log0 /\ p c = true
    /\ match e log0 c with Returns _ => True | Raises _ => False end.

(** What the handler of a stale element did, [new] being its calls, the
    most recent one first, and [r] the run of the [try] statement. *)
Definition stale_retry_spec (cfg : config) (selector : string) (by_ : By)
  (timeout : Z) (e : env) (new : list call) (r : outcome flow * list call)
  : Prop :=
  exists el',
    List.rev new `prefix_of` stale_retry_calls cfg selector by_ timeout el'
    /\ match fst r with
       | Returns fl =>
           fl = Next
           /\ List.rev new = stale_retry_calls cfg selector by_ timeout el'
       | Raises y =>
           exists c log0,
             snd r = c :: log0 /\ e log0 c = Raises y
             /\ c <> ScrollToElement el' selector by_
       end.

(** What the handler of a not-interactable element did: after its
    first calls and those of the special case of a new tab, [mid], it
    either returned from [click] without a click, or scrolled and
    clicked once more. *)
Definition not_interactable_retry_spec (cfg : config) (selector : string)
  (by_ : By) (timeout : Z) (e : env) (new : list call)
  (r : outcome flow * list call) : Prop :=
  exists mid el',
    Forall (fun c => is_new_tab_call c = true) mid
    /\ let head := not_interactable_retry_head selector by_ timeout in
       let scroll := ScrollToElement el' selector by_ in
       match fst r with
       | Returns Returned =>
           List.rev new = head ++ mid /\ mid <> []
       | Returns Next =>
           List.rev new
           = head ++ mid ++ [scroll; retry_click cfg selector by_ el']
       | Raises y =>
           raised_by_last_call e r y
           /\ (List.rev new `prefix_of` head
               \/ List.rev new = head ++ mid ++ [scroll]
               \/ List.rev new
                  = head ++ mid ++ [scroll; retry_click cfg selector by_ el'])
       end.

(** What the handler of the other WebDriver exceptions did: the
    JavaScript click, then the jQuery click if that one failed, then one
    more wait for the element and one more native click if that one
    failed too. *)
Definition webdriver_fallback_spec (selector : string) (by_ : By)
  (timeout : Z) (e : env) (new : list call) (r : outcome flow * list call)
  : Prop :=
  exists el',
    List.rev new `prefix_of` webdriver_fallback_calls selector by_ timeout el'
    /\ match fst r with
       | Returns fl => fl = Next /\ last_call_returned e r is_click_attempt
       | Raises y =>
           exists c log0,
             snd r = c :: log0 /\ e log0 c = Raises y
             /\ is_script_click c = false
       end.

(** The calls of [update_text]'s handler for a stale or not-interactable
    element when none of them fails, [el'] being the element that the
    re-wait returns: one wait for the page, one sleep of 0.16 second,
    one re-wait for the element, and the typing again. *)
Definition typing_retry_calls (cfg : config) (selector text : string)
  (by_ : By) (timeout : Z) (el' : element) : list call :=
  [WaitForReadyStateComplete; Sleep 160;
   WaitForElementVisible selector by_ timeout; ElementClear el']
  ++ (if negb (PyStr.endswith text PyStr.nl)
      then [ElementSendKeys el' text]
      else [ElementSendKeys el' (PyStr.drop_last text);
            ElementSendKeys el' Keys_RETURN]
           ++ (if WAIT_FOR_RSC_ON_PAGE_LOADS cfg
               then [WaitForReadyStateComplete] else [])).

(** Whether the reading of the text of [selector] that follows the
    calls of [log] returns a text that compares well with the stripped
    expected text [T]. *)
Definition read_matches (matches : string -> string -> bool)
  (T selector : string) (e : env) (log : list call) : bool :=
  match e log (GetShadowText selector) with
  | Returns actual => matches (PyStr.strip actual) T
  | Raises _ => false
  end.

(** No reading among the calls of [log] (the most recent one first)
    found the text: each one raised or returned another text. *)
Fixpoint reads_failed (matches : string -> string -> bool)
  (T selector : string) (e : env) (log : list call) : Prop :=
  match log with
  | [] => True
  | c :: rest =>
      (c = GetShadowText selector ->
       read_matches matches T selector e rest = false)
      /\ reads_failed matches T selector e rest
  end.

(** How the polling loop ends after the calls of [log]: an iteration
    returned [True] on a reading that found the text, or the loop was
    left with every reading failed, or the clock or the sleep raised. *)
Definition loop_outcome (matches : string -> string -> bool)
  (selector : string) (e : env) (T : string) (log : list call)
  (r : outcome (option bool * string)) : Prop :=
  match r with
  | Returns (Some b, _) =>
      b = true
      /\ exists log0,
           log = GetShadowText selector :: log0
           /\ read_matches matches T selector e log0 = true
           /\ reads_failed matches T selector e log0
  | Returns (None, text') =>
      PyStr.strip text' = T /\ reads_failed matches T selector e log
  | Raises x =>
      reads_failed matches T selector e log
      /\ exists c log0, log = c :: log0 /\ e log0 c = Raises x
  end.

(** What a shadow-text wait [m] does in the environment [e], with
    [log] the calls it made, the most recent one first:
    - it only reads the text of [selector], reads the clock and sleeps
      0.1 second;
    - with [N = SMALL_TIMEOUT * 10], it reads the text at most [N + 1]
      times, sleeps at most [N] times and makes at most [3 * N + 2]
      calls;
    - it returns [True] exactly on the first reading that finds the
      text, which is then its last call;
    - it raises when no reading found the text, and the exception is
      the one its last call raised, or the timeout exception with the
      final message when that last call is a reading of the text that
      returned. *)
Definition polling_wait_spec (cfg : config)
  (matches : string -> string -> bool)
  (final_msg : string -> string -> string) (text selector : string)
  (e : env) (m : M bool) : Prop :=
  let N := Z.to_nat (SMALL_TIMEOUT cfg * 10) in
  let T := PyStr.strip text in
  let log := snd (m e []) in
  Forall (shadow_wait_call selector) log
  /\ (count is_shadow_read log <= N + 1)%nat
  /\ (count is_sleep log <= N)%nat
  /\ (length log <= 3 * N + 2)%nat
  /\ match fst (m e []) with
     | Returns b =>
         b = true
         /\ exists log0,
              log = GetShadowText selector :: log0
              /\ read_matches matches T selector e log0 = true
              /\ reads_failed matches T selector e log0
     | Raises x =>
         reads_failed matches T selector e log
         /\ exists c log0,
              log = c :: log0
              /\ (e log0 c = Raises x
                  \/ x = timeout_exception ElementNotVisibleException
                           (final_msg T selector)
                     /\ c = GetShadowText selector
                     /\ exists actual,
                          e log0 (GetShadowText selector) = Returns actual)
     end.

(** ** Further methods of [BaseCase]

    The notions and methods that the last properties of Part II are
    about. *)



(** ** Presentations *)

(** The texts on which Python's [lower] and the [PyStr.lower] of this
    development agree: those of ASCII characters. *)
Fixpoint is_ascii (s : string) : bool :=
  match s with
  | EmptyString => true
  | String c s' => (nat_of_ascii c <? 128)%nat && is_ascii s'
  end.

(** Every presentation that has slides also has its transition, one of
    the valid ones: [create_presentation] checks the transition and
    sets the two together. *)
Definition presentations_ok (b : builders) : Prop :=
  forall n, is_Some (_presentation_slides b !! n) ->
            exists t, _presentation_transition b !! n = Some t
                      /\ t ∈ valid_transitions.

(** [theme or "serif"], [transition or "none"], with ["default"] for
    the default, in lower case. *)
Definition chosen_theme (theme : option string) : string :=
  PyStr.lower
    match theme with
    | Some t => if String.eqb t "" || String.eqb t "default" then "serif" else t
    | None => "serif"
    end.

Definition chosen_transition (transition : option string) : string :=
  PyStr.lower
    match transition with
    | Some t => if String.eqb t "" || String.eqb t "default" then "none" else t
    | None => "none"
    end.

(** [self] once the presentation [name] is created anew, with its
    header as only fragment. *)
Definition with_presentation (header transition name : string) (b : builders)
  : builders :=
  set_presentation (fun d => <[name := [header]]> d)
                   (fun d => <[name := transition]> d) b.

(** ** Tours *)

(** The outcome of a call that either appends [step] to the list [l] of
    the tour [n], or raises and leaves [s] as it was. *)
Definition appends_step_or_fails (n : string) (l : list string) (s : builders)
  (r : outcome unit * builders) : Prop :=
  (exists step,
     r = (Returns tt, set_tour_steps (fun d => <[n := l ++ [step]]> d) s))
  \/ (exists x, r = (Raises x, s)).

(** The header of a tour names one of the four libraries that
    [add_tour_step] looks for before it falls back to Shepherd. *)
Definition names_a_tour_library (header : string) : bool :=
  PyStr.contains header "Bootstrap" || PyStr.contains header "DriverJS"
  || PyStr.contains header "Hopscotch" || PyStr.contains header "IntroJS".

(** The header of the tour that [create_tour] makes for a theme, in
    lower case, that names one of the four libraries other than
    Shepherd. *)
Definition tour_library_header (theme : string) : option string :=
  if String.eqb theme "bootstrap" then Some bootstrap_tour_header
  else if String.eqb theme "hopscotch" then Some hopscotch_tour_header
  else if String.eqb theme "intro" then Some introjs_tour_header
  else if String.eqb theme "introjs" then Some introjs_tour_header
  else if String.eqb theme "driver" then Some driverjs_tour_header
  else if String.eqb theme "driverjs" then Some driverjs_tour_header
  else None.

(** ** Charts: [add_series_to_chart] *)

Definition set_chart_series
  (f : gmap string Z -> gmap string Z) (g : gmap string bool -> gmap string bool)
  (b : builders) : builders :=
  {| _tour_steps := _tour_steps b;
     _chart_data := _chart_data b; _chart_label := _chart_label b;
     _chart_first_series := g (_chart_first_series b);
     _chart_series_count := f (_chart_series_count b);
     _chart_count := _chart_count b;
     _presentation_slides := _presentation_slides b;
     _presentation_transition := _presentation_transition b;
     introjs_theme_color := introjs_theme_color b;
     introjs_hover_color := introjs_hover_color b |}.

Definition series_fragment (data_name : string) : string :=
  nl
  +:+ "            ]" +:+ nl
  +:+ "            }," +:+ nl
  +:+ "            {" +:+ nl
  +:+ "            name: '" +:+ data_name +:+ "'," +:+ nl
  +:+ "            colorByPoint: false," +:+ nl
  +:+ "            data: [" +:+ nl
  +:+ "            ".

(** [add_series_to_chart(data_name, chart_name)] *)
Definition add_series_to_chart (data_name chart_name : option string)
  : St builders unit :=
  let chart_name := text_or chart_name "default" in
  b ← st_get;
  count ← match _chart_series_count b !! chart_name with
          | Some c => mret (c + 1)
          | None => st_raise (Raised KeyError chart_name)
          end;
  st_modify (set_chart_series (fun d => <[chart_name := count]> d)
                              (fun d => d));;
  let data_name :=
    if negb (truthy_text data_name)
    then "Series " +:+ PyStr.str_int count
    else default "" data_name in
  let series := series_fragment data_name in
  b ← st_get;
  data ← st_lift (append_to (_chart_data b) chart_name series);
  st_modify (set_chart_data (fun _ => data));;
  st_modify (set_chart_series (fun d => d)
                              (fun d => <[chart_name := false]> d)).

(** The charts of [self] are those that [__create_highchart] made: a
    chart has its data, its labels, its first-series flag and its count
    of series together. *)
Definition charts_complete (b : builders) : Prop :=
  forall n, is_Some (_chart_series_count b !! n) ->
            is_Some (_chart_data b !! n).

(** ** The default timeouts

    [settings.SMALL_TIMEOUT] and [settings.LARGE_TIMEOUT], the copies
    that [setUp] keeps in [sb_config] (each attribute may be missing),
    the flag of [self], and what [logging.info] received. *)
Record timeout_state : Type := {
  has_browser : bool;                       (* hasattr(self, "browser") *)
  settings_SMALL_TIMEOUT : py_value;
  settings_LARGE_TIMEOUT : py_value;
  sb_config_is_timeout_changed : option bool;
  sb_config_SMALL_TIMEOUT : option py_value;
  sb_config_LARGE_TIMEOUT : option py_value;
  overrided_default_timeouts : bool;
  logging_info : list string
}.

(** What the timeout methods raise. *)
Inductive timeout_error : Type :=
  | Out_of_scope       (* OutOfScopeException, from __check_scope() *)
  | Not_numeric        (* Exception('Expecting a numeric value ...') *)
  | Negative_timeout   (* Exception('... cannot be a negative number!') *)
  | Int_too_large      (* OverflowError, from float(timeout) *)
  | Missing_attribute (name : string)   (* AttributeError, on sb_config *).

(** The binary64 numbers [0.0], [0.5] and [60.0]. *)
Definition float_zero : spec_float := S754_zero false.
Definition min_timeout : spec_float := S754_finite false 4503599627370496 (-53).
Definition max_timeout : spec_float := S754_finite false 8444249301319680 (-47).

(** [float(z)] for an [int]: the nearest binary64 number, ties to even;
    [OverflowError] when it is out of range. *)
Definition float_of_int (z : Z) : option spec_float :=
  match binary_normalize 53 1024 z 0 false with
  | S754_infinity _ => None
  | f => Some f
  end.

(** [set_default_timeout(timeout)] *)
Definition set_default_timeout (timeout : py_value) (s : timeout_state)
  : timeout_error + timeout_state :=
  if negb (has_browser s) then inl Out_of_scope else
  match timeout with
  | PyInt _ | PyFloat _ =>
      let negative :=
        match timeout with
        | PyInt z => z <? 0
        | PyFloat f => SFltb f float_zero
        | _ => false
        end in
      if negative then inl Negative_timeout else
      let converted :=
        match timeout with
        | PyInt z => float_of_int z
        | PyFloat f => Some f
        | _ => None
        end in
      match converted with
      | None => inl Int_too_large
      | Some timeout =>
          let '(timeout, logged) :=
            if SFltb timeout min_timeout
            then (min_timeout, ["Minimum default timeout = 0.5"])
            else if SFltb max_timeout timeout
            then (max_timeout, ["Maximum default timeout = 60.0"])
            else (timeout, []) in
          inr {| has_browser := has_browser s;
                 settings_SMALL_TIMEOUT := PyFloat timeout;
                 settings_LARGE_TIMEOUT := PyFloat timeout;
                 sb_config_is_timeout_changed := Some true;
                 sb_config_SMALL_TIMEOUT := sb_config_SMALL_TIMEOUT s;
                 sb_config_LARGE_TIMEOUT := sb_config_LARGE_TIMEOUT s;
                 overrided_default_timeouts := true;
                 logging_info := logging_info s ++ logged |}
      end
  | _ => inl Not_numeric
  end.

(** [if sb_config._SMALL_TIMEOUT and sb_config._LARGE_TIMEOUT:]; the
    second attribute is read only when the first is truthy. *)
Definition saved_timeouts (s : timeout_state)
  : timeout_error + option (py_value * py_value) :=
  match sb_config_SMALL_TIMEOUT s with
  | None => inl (Missing_attribute "_SMALL_TIMEOUT")
  | Some small =>
      if py_not small then inr None else
      match sb_config_LARGE_TIMEOUT s with
      | None => inl (Missing_attribute "_LARGE_TIMEOUT")
      | Some large => if py_not large then inr None else inr (Some (small, large))
      end
  end.

(** [reset_default_timeout()], and the same statements in [tearDown]. *)
Definition reset_default_timeout (s : timeout_state)
  : timeout_error + timeout_state :=
  if overrided_default_timeouts s then
    match saved_timeouts s with
    | inl e => inl e
    | inr None => inr s
    | inr (Some (small, large)) =>
        inr {| has_browser := has_browser s;
               settings_SMALL_TIMEOUT := small;
               settings_LARGE_TIMEOUT := large;
               sb_config_is_timeout_changed := Some false;
               sb_config_SMALL_TIMEOUT := sb_config_SMALL_TIMEOUT s;
               sb_config_LARGE_TIMEOUT := sb_config_LARGE_TIMEOUT s;
               overrided_default_timeouts := false;
               logging_info := logging_info s |}
    end
  else inr s.

(** The statements of [setUp] on the default timeouts: keep a copy of
    the settings on the first run, and restore the settings that a
    previous test left changed. *)
Definition setUp_timeouts (s : timeout_state) : timeout_error + timeout_state :=
  let s :=
    match sb_config_is_timeout_changed s with
    | None =>
        {| has_browser := has_browser s;
           settings_SMALL_TIMEOUT := settings_SMALL_TIMEOUT s;
           settings_LARGE_TIMEOUT := settings_LARGE_TIMEOUT s;
           sb_config_is_timeout_changed := Some false;
           sb_config_SMALL_TIMEOUT := Some (settings_SMALL_TIMEOUT s);
           sb_config_LARGE_TIMEOUT := Some (settings_LARGE_TIMEOUT s);
           overrided_default_timeouts := overrided_default_timeouts s;
           logging_info := logging_info s |}
    | Some _ => s
    end in
  if default false (sb_config_is_timeout_changed s) then
    match saved_timeouts s with
    | inl e => inl e
    | inr None => inr s
    | inr (Some (small, large)) =>
        inr {| has_browser := has_browser s;
               settings_SMALL_TIMEOUT := small;
               settings_LARGE_TIMEOUT := large;
               sb_config_is_timeout_changed := sb_config_is_timeout_changed s;
               sb_config_SMALL_TIMEOUT := sb_config_SMALL_TIMEOUT s;
               sb_config_LARGE_TIMEOUT := sb_config_LARGE_TIMEOUT s;
               overrided_default_timeouts := overrided_default_timeouts s;
               logging_info := logging_info s |}
    end
  else inr s.

(** ** The time limit of a test: [set_time_limit] *)

(** [hasattr(self, "browser")], [self.time_limit] and the two
    attributes of [sb_config]. *)
Record time_limit_state : Type := {
  time_limit_in_scope : bool;
  self_time_limit : py_value;
  sb_config_time_limit : py_value;
  sb_config_time_limit_ms : py_value
}.

Inductive time_limit_error : Type :=
  | Limit_out_of_scope   (* OutOfScopeException, from __check_scope() *)
  | Limit_overflow       (* OverflowError, from int() of an infinity *)
  | Limit_not_a_number   (* ValueError, from int() of a NaN *).

(** The binary64 number [1000.0]. *)
Definition float_1000 : spec_float := S754_finite false 8796093022208000 (-43).

(** [int(f)] for a [float]: towards zero. *)
Definition int_of_float (f : spec_float) : time_limit_error + Z :=
  match f with
  | S754_zero _ => inr 0
  | S754_finite sign m e =>
      let v := if 0 <=? e then Z.pos m * 2 ^ e else Z.pos m / 2 ^ (- e) in
      inr (if sign then - v else v)
  | S754_infinity _ => inl Limit_overflow
  | S754_nan => inl Limit_not_a_number
  end.

Section TimeLimit.
(** [float(s)] for a text and [float(x)] for an object of another
    type, when they do not raise: the parsing and [__float__] are not
    modelled. *)
Context (float_of_str : string -> option spec_float)
        (float_of_object : option spec_float).

(** [float(v)]; [None] when it raises. *)
Definition py_float (v : py_value) : option spec_float :=
  match v with
  | PyNone => None
  | PyBool b => Some (if b then float_one else float_zero)
  | PyInt z => float_of_int z
  | PyFloat f => Some f
  | PyString s => float_of_str s
  | PyObject _ => float_of_object
  end.

(** [set_time_limit(time_limit)]: the exception raised, if any, and
    the attributes after the call. *)
Definition set_time_limit (time_limit : py_value) (s : time_limit_state)
  : option time_limit_error * time_limit_state :=
  if negb (time_limit_in_scope s) then (Some Limit_out_of_scope, s) else
  let limit :=
    if py_not time_limit then PyNone
    else match py_float time_limit with
         | Some f => PyFloat f
         | None => PyNone          (* except Exception: *)
         end in
  let positive :=
    match limit with
    | PyFloat f => negb (py_not limit) && SFltb float_zero f
    | _ => false
    end in
  match limit with
  | PyFloat f =>
      if positive then
        match int_of_float (SFmul 53 1024 f float_1000) with
        | inr ms =>
            (None,
             {| time_limit_in_scope := true;
                self_time_limit := limit;
                sb_config_time_limit := limit;
                sb_config_time_limit_ms := PyInt ms |})
        | inl err =>
            (Some err,
             {| time_limit_in_scope := true;
                self_time_limit := self_time_limit s;
                sb_config_time_limit := limit;
                sb_config_time_limit_ms := sb_config_time_limit_ms s |})
        end
      else
        (None,
         {| time_limit_in_scope := true;
            self_time_limit := PyNone;
            sb_config_time_limit := PyNone;
            sb_config_time_limit_ms := PyNone |})
  | _ =>
      (None,
       {| time_limit_in_scope := true;
          self_time_limit := PyNone;
          sb_config_time_limit := PyNone;
          sb_config_time_limit_ms := PyNone |})
  end.

End TimeLimit.

(** ** Deferred assertions

    The methods below change attributes of [self] and talk to the
    driver; an exception keeps the changes made before it.  [MS S A] is
    a computation over the attributes [S] in the driver monad. *)
Definition MS (S A : Type) : Type :=
  S -> env -> list call -> (outcome A * S) * list call.

#[global] Instance MS_ret {S} : MRet (MS S) :=
  fun A a s _ log => ((Returns a, s), log).
#[global] Instance MS_bind {S} : MBind (MS S) := fun A B k m s e log =>
  match m s e log with
  | ((Returns a, s'), log') => k a s' e log'
  | ((Raises x, s'), log') => ((Raises x, s'), log')
  end.

(** A driver computation, which leaves the attributes alone. *)
Definition ms_lift {S A} (m : M A) : MS S A := fun s e log =>
  let '(r, log') := m e log in ((r, s), log').

Definition ms_get {S} : MS S S := fun s _ log => ((Returns s, s), log).
Definition ms_modify {S} (f : S -> S) : MS S unit :=
  fun s _ log => ((Returns tt, f s), log).

(** [try: m  except Exception as x: h x] *)
Definition ms_try {S A} (m : MS S A) (h : exn -> MS S A) : MS S A :=
  fun s e log =>
    match m s e log with
    | ((Returns a, s'), log') => ((Returns a, s'), log')
    | ((Raises x, s'), log') => h x s' e log'
    end.

(** The attributes of [self] that the deferred assertions use. *)
Record deferred_state : Type := {
  deferred_assert_count : Z;
  deferred_assert_failures : list string;
  last_url_of_deferred_assert : string;
  printed : list string        (* what print() wrote *)
}.

(** [self] right after [__init__]. *)
Definition new_deferred_state : deferred_state := {|
  deferred_assert_count := 0;
  deferred_assert_failures := [];
  last_url_of_deferred_assert := "data:,";
  printed := []
|}.

Section DeferredAsserts.
(** [settings.MINI_TIMEOUT]; [urllib.parse.unquote(url, errors="strict")];
    and [str] on the [sys.exc_info()] of an exception without a
    message. *)
Context (cfg : config) (MINI_TIMEOUT : Z)
        (unquote : string -> outcome string)
        (str_exc_info : exn -> string).

(** [BaseCase.get_current_url] *)
Definition get_current_url : M string :=
  perform CheckScope;;
  current_url ← perform CurrentUrl;
  if PyStr.contains current_url "%" then
    match unquote current_url with
    | Returns u => mret u
    | Raises _ => mret current_url
    end
  else mret current_url.

(** ["%s" % message] for what [__get_exception_message] returns. *)
Definition exc_message_text (m : exc_message) : string :=
  match m with
  | MsgText s => s
  | MsgExcInfo x => str_exc_info x
  end.

(** [BaseCase.__add_deferred_assert_failure], in the handler of the
    exception [x]. *)
Definition add_deferred_assert_failure (x : exn) : MS deferred_state unit :=
  ms_lift (perform CheckScope);;
  current_url ← ms_lift (perform CurrentUrl);
  let message := get_exception_message x in
  ms_modify (fun d =>
    {| deferred_assert_count := deferred_assert_count d;
       deferred_assert_failures :=
         deferred_assert_failures d
         ++ ["CHECK #" +:+ PyStr.str_int (deferred_assert_count d) +:+ ": ("
             +:+ current_url +:+ ")" +:+ nl +:+ " "
             +:+ exc_message_text message];
       last_url_of_deferred_assert := last_url_of_deferred_assert d;
       printed := printed d |}).

(** [BaseCase.deferred_assert_element] *)
Definition deferred_assert_element (selector : string) (by_ : By)
  (timeout : option Z) : MS deferred_state bool :=
  ms_lift (perform CheckScope);;
  timeout ← ms_lift (resolve_timeout cfg timeout MINI_TIMEOUT);
  ms_modify (fun d =>
    {| deferred_assert_count := deferred_assert_count d + 1;
       deferred_assert_failures := deferred_assert_failures d;
       last_url_of_deferred_assert := last_url_of_deferred_assert d;
       printed := printed d |});;
  timeout ←
    ms_try
      (url ← ms_lift get_current_url;
       d ← ms_get;
       if String.eqb url (last_url_of_deferred_assert d) then mret 1
       else
         ms_modify (fun d =>
           {| deferred_assert_count := deferred_assert_count d;
              deferred_assert_failures := deferred_assert_failures d;
              last_url_of_deferred_assert := url;
              printed := printed d |});;
         mret timeout)
      (fun _ => mret timeout);
  ms_try
    (ms_lift (perform (WaitForElementVisible selector by_ timeout));;
     mret true)
    (fun x => add_deferred_assert_failure x;; mret false).

End DeferredAsserts.

(** The text that lists the failures of the test [test_id]. *)
Definition deferred_exception_output (test_id : string) (failures : list string)
  : string :=
  fold_left (fun out tb => out +:+ tb +:+ nl) failures
    ("" +:+ nl +:+ "*** DEFERRED ASSERTION FAILURES FROM: "
     +:+ (test_id +:+ nl)).

(** [process_deferred_asserts(print_only)], [test_id] being [self.id()]. *)
Definition process_deferred_asserts (test_id : string) (print_only : bool)
  : St deferred_state unit :=
  d ← st_get;
  match deferred_assert_failures d with
  | [] => mret tt
  | all_failing_checks =>
      let exception_output :=
        deferred_exception_output test_id all_failing_checks in
      st_modify (fun d =>
        {| deferred_assert_count := deferred_assert_count d;
           deferred_assert_failures := [];
           last_url_of_deferred_assert := last_url_of_deferred_assert d;
           printed := printed d |});;
      if print_only then
        st_modify (fun d =>
          {| deferred_assert_count := deferred_assert_count d;
             deferred_assert_failures := deferred_assert_failures d;
             last_url_of_deferred_assert := last_url_of_deferred_assert d;
             printed := printed d ++ [exception_output] |})
      else st_raise (Raised Exception_ exception_output)
  end.

(** ** The recorder: the passes that mark the page loads

    [srt_actions] is a list of mutable lists; the four loops of
    [__process_recorded_actions] that follow the sorting change the
    kind of some of its actions in place. *)

(** [action[0] == "begin" or action[0] == "_url_"] *)
Definition is_page_load (a : action) : bool :=
  String.eqb (kind a) "begin" || String.eqb (kind a) "_url_".

(** [action[0] = k] *)
Definition set_kind (k : string) (a : action) : action :=
  {| kind := k; target := target a; value := value a;
     time_stamp := time_stamp a |}.

(** [if url.endswith("/"): url = url[:-1]] *)
Definition without_final_slash (url : string) : string :=
  if PyStr.endswith url "/" then PyStr.drop_last url else url.

(** [for n in range(len(srt_actions)): body], the body being given the
    action at [n] and, when [n > 0], the one before it. *)
Definition for_each_index
  (body : nat -> action -> action -> list action -> list action)
  (srt_actions : list action) : list action :=
  fold_left
    (fun l n =>
       match n with
       | O => l
       | S p =>
           match l !! n, l !! p with
           | Some a, Some prev => body n a prev l
           | _, _ => l
           end
       end)
    (seq 0 (length srt_actions)) srt_actions.

(** A page load right after a skipped [open] is skipped. *)
Definition mark_after_skipped_open : list action -> list action :=
  for_each_index (fun n a prev l =>
    if is_page_load a && String.eqb (kind prev) "sk_op"
    then <[n := set_kind "_skip" a]> l else l).

(** A page load right after a click on a link to the same URL. *)
Definition mark_after_click_on_link : list action -> list action :=
  for_each_index (fun n a prev l =>
    if is_page_load a
       && (String.eqb (kind prev) "click" || String.eqb (kind prev) "js_cl")
    then
      if String.eqb (without_final_slash (value prev))
                    (without_final_slash (value a))
      then <[n := set_kind "f_url" a]> l else l
    else l).

(** Two page loads of the same URL in a row: the first is skipped. *)
Definition mark_repeated_page_load : list action -> list action :=
  for_each_index (fun n a prev l =>
    if is_page_load a && is_page_load prev then
      if String.eqb (without_final_slash (value prev))
                    (without_final_slash (value a))
      then <[pred n := set_kind "_skip" prev]> l else l
    else l).

(** A page load less than 6.5 seconds after a click on a button or an
    input, or after a text typed with a final newline. *)
Definition mark_after_submit : list action -> list action :=
  for_each_index (fun n a prev l =>
    if is_page_load a
       && (String.eqb (kind prev) "click" || String.eqb (kind prev) "js_cl"
           || String.eqb (kind prev) "input")
       && (time_stamp a - time_stamp prev <? 6500)
    then
      if String.eqb (kind prev) "click" || String.eqb (kind prev) "js_cl" then
        if PyStr.startswith (target prev) "input"
           || PyStr.startswith (target prev) "button"
        then <[n := set_kind "f_url" a]> l else l
      else if String.eqb (kind prev) "input" then
        if PyStr.endswith (value prev) nl
        then <[n := set_kind "f_url" a]> l else l
      else l
    else l).

(** The four loops, in the order of the source. *)
Definition mark_page_loads (srt_actions : list action) : list action :=
  mark_after_submit
    (mark_repeated_page_load
       (mark_after_click_on_link
          (mark_after_skipped_open srt_actions))).

(** What a marking pass may do to an action: nothing, or turn a page
    load into a skipped action or into a conditional page load. *)
Definition marked (a a' : action) : Prop :=
  target a' = target a /\ value a' = value a
  /\ time_stamp a' = time_stamp a
  /\ (kind a' = kind a
      \/ is_page_load a = true /\ (kind a' = "_skip" \/ kind a' = "f_url")).

(** One step of a pass: the list as it was, or one page load marked. *)
Definition marks_one (l l' : list action) : Prop :=
  l' = l
  \/ exists i x k,
       l !! i = Some x /\ is_page_load x = true
       /\ (k = "_skip" \/ k = "f_url") /\ l' = <[i := set_kind k x]> l.

(** ** Referral traffic: [generate_referral] and the chains *)

(** [for x in l: body(x)] *)
Fixpoint for_each {A : Type} (l : list A) (body : A -> M unit) : M unit :=
  match l with
  | [] => mret tt
  | x :: l' => body x;; for_each l' body
  end.

(** [for loop in range(loops): body] *)
Definition repeat_times (loops : Z) (body : M unit) : M unit :=
  for_each (seq 0 (Z.to_nat loops)) (fun _ => body).

(** The argument [pages] of the chains: a list or a tuple of texts, or
    a value of another type. *)
Inductive pages_arg : Type :=
  | PageSeq (pages : list string)
  | NotASequence.

Section Referrals.
Context (cfg : config) (h : helpers).
(** [page_utils.is_valid_url]; the module is not among the sources. *)
Context (is_valid_url : string -> bool).

Definition referral_link (destination_page : string) : string :=
  "<body>"
  +:+ "<a class='analytics referral test' href='" +:+ destination_page
  +:+ "' "
  +:+ "style='font-family: Arial,sans-serif; "
  +:+ "font-size: 30px; color: #18a2cd'>"
  +:+ "Magic Link Button</a></body>".

Definition invalid_destination_message (destination_page : string) : string :=
  "Exception: destination_page {" +:+ destination_page
  +:+ "} is not a valid URL!".

Definition invalid_start_message (start_page : string) : string :=
  "Exception: start_page {" +:+ start_page +:+ "} is not a valid URL! "
  +:+ "(Use an empty string or None to start from current page.)".

(** [generate_referral(start_page, destination_page, selector)] *)
Definition generate_referral (start_page : option string)
  (destination_page : string) (selector : option string) : M unit :=
  perform CheckScope;;
  if negb (is_valid_url destination_page)
  then raise (Raised Exception_ (invalid_destination_message destination_page))
  else
  (if truthy_text start_page then
     let start_page := default "" start_page in
     if negb (is_valid_url start_page)
     then raise (Raised Exception_ (invalid_start_message start_page))
     else
       perform (Open start_page);;
       perform (Sleep 80);;
       perform WaitForReadyStateComplete
   else mret tt);;
  perform (ExecuteScript ("document.body.outerHTML = " +:+ dq
                          +:+ referral_link destination_page +:+ dq));;
  (* Now click the generated button *)
  click cfg h (PyText "a.analytics.referral.test") CSS_SELECTOR (Some 2) 0
        true;;
  perform (Sleep 150);;
  if truthy_text selector then
    click cfg h (PyText (default "" selector)) CSS_SELECTOR None 0 true;;
    perform (Sleep 150)
  else mret tt.

(** [generate_traffic(start_page, destination_page, loops, selector)] *)
Definition generate_traffic (start_page : option string)
  (destination_page : string) (loops : Z) (selector : option string)
  : M unit :=
  perform CheckScope;;
  repeat_times loops
    (generate_referral start_page destination_page selector;;
     perform (Sleep 50)).

Definition invalid_page_message (page : string) : string :=
  "Exception: Website page {" +:+ page +:+ "} is not a valid URL!".

(** [generate_referral_chain(pages)] *)
Definition generate_referral_chain (pages : pages_arg) : M unit :=
  perform CheckScope;;
  match pages with
  | NotASequence =>
      raise (Raised Exception_
               "Exception: Expecting a list of website pages for chaining!")
  | PageSeq pages =>
      if (length pages <? 2)%nat
      then raise (Raised Exception_
                    "Exception: At least two website pages required for chaining!")
      else
        (* Find out if any of the web pages are invalid before continuing *)
        for_each pages (fun page =>
          if negb (is_valid_url page)
          then raise (Raised Exception_ (invalid_page_message page))
          else mret tt);;
        for_each pages (fun page => generate_referral None page None)
  end.

(** [generate_traffic_chain(pages, loops)] *)
Definition generate_traffic_chain (pages : pages_arg) (loops : Z) : M unit :=
  perform CheckScope;;
  repeat_times loops (generate_referral_chain pages;; perform (Sleep 50)).

End Referrals.

(** ** [click_nth_visible_element]

    [page_actions] is not among the sources: its two functions that
    look elements up are taken as computations in the driver monad,
    and so is [__wait_for_shadow_element_present]; [by_repr] is the
    text of a [By] constant. *)
Section ClickNth.
Context (cfg : config) (h : helpers) (by_repr : By -> string)
        (page_wait_for_element_present : string -> By -> Z -> M element)
        (page_find_visible_elements : string -> By -> M (list element))
        (wait_for_shadow_element_present : string -> M element).

(** [BaseCase.wait_for_element_present] *)
Definition wait_for_element_present (selector : string) (by_ : By)
  (timeout : option Z) : M element :=
  perform CheckScope;;
  timeout ← resolve_timeout cfg timeout (LARGE_TIMEOUT cfg);
  '(selector, by_) ← lift (recalculate_selector h (PyText selector) by_ true);
  shadow ← lift (is_shadow_selector selector);
  if shadow : bool then wait_for_shadow_element_present selector
  else page_wait_for_element_present selector by_ timeout.

(** [BaseCase.find_visible_elements] *)
Definition find_visible_elements (selector : string) (by_ : By) (limit : Z)
  : M (list element) :=
  '(selector, by_) ← lift (recalculate_selector h (PyText selector) by_ true);
  perform WaitForReadyStateComplete;;
  perform (Sleep 50);;
  v_elems ← page_find_visible_elements selector by_;
  if (0 <? limit) && (limit <? Z.of_nat (length v_elems))
  then mret (take (Z.to_nat limit) v_elems)
  else mret v_elems.

Definition not_enough_elements_message (selector : string) (by_ : By)
  (number : Z) : string :=
  "Not enough matching {" +:+ selector +:+ "} elements of type {"
  +:+ by_repr by_ +:+ "} to " +:+ "click number " +:+ PyStr.str_int number
  +:+ "!".

(** The statements that choose the element, as they stand both before
    the first click and in the handler: the test on the number of
    elements, [number = number - 1], the floor at zero and
    [elements[number]].  The new [number] is returned with the
    element. *)
Definition choose_nth (selector : string) (by_ : By) (number : Z)
  (elements : list element) : outcome (Z * element) :=
  if Z.of_nat (length elements) <? number
  then Raises (Raised Exception_
                 (not_enough_elements_message selector by_ number))
  else
    let number := number - 1 in
    let number := if number <? 0 then 0 else number in
    match elements !! Z.to_nat number with
    | Some element => Returns (number, element)
    | None => Raises (Raised IndexError "list index out of range")
    end.

(** The statements before the first list of visible elements. *)
Definition click_nth_prologue (selector : pyarg) (by_ : By)
  (timeout : option Z) : M (string * By * Z) :=
  perform CheckScope;;
  timeout ← resolve_timeout cfg timeout (SMALL_TIMEOUT cfg);
  '(selector, by_) ← lift (recalculate_selector h selector by_ true);
  perform WaitForReadyStateComplete;;
  wait_for_element_present selector by_ (Some timeout);;
  mret (selector, by_, timeout).

(** The body of the [try] statement.  [__scroll_to_element(element)]
    is given no selector, which it treats as an empty one. *)
Definition click_nth_attempt (element : element) : M unit :=
  perform (ScrollToElement element "" CSS_SELECTOR);;
  perform (ElementClick element).

(** The statements of the handler before its list of visible
    elements. *)
Definition click_nth_recover (selector : string) (by_ : By) (timeout : Z)
  : M unit :=
  perform (Sleep 120);;
  perform WaitForReadyStateComplete;;
  wait_for_element_present selector by_ (Some timeout);;
  mret tt.

(** [except (StaleElementReferenceException, ENI_Exception):] *)
Definition click_nth_handler (selector : string) (by_ : By) (timeout : Z)
  (number : Z) (x : exn) : M unit :=
  if is_Stale (class_of x) || is_ENI (class_of x) then
    click_nth_recover selector by_ timeout;;
    elements ← find_visible_elements selector by_ 0;
    '(number, element) ← lift (choose_nth selector by_ number elements);
    perform (ElementClick element)
  else raise x.

(** [click_nth_visible_element(selector, number, by, timeout)] *)
Definition click_nth_visible_element (selector : pyarg) (number : Z)
  (by_ : By) (timeout : option Z) : M unit :=
  '(selector, by_, timeout) ← click_nth_prologue selector by_ timeout;
  elements ← find_visible_elements selector by_ 0;
  '(number, element) ← lift (choose_nth selector by_ number elements);
  try_except (click_nth_attempt element)
             (click_nth_handler selector by_ timeout number).

End ClickNth.

(** ** Concrete environments and inputs, for the examples below *)

(** An environment in which the scope check passes and every lookup
    finds element 7. *)
Definition env_found : env := fun _ c =>
  match c return outcome (resp c) with
  | CheckScope => Returns tt
  | GetElement _ => Returns 7%nat
  | Open _ => Returns tt
  | _ => Raises (Raised WebDriverException "unexpected call")
  end.


(** A chart markup and a float printer to run the chart methods with:
    the properties below hold whatever these two are. *)
Definition sample_markup (count : Z) (spec : chart_spec) : string :=
  "<chart " +:+ PyStr.str_int count +:+ ">".

Definition sample_str_float (f : spec_float) : string :=
  match f with
  | S754_zero false => "0.0"
  | S754_zero true => "-0.0"
  | S754_infinity false => "inf"
  | S754_infinity true => "-inf"
  | S754_nan => "nan"
  | S754_finite _ _ _ => "<float>"
  end.

(** A test in which the tour ["mytour"] has been created with
    [create_tour(name="mytour", theme="hopscotch")]. *)
Definition tours_with_mytour : builders :=
  snd (create_tour "#aaa" "#bbb" (Some "mytour") (Some "hopscotch")
         new_builders).

(** [add_tour_step("Hello", selector="name=q", name="mytour")] in that
    test. *)
Definition step_on_name_selector : outcome unit * builders :=
  add_tour_step spec_helpers "#aaa" "#bbb" (fun _ => None)
    (Some "Hello") (Some "name=q") (Some "mytour") None None None None
    tours_with_mytour.

(** A page, the same page served from another domain, and the same page
    with one more tag. *)
Definition page_home : page := {|
  page_url := "https://example.com/home";
  page_screenshot := "PNG-1";
  page_tags :=
    [ {| tag_name := "div";
         tag_attrs := {[ "id" := JString "main";
                         "class" := JList [JString "box"] ]} |};
      {| tag_name := "a";
         tag_attrs := {[ "href" := JString "/about" ]} |} ]
|}.

Definition page_elsewhere : page := {|
  page_url := "https://example.org/home";
  page_screenshot := "PNG-2";
  page_tags := page_tags page_home
|}.

Definition page_changed : page := {|
  page_url := "https://example.com/home";
  page_screenshot := "PNG-3";
  page_tags := page_tags page_home ++ [ {| tag_name := "p"; tag_attrs := ∅ |} ]
|}.

(** A fresh disk. *)
Definition empty_world : world := {| files := ∅; dirs := ∅; stdout := [] |}.

(** Texts for a failed [assertEqual]. *)
Definition sample_text_diff (first second msg : string) : string :=
  "'" +:+ first +:+ "' != '" +:+ second +:+ "' : " +:+ msg.

Definition sample_json_diff (first second : json) (msg : string) : string :=
  "Lists differ" +:+ nl +:+ msg.

(** [check_window(name="home", ...)] of the test ["test_demo"]. *)
Definition check_home (pg : page) (level : py_value) (baseline check_domain : bool)
  : St world unit :=
  check_window "visual_baseline" spec_helpers sample_text_diff sample_json_diff
    "test_demo" false pg (Some "home") level baseline check_domain.

(** The disk after a first [check_window(name="home", level=2)]. *)
Definition world_with_baseline : world :=
  snd (check_home page_home (PyInt 2) false true empty_world).

(** A test on Chrome with the default settings. *)
Definition cfg_chrome : config := {|
  browser := "chrome";
  headless := false;
  demo_mode := false;
  slow_mode := false;
  recorder_mode := false;
  timeout_multiplier := None;
  SMALL_TIMEOUT := 6;
  LARGE_TIMEOUT := 10;
  SWITCH_TO_NEW_TABS_ON_CLICK := true;
  WAIT_FOR_RSC_ON_CLICKS := false;
  WAIT_FOR_RSC_ON_PAGE_LOADS := false
|}.

(** What a call returns when nothing goes wrong and nothing is
    found: the unit, element 0, an empty text, no attribute. *)
Definition quiet (c : call) : resp c :=
  match c return resp c with
  | PageWaitForElementVisible _ _ _ | WaitForElementVisible _ _ _
  | GetElement _ => 0%nat
  | IsLinkTextVisible _ | IsPartialLinkTextVisible _ => true
  | GetShadowText _ | CurrentUrl | CurrentWindowHandle
  | ElementTagName _ => EmptyString
  | ElementGetAttribute _ _ => None
  | WindowHandlesCount => 1%nat
  | TimeTime => 0
  | _ => tt
  end.

(** A clock that only advances while the test sleeps. *)
Definition sleeping_clock (log : list call) : Z :=
  fold_right (fun c t => match c with Sleep ms => t + ms | _ => t end) 0 log.

(** The element never gets a shadow root: every reading of its text
    raises the plain [Exception] of [__get_shadow_element]. *)
Definition env_no_shadow_root : env := fun log c =>
  match c return outcome (resp c) with
  | GetShadowText _ =>
      Raises (Raised Exception_ "Element {div#host} has no shadow root!")
  | TimeTime => Returns (sleeping_clock log)
  | c' => Returns (quiet c')
  end.

(** The expected text shows up at the third reading. *)
Definition env_text_at_third_read : env := fun log c =>
  match c return outcome (resp c) with
  | GetShadowText _ =>
      if (count is_shadow_read log <? 2)%nat then Returns " Loading "
      else Returns " Hello World "
  | TimeTime => Returns (sleeping_clock log)
  | c' => Returns (quiet c')
  end.

(** The text never shows up. *)
Definition env_text_never : env := fun log c =>
  match c return outcome (resp c) with
  | GetShadowText _ => Returns " Loading "
  | TimeTime => Returns (sleeping_clock log)
  | c' => Returns (quiet c')
  end.

(** An old ChromeDriver: every [send_keys] fails with its well-known
    error. *)
Definition env_old_chromedriver : env := fun log c =>
  match c return outcome (resp c) with
  | ElementSendKeys _ _ =>
      Raises (Raised WebDriverException
                "unknown error: call function result missing 'value'")
  | c' => Returns (quiet c')
  end.

(** The text field is replaced while the test types: typing fails on a
    stale element until the test has slept, and each wait for the
    element returns a new one. *)
Definition env_stale_once : env := fun log c =>
  match c return outcome (resp c) with
  | ElementSendKeys _ t =>
      if String.eqb t backspaces || existsb is_sleep log then Returns tt
      else Raises (Raised StaleElementReferenceException
                     "stale element reference")
  | WaitForElementVisible _ _ _ => Returns (1 + count is_sleep log)%nat
  | c' => Returns (quiet c')
  end.

(** The text field stays stale. *)
Definition env_always_stale : env := fun log c =>
  match c return outcome (resp c) with
  | ElementSendKeys _ t =>
      if String.eqb t backspaces then Returns tt
      else Raises (Raised StaleElementReferenceException
                     "stale element reference")
  | c' => Returns (quiet c')
  end.

(** A button under an overlay that goes away late: the native click is
    intercepted until the script clicks have been tried, and these
    fail. *)
Definition env_click_intercepted : env := fun log c =>
  match c return outcome (resp c) with
  | ElementClick _ =>
      if existsb is_script_click log then Returns tt
      else Raises (Raised ECI_Exception "element click intercepted")
  | JsClick _ _ | JqueryClick _ _ =>
      Raises (Raised WebDriverException "javascript error")
  | c' => Returns (quiet c')
  end.

(** A link that opens a new tab and cannot be interacted with. *)
Definition env_hidden_new_tab_link : env := fun log c =>
  match c return outcome (resp c) with
  | ElementClick _ =>
      Raises (Raised ENI_Exception "element not interactable")
  | ElementTagName _ => Returns "a"
  | ElementGetAttribute _ name =>
      Returns (if String.eqb name "href" then Some "https://example.com/docs"
               else if String.eqb name "target" then Some "_blank"
               else None)
  | c' => Returns (quiet c')
  end.

(** The button is replaced while the test clicks: the click fails on a
    stale element until the test has slept, and each wait for the
    element returns a new one. *)
Definition env_stale_click_once : env := fun log c =>
  match c return outcome (resp c) with
  | ElementClick _ =>
      if existsb is_sleep log then Returns tt
      else Raises (Raised StaleElementReferenceException
                     "stale element reference")
  | PageWaitForElementVisible _ _ _ => Returns (1 + count is_sleep log)%nat
  | c' => Returns (quiet c')
  end.

(** Recorded actions with the time stamps of [Date.now()]. *)
Definition action_click : action :=
  {| kind := "click"; target := "button#go"; value := "";
     time_stamp := 1667469600999 |}.
Definition action_input : action :=
  {| kind := "input"; target := "input#q"; value := "hello";
     time_stamp := 1667469600123 |}.
Definition action_open : action :=
  {| kind := "_url_"; target := "https://example.com/"; value := "";
     time_stamp := 1667469599000 |}.

(** Two actions whose time stamps differ in their number of digits. *)
Definition early_click : action :=
  {| kind := "click"; target := "button#go"; value := ""; time_stamp := 999 |}.
Definition late_input : action :=
  {| kind := "input"; target := "input#q"; value := "hello";
     time_stamp := 1000 |}.

Definition sample_theme_css (theme : string) : string :=
  "reveal/" +:+ theme +:+ ".min.css".

(** The timeouts of [settings.py], before the first [setUp]. *)
Definition initial_timeouts : timeout_state := {|
  has_browser := true;
  settings_SMALL_TIMEOUT := PyInt 6;
  settings_LARGE_TIMEOUT := PyInt 10;
  sb_config_is_timeout_changed := None;
  sb_config_SMALL_TIMEOUT := None;
  sb_config_LARGE_TIMEOUT := None;
  overrided_default_timeouts := false;
  logging_info := []
|}.

(** The element never shows up: every wait for it raises. *)
Definition env_element_missing : env := fun log c =>
  match c return outcome (resp c) with
  | WaitForElementVisible _ _ _ =>
      Raises (Raised NoSuchElementException "Element {h9} was not present!")
  | CurrentUrl => Returns "https://example.com/"
  | c' => Returns (quiet c')
  end.

(** A recording that opens a page twice, then another page. *)
Definition recorded_reload : list action :=
  [ {| kind := "begin"; target := ""; value := "https://example.com/";
       time_stamp := 1000 |};
    {| kind := "_url_"; target := ""; value := "https://example.com";
       time_stamp := 2000 |};
    {| kind := "_url_"; target := ""; value := "https://example.com/docs";
       time_stamp := 9000 |} ].

(** A validity test to run the chains with: an [http] or [https] URL. *)
Definition sample_is_valid_url (url : string) : bool :=
  PyStr.startswith url "http://" || PyStr.startswith url "https://".

(** The texts of Selenium's [By] constants. *)
Definition By_value (by_ : By) : string :=
  match by_ with
  | CSS_SELECTOR => "css selector"
  | XPATH => "xpath"
  | LINK_TEXT => "link text"
  | PARTIAL_LINK_TEXT => "partial link text"
  | ID => "id"
  | NAME => "name"
  | TAG_NAME => "tag name"
  | CLASS_NAME => "class name"
  end.

(** A page with three visible checkboxes, elements 21, 22 and 23, that
    are stale until the test has slept for 0.12 seconds. *)
Definition three_checkboxes (selector : string) (by_ : By)
  : M (list element) :=
  mret [21%nat; 22%nat; 23%nat].

Definition env_checkboxes_stale : env := fun log c =>
  match c return outcome (resp c) with
  | ElementClick _ =>
      if existsb (fun c => match c with Sleep 120 => true | _ => false end) log
      then Returns tt
      else Raises (Raised StaleElementReferenceException
                     "stale element reference")
  | c' => Returns (quiet c')
  end.

(* ===================================================================== *)
(** * Part II -- properties                                               *)
(* ===================================================================== *)

(** Unfolding the monad of driver effects. *)
Ltac unfold_M :=
  unfold when, try_except, lift, raise, perform in *;
  unfold mbind, mret, M_bind, M_ret, bind, ret in *.

Ltac unfold_St :=
  unfold st_when, st_try, st_raise, st_lift, st_get, st_modify in *;
  unfold mbind, mret, St_bind, St_ret in *.

(** ** [get] and [__looks_like_a_page_url] *)

Lemma looks_like_a_page_url_prefixes (url : string) :
  looks_like_a_page_url url = existsb (PyStr.startswith url) page_url_prefixes.
Proof.
  unfold looks_like_a_page_url, page_url_prefixes. simpl.
  rewrite orb_false_r. rewrite <- !orb_assoc. reflexivity.
Qed.

(** C9.  For every string [url], [get(url)] navigates -- one call of
    [open(url)] after the scope check, returning [None] -- exactly when
    [url] starts with one of the nine prefixes ["http:"], ["https:"],
    ["://"], ["chrome:"], ["about:"], ["data:"], ["file:"], ["edge:"],
    ["opera:"]; otherwise it looks [url] up as a selector and returns
    the element found.  An exception of the scope check, of [open] or of
    the lookup is passed on. *)
Theorem get_navigates_iff_page_url (url : string) (e : env) :
  length page_url_prefixes = 9%nat
  /\ (looks_like_a_page_url url = true
      <-> Exists (fun p => PyStr.startswith url p = true) page_url_prefixes)
  /\ run (get url) e =
       match e [] CheckScope with
       | Raises x => (Raises x, [CheckScope])
       | Returns _ =>
           if existsb (PyStr.startswith url) page_url_prefixes then
             match e [CheckScope] (Open url) with
             | Returns _ => (Returns None, [CheckScope; Open url])
             | Raises x => (Raises x, [CheckScope; Open url])
             end
           else
             match e [CheckScope] (GetElement url) with
             | Returns el => (Returns (Some el), [CheckScope; GetElement url])
             | Raises x => (Raises x, [CheckScope; GetElement url])
             end
       end.
Proof.
  split; [reflexivity|]. split.
  - rewrite looks_like_a_page_url_prefixes, existsb_exists, Exists_exists.
    split; intros [p [Hin Hp]]; exists p; split; auto;
      now apply list_elem_of_In.
  - rewrite <- looks_like_a_page_url_prefixes.
    unfold run, get. unfold_M.
    destruct (e [] CheckScope); [|reflexivity].
    destruct (looks_like_a_page_url url); simpl.
    + destruct (e [CheckScope] (Open url)); reflexivity.
    + destruct (e [CheckScope] (GetElement url)); reflexivity.
Qed.

Example get_page_url :
  run (get "https://seleniumbase.io") env_found
  = (Returns None, [CheckScope; Open "https://seleniumbase.io"]).
Proof. reflexivity. Qed.

Example get_selector :
  run (get "input.class") env_found
  = (Returns (Some 7%nat), [CheckScope; GetElement "input.class"]).
Proof. reflexivity. Qed.

(** ** [__recalculate_selector] *)

Section RecalculateSelectorFacts.
Context (h : helpers).

Lemma recalculate_text_plain (s : string) (by_ : By) (xp_ok : bool) :
  is_link_text_selector h s = false ->
  is_partial_link_text_selector h s = false ->
  is_name_selector h s = false ->
  recalculate_text h s by_ xp_ok =
    let by_ := if is_xpath_selector h s then XPATH else by_ in
    if xp_ok && PyStr.contains s ":contains(" && By_eqb by_ CSS_SELECTOR
    then (convert_css_to_xpath h s, XPATH) else (s, by_).
Proof.
  intros Hl Hp Hn. unfold recalculate_text. rewrite Hl, Hp, Hn. reflexivity.
Qed.

Lemma recalculate_text_link (s : string) (by_ : By) (xp_ok : bool) :
  is_link_text_selector h s = true ->
  is_partial_link_text_selector h (get_link_text_from_selector h s) = false ->
  is_name_selector h (get_link_text_from_selector h s) = false ->
  recalculate_text h s by_ xp_ok =
    (get_link_text_from_selector h s, LINK_TEXT).
Proof.
  intros Hl Hp Hn. unfold recalculate_text. rewrite Hl, Hp, Hn.
  rewrite andb_false_r. reflexivity.
Qed.

Lemma recalculate_text_name (s : string) (by_ : By) (xp_ok : bool) :
  is_link_text_selector h s = false ->
  is_partial_link_text_selector h s = false ->
  is_name_selector h s = true ->
  recalculate_text h s by_ xp_ok =
    let css := name_css (get_name_from_selector h s) in
    if xp_ok && PyStr.contains css ":contains("
    then (convert_css_to_xpath h css, XPATH) else (css, CSS_SELECTOR).
Proof.
  intros Hl Hp Hn. unfold recalculate_text. rewrite Hl, Hp, Hn.
  cbn zeta. rewrite andb_true_r. reflexivity.
Qed.

Lemma recalculate_text_link_then_name (s : string) (by_ : By) (xp_ok : bool) :
  is_link_text_selector h s = true ->
  is_partial_link_text_selector h (get_link_text_from_selector h s) = false ->
  is_name_selector h (get_link_text_from_selector h s) = true ->
  recalculate_text h s by_ xp_ok =
    let css :=
      name_css (get_name_from_selector h (get_link_text_from_selector h s)) in
    if xp_ok && PyStr.contains css ":contains("
    then (convert_css_to_xpath h css, XPATH) else (css, CSS_SELECTOR).
Proof.
  intros Hl Hp Hn. unfold recalculate_text. rewrite Hl, Hp, Hn.
  cbn zeta. rewrite andb_true_r. reflexivity.
Qed.

(** C5, as the code has it.  The normalization is a function of its
    arguments alone, and it applies its rules one after the other, each
    to what the rule before left (not the first matching rule only).
    So each rule of the claim holds when no later rule applies to the
    rewritten selector: a selector that looks like XPath gets [XPATH];
    one with the link-text prefix becomes its link text with
    [LINK_TEXT]; one of the form ["name=N"] becomes [[name="N"]] with
    [CSS_SELECTOR]; a CSS selector containing [":contains("] is
    converted to XPath (when [xp_ok]); a link text that is itself of the
    form ["name=N"] goes through the name rule as well; and a selector
    that is not a string raises an [Exception]. *)
Theorem recalculate_selector_rules (by_ : By) (xp_ok : bool) :
  (forall t, recalculate_selector h (PyOther t) by_ xp_ok
             = Raises (Raised Exception_ (invalid_selector_message t)))
  /\ (forall s, is_xpath_selector h s = true ->
        is_link_text_selector h s = false ->
        is_partial_link_text_selector h s = false ->
        is_name_selector h s = false ->
        recalculate_selector h (PyText s) by_ xp_ok = Returns (s, XPATH))
  /\ (forall s, is_link_text_selector h s = true ->
        is_partial_link_text_selector h (get_link_text_from_selector h s) = false ->
        is_name_selector h (get_link_text_from_selector h s) = false ->
        recalculate_selector h (PyText s) by_ xp_ok
        = Returns (get_link_text_from_selector h s, LINK_TEXT))
  /\ (forall s, is_link_text_selector h s = false ->
        is_partial_link_text_selector h s = false ->
        is_name_selector h s = true ->
        PyStr.contains (name_css (get_name_from_selector h s)) ":contains("
          = false ->
        recalculate_selector h (PyText s) by_ xp_ok
        = Returns (name_css (get_name_from_selector h s), CSS_SELECTOR))
  /\ (forall s, is_xpath_selector h s = false ->
        is_link_text_selector h s = false ->
        is_partial_link_text_selector h s = false ->
        is_name_selector h s = false ->
        PyStr.contains s ":contains(" = true ->
        by_ = CSS_SELECTOR -> xp_ok = true ->
        recalculate_selector h (PyText s) by_ xp_ok
        = Returns (convert_css_to_xpath h s, XPATH))
  /\ (forall s, is_link_text_selector h s = true ->
        is_partial_link_text_selector h (get_link_text_from_selector h s) = false ->
        is_name_selector h (get_link_text_from_selector h s) = true ->
        let css :=
          name_css (get_name_from_selector h (get_link_text_from_selector h s)) in
        PyStr.contains css ":contains(" = false ->
        recalculate_selector h (PyText s) by_ xp_ok
        = Returns (css, CSS_SELECTOR)).
Proof.
  repeat split.
  - intros s Hx Hl Hp Hn. simpl.
    rewrite recalculate_text_plain by assumption. rewrite Hx. cbn zeta.
    simpl. rewrite andb_false_r. reflexivity.
  - intros s Hl Hp Hn. simpl. now rewrite recalculate_text_link.
  - intros s Hl Hp Hn Hc. simpl.
    rewrite recalculate_text_name by assumption. cbn zeta.
    rewrite Hc, andb_false_r. reflexivity.
  - intros s Hx Hl Hp Hn Hc -> ->. simpl.
    rewrite recalculate_text_plain by assumption. rewrite Hx, Hc. reflexivity.
  - intros s Hl Hp Hn css Hc. simpl.
    rewrite recalculate_text_link_then_name by assumption. cbn zeta.
    fold css. rewrite Hc, andb_false_r. reflexivity.
Qed.

End RecalculateSelectorFacts.

(** The rules at work on the helpers of the selector rules. *)
Lemma recalculate_selector_rules_witness :
  recalculate_selector spec_helpers (PyText "//div[@id='x']") CSS_SELECTOR true
    = Returns ("//div[@id='x']", XPATH)
  /\ recalculate_selector spec_helpers (PyText "link=Sign in") CSS_SELECTOR true
     = Returns ("Sign in", LINK_TEXT)
  /\ recalculate_selector spec_helpers (PyText "name=q") XPATH true
     = Returns (name_css "q", CSS_SELECTOR)
  /\ recalculate_selector spec_helpers (PyText "div:contains(Hi)") CSS_SELECTOR true
     = Returns ("div:contains(Hi)", XPATH)
  /\ recalculate_selector spec_helpers (PyText "link=name=N") CSS_SELECTOR true
     = Returns (name_css "N", CSS_SELECTOR).
Proof.
  pose proof (recalculate_selector_rules spec_helpers CSS_SELECTOR true)
    as (_ & Hx & Hl & _ & Hc & Hln).
  pose proof (recalculate_selector_rules spec_helpers XPATH true)
    as (_ & _ & _ & Hn & _ & _).
  split; [apply Hx; reflexivity|].
  split; [apply (Hl "link=Sign in"); reflexivity|].
  split; [apply (Hn "name=q"); reflexivity|].
  split; [apply (Hc "div:contains(Hi)"); reflexivity|].
  apply (Hln "link=name=N"); reflexivity.
Defined.

(** C5 as stated fails on ["link=name=N"]: the selector starts with the
    link-text prefix, yet it is not rewritten to its link text
    ["name=N"] with [LINK_TEXT] -- the name rule, which comes later,
    rewrites the link text once more. *)
Lemma recalculate_selector_not_first_match :
  is_link_text_selector spec_helpers "link=name=N" = true
  /\ get_link_text_from_selector spec_helpers "link=name=N" = "name=N"
  /\ recalculate_selector spec_helpers (PyText "link=name=N") CSS_SELECTOR true
     = Returns (name_css "N", CSS_SELECTOR)
  /\ recalculate_selector spec_helpers (PyText "link=name=N") CSS_SELECTOR true
     <> Returns ("name=N", LINK_TEXT).
Proof. repeat split. discriminate. Qed.

(** ** Charts: [add_data_point] *)

Lemma text_or_idem (o : option string) (d : string) :
  d <> "" -> text_or (Some (text_or o d)) d = text_or o d.
Proof.
  intros Hd. unfold text_or.
  destruct o as [s|].
  - destruct (String.eqb s "") eqn:Hs.
    + apply String.eqb_neq in Hd. now rewrite Hd.
    + now rewrite Hs.
  - apply String.eqb_neq in Hd. now rewrite Hd.
Qed.

Lemma escape_single_quotes_escaped_from (p : bool) (s : string) :
  quotes_escaped_from p (escape_single_quotes s) = true.
Proof.
  revert p. induction s as [|c s IH]; intros p; [reflexivity|].
  unfold escape_single_quotes in *. simpl.
  destruct (Ascii.eqb c "'") eqn:Hc.
  - simpl. apply IH.
  - simpl. rewrite Hc. apply IH.
Qed.

Lemma escape_single_quotes_escaped (s : string) :
  quotes_escaped (escape_single_quotes s) = true.
Proof. apply escape_single_quotes_escaped_from. Qed.

Lemma charts_wf_new : charts_wf new_builders.
Proof. intros n [l Hl]. simpl in Hl. now rewrite lookup_empty in Hl. Qed.

Section ChartFacts.
Context (highchart_markup : Z -> chart_spec -> string)
        (str_float : spec_float -> string).

Lemma create_pie_chart_state (name : option string) (b : builders) :
  create_pie_chart highchart_markup (Some (text_or name "default"))
    None None None None true true true b
  = (Returns tt, with_new_pie_chart highchart_markup (text_or name "default") b).
Proof.
  unfold create_pie_chart, create_highchart. unfold_St.
  rewrite !text_or_idem by discriminate.
  reflexivity.
Qed.

Lemma charts_wf_with_new_pie_chart (cn : string) (b : builders) :
  charts_wf b -> charts_wf (with_new_pie_chart highchart_markup cn b).
Proof.
  intros Hwf n. simpl. destruct (decide (cn = n)) as [->|Hne].
  - rewrite !lookup_insert_eq. eauto.
  - rewrite !lookup_insert_ne by assumption. apply Hwf.
Qed.


End ChartFacts.


(** ** Tours: [add_tour_step] *)

Section TourFacts.
Context (h : helpers) (c1 c2 : string) (sbt : string -> option string).

(** When the selector is a name selector, the tour name the caller
    chose plays no part: the local variable [name] is overwritten with
    the name taken from the selector before it is used. *)
Lemma add_tour_step_name_selector_ignores_name
  (message selector name name' title theme alignment : option string)
  (duration : option Z) (b : builders) :
  is_name_selector h (text_or selector "html") = true ->
  add_tour_step h c1 c2 sbt message selector name title theme alignment
    duration b
  = add_tour_step h c1 c2 sbt message selector name' title theme alignment
      duration b.
Proof.
  intros Hn. unfold add_tour_step. rewrite Hn. reflexivity.
Qed.

(** With a selector that is not a name selector, a step added to an
    existing IntroJS tour is one more fragment at the end of the list of
    the chosen tour, and nothing else changes. *)
Lemma add_tour_step_introjs_appends_one
  (message selector name title theme alignment : option string)
  (duration : option Z) (b : builders) (steps : list string) :
  is_name_selector h (text_or selector "html") = false ->
  _tour_steps b !! text_or name "default" = Some (introjs_tour_header :: steps) ->
  exists step,
    add_tour_step h c1 c2 sbt message selector name title theme alignment
      duration b
    = (Returns tt,
       set_tour_steps
         (fun d => <[text_or name "default" :=
                       (introjs_tour_header :: steps) ++ [step]]> d) b).
Proof.
  intros Hn Ht. unfold add_tour_step. rewrite Hn.
  set (n := text_or name "default") in *.
  assert (Hh : forall s : builders, _tour_steps s = _tour_steps b ->
                 tour_header n s = (Returns introjs_tour_header, s)).
  { intros s Hs. unfold tour_header. unfold_St. now rewrite Hs, Ht. }
  assert (Hk : PyStr.contains introjs_tour_header "Hopscotch" = false
               /\ PyStr.contains introjs_tour_header "DriverJS" = false
               /\ PyStr.contains introjs_tour_header "Bootstrap" = false
               /\ PyStr.contains introjs_tour_header "IntroJS" = true)
    by (vm_compute; auto).
  destruct Hk as (Hk1 & Hk2 & Hk3 & Hk4).
  unfold_St. rewrite Ht.
  replace (negb (bool_decide (is_Some (Some (introjs_tour_header :: steps))))) with false
    by (symmetry; apply negb_false_iff, bool_decide_eq_true; eauto).
  cbv beta iota.
  destruct (_ || negb (bool_decide (default "" alignment ∈ _)));
    repeat first [ rewrite Hh by reflexivity | rewrite Hk1 | rewrite Hk2
                 | rewrite Hk3 | rewrite Hk4 | progress cbn [negb andb]
                 | progress cbv beta iota ];
    unfold add_introjs_tour_step, tour_append, append_to; unfold_St;
    rewrite Ht; cbv beta iota; eexists; reflexivity.
Qed.

End TourFacts.

(** C6 at a failing input.  In a test that has the Hopscotch tour
    ["mytour"], [add_tour_step("Hello", selector="name=q",
    name="mytour")] returns, yet the list of ["mytour"] is what it was:
    the call has created a tour ["q"] (there was none) and put its step
    there. *)
Theorem add_tour_step_name_selector_wrong_tour :
  fst step_on_name_selector = Returns tt
  /\ _tour_steps tours_with_mytour !! "mytour" = Some [hopscotch_tour_header]
  /\ _tour_steps tours_with_mytour !! "q" = None
  /\ _tour_steps (snd step_on_name_selector) !! "mytour"
     = Some [hopscotch_tour_header]
  /\ length <$> (_tour_steps (snd step_on_name_selector) !! "q") = Some 2%nat
  /\ head <$> (_tour_steps (snd step_on_name_selector) !! "q")
     = Some (Some introjs_tour_header).
Proof. vm_compute. repeat split. Qed.

(** ** Visual baselines: [check_window] *)

Section json_induction.
Context (P : json -> Prop)
        (HN : P JNull) (HS : forall s, P (JString s))
        (HL : forall l, Forall P l -> P (JList l)).

Fixpoint json_nested_ind (j : json) : P j :=
  match j with
  | JNull => HN
  | JString s => HS s
  | JList l =>
      HL l ((fix all (l : list json) : Forall P l :=
               match l with
               | [] => @List.Forall_nil json P
               | x :: l' => @List.Forall_cons json P x l' (json_nested_ind x) (all l')
               end) l)
  end.
End json_induction.

Lemma json_eqb_eq (a b : json) : json_eqb a b = true <-> a = b.
Proof.
  revert b. induction a as [|s|l IH] using json_nested_ind; intros b.
  - destruct b; simpl; split; congruence.
  - destruct b as [|t|m]; simpl; try (split; congruence).
    rewrite String.eqb_eq. split; congruence.
  - destruct b as [|t|m]; simpl; try (split; congruence).
    revert m. induction IH as [|x l Hx Hl IHl]; intros m.
    + destruct m; split; congruence.
    + destruct m as [|y m]; [split; congruence|].
      rewrite andb_true_iff, Hx, IHl. split.
      * intros [-> Heq]. congruence.
      * intros Heq. injection Heq as -> ->. split; reflexivity.
Qed.

Lemma json_eqb_refl (a : json) : json_eqb a a = true.
Proof. now apply json_eqb_eq. Qed.

Lemma float_eq_int_inj (f : spec_float) (j k : Z) :
  float_eq_int f j = true -> float_eq_int f k = true -> j = k.
Proof.
  destruct f as [s|s| |s m e]; simpl; try discriminate.
  - rewrite !Z.eqb_eq. congruence.
  - destruct (0 <=? e) eqn:He; rewrite !Z.eqb_eq.
    + congruence.
    + intros H1 H2. rewrite H1 in H2. apply Z.leb_gt in He.
      apply Z.mul_reg_r in H2; [assumption|].
      apply Z.pow_nonzero; lia.
Qed.

Lemma py_eq_int_inj (v : py_value) (j k : Z) :
  py_eq_int v j = true -> py_eq_int v k = true -> j = k.
Proof.
  destruct v as [|b|z|f|s|t]; simpl; try discriminate.
  - rewrite !Z.eqb_eq. congruence.
  - rewrite !Z.eqb_eq. congruence.
  - apply float_eq_int_inj.
Qed.

(** The level is accepted exactly when it is one of the texts ["0"],
    ["1"], ["2"], ["3"] or equals one of the numbers 0, 1, 2, 3. *)
Lemma level_accepted_iff (level : py_value) :
  level_accepted level = true
  <-> (exists s, In s ["0"; "1"; "2"; "3"] /\ level = PyString s)
      \/ (exists k, In k [0; 1; 2; 3] /\ py_eq_int level k = true).
Proof.
  unfold level_accepted, level_rejected, normalize_level.
  destruct level as [|b|z|f|s|t]; simpl.
  all: try (split; [discriminate|]; intros [(s & _ & Hs)|(k & _ & Hk)]; discriminate).
  - destruct b; simpl; (split; [intros _; right|reflexivity]).
    + exists 1. simpl. auto.
    + exists 0. simpl. auto.
  - rewrite !negb_andb, !negb_involutive, !orb_true_iff, !Z.eqb_eq. split.
    + intros H. right. exists z. rewrite Z.eqb_refl. simpl. intuition.
    + intros [(s & _ & Hs)|(k & Hin & Hk)]; [discriminate|].
      apply Z.eqb_eq in Hk. subst k. simpl in Hin. intuition.
  - rewrite !negb_andb, !negb_involutive, !orb_true_iff. split.
    + intros H. right.
      destruct H as [[[H|H]|H]|H]; eexists; (split; [|exact H]); simpl; auto.
    + intros [(s & _ & Hs)|(k & Hin & Hk)]; [discriminate|].
      simpl in Hin. destruct Hin as [<-|[<-|[<-|[<-|[]]]]]; rewrite Hk; auto.
  - split.
    + intros H. left. exists s. split; [|reflexivity]. revert H.
      destruct (String.eqb s "0") eqn:H0;
        [apply String.eqb_eq in H0; subst; simpl; auto|].
      destruct (String.eqb s "1") eqn:H1;
        [apply String.eqb_eq in H1; subst; simpl; auto|].
      destruct (String.eqb s "2") eqn:H2;
        [apply String.eqb_eq in H2; subst; simpl; auto|].
      destruct (String.eqb s "3") eqn:H3;
        [apply String.eqb_eq in H3; subst; simpl; auto|].
      repeat (progress (simpl; rewrite ?H0, ?H1, ?H2, ?H3)). discriminate.
    + intros [(s' & Hin & Hs)|(k & _ & Hk)]; [|discriminate].
      injection Hs as ->. simpl in Hin.
      destruct Hin as [<-|[<-|[<-|[<-|[]]]]]; reflexivity.
Qed.
Lemma string_app_length (s t : string) :
  String.length (s +:+ t) = (String.length s + String.length t)%nat.
Proof.
  induction s as [|c s IH]; [reflexivity|].
  change (S (String.length (s +:+ t))
          = S (String.length s + String.length t))%nat.
  now rewrite IH.
Qed.

Lemma string_app_ne_self (s t : string) : t <> "" -> s +:+ t <> s.
Proof.
  intros Ht Heq. apply (f_equal String.length) in Heq.
  rewrite string_app_length in Heq. destruct t; [congruence|simpl in Heq; lia].
Qed.

Lemma string_app_assoc (s t u : string) : (s +:+ t) +:+ u = s +:+ (t +:+ u).
Proof.
  induction s as [|c s IH]; [reflexivity|].
  change (String c ((s +:+ t) +:+ u) = String c (s +:+ (t +:+ u))).
  now rewrite IH.
Qed.

Lemma minify_line_nonempty (st : minify_state) (line : string) :
  minified_exception st <> "" -> minified_exception (minify_line st line) <> "".
Proof.
  intros Hne.
  assert (Hk : minified_exception st +:+ line +:+ nl <> "").
  { destruct (minified_exception st); [congruence|discriminate]. }
  unfold minify_line.
  repeat match goal with
         | |- context [if ?c then _ else _] => destruct c; simpl
         end; assumption.
Qed.

Lemma minify_nonempty (str_e : string) : minify str_e <> "".
Proof.
  unfold minify.
  generalize (PyStr.split_char "010" str_e). intros lines.
  set (st0 := {| minified_exception := nl +:+ "AssertionError:" +:+ nl;
                 countdown := 3; countdown_on := false;
                 first_differing := false; skip_lines := false |}).
  assert (H0 : minified_exception st0 <> "") by discriminate.
  revert H0. generalize st0. induction lines as [|l lines IH]; intros st H0.
  - exact H0.
  - simpl. apply IH. now apply minify_line_nonempty.
Qed.

Section CheckWindowFacts.
Context (STORAGE_FOLDER : string) (h : helpers)
        (text_diff : string -> string -> string -> string)
        (json_diff : json -> json -> string -> string).

Lemma assert_eq_result (first second : json) (msg : string) (w : world) :
  assert_eq json_diff first second msg w =
    if json_eqb first second then (Returns tt, w)
    else (Raises (Raised Exception_ (minify (json_diff first second msg))), w).
Proof.
  unfold assert_eq. unfold_St.
  destruct (json_eqb first second); [reflexivity|]. simpl.
  destruct (String.eqb _ "") eqn:He; [|reflexivity].
  apply String.eqb_eq in He. now apply minify_nonempty in He.
Qed.

Lemma path_exists_result (path : string) (w : world) :
  path_exists path w = (Returns (exists_in w path), w).
Proof. reflexivity. Qed.

(** *** Operations that leave the files alone *)

Lemma keeps_files_ret {A} (a : A) : keeps_files (mret a).
Proof. intros w. split; reflexivity. Qed.

Lemma keeps_files_raise {A} (x : exn) : keeps_files (@st_raise world A x).
Proof. intros w. split; reflexivity. Qed.

Lemma keeps_files_bind {A B} (m : St world A) (k : A -> St world B) :
  keeps_files m -> (forall a, keeps_files (k a)) -> keeps_files (m ≫= k).
Proof.
  intros Hm Hk w. unfold_St. specialize (Hm w).
  destruct (m w) as [[a|x] w']; simpl in *.
  - destruct (Hk a w') as [H1 H2]. destruct Hm as [H3 H4]. split; congruence.
  - exact Hm.
Qed.

Lemma keeps_files_try {A} (m : St world A) (k : exn -> St world A) :
  keeps_files m -> (forall x, keeps_files (k x)) -> keeps_files (st_try m k).
Proof.
  intros Hm Hk w. unfold st_try. specialize (Hm w).
  destruct (m w) as [[a|x] w']; simpl in *.
  - exact Hm.
  - destruct (Hk x w') as [H1 H2]. destruct Hm as [H3 H4]. split; congruence.
Qed.

Lemma keeps_files_when (b : bool) (m : St world unit) :
  keeps_files m -> keeps_files (st_when b m).
Proof. intros Hm. destruct b; [exact Hm|apply keeps_files_ret]. Qed.

Lemma keeps_files_print (msg : string) : keeps_files (print msg).
Proof. intros w. split; reflexivity. Qed.

Lemma keeps_files_read_text (path : string) : keeps_files (read_text path).
Proof.
  intros w. unfold read_text. unfold_St.
  destruct (files w !! path) as [[]|]; split; reflexivity.
Qed.

Lemma keeps_files_read_json (path : string) : keeps_files (read_json path).
Proof.
  intros w. unfold read_json. unfold_St.
  destruct (files w !! path) as [[]|]; split; reflexivity.
Qed.

Lemma keeps_files_assertEqual_text (a b msg : string) :
  keeps_files (assertEqual_text text_diff a b msg).
Proof.
  unfold assertEqual_text. destruct (String.eqb a b);
    [apply keeps_files_ret|apply keeps_files_raise].
Qed.

Lemma keeps_files_assert_eq (a b : json) (msg : string) :
  keeps_files (assert_eq json_diff a b msg).
Proof.
  intros w. rewrite assert_eq_result. destruct (json_eqb a b); split; reflexivity.
Qed.

Lemma keeps_files_dry_run (cd : bool) (d1 d2 : string) (a1 b1 a2 b2 a3 b3 : json) :
  keeps_files (dry_run text_diff json_diff cd d1 d2 a1 b1 a2 b2 a3 b3).
Proof.
  unfold dry_run.
  repeat first
    [ apply keeps_files_assertEqual_text | apply keeps_files_assert_eq
    | apply keeps_files_print | apply keeps_files_when
    | apply keeps_files_try | apply keeps_files_bind | intro ].
Qed.

Lemma keeps_files_compare_to_baseline (path : string) (pg : page)
  (level : py_value) (cd : bool) (l1 l2 l3 : json) :
  keeps_files (compare_to_baseline h text_diff json_diff path pg level cd l1 l2 l3).
Proof.
  unfold compare_to_baseline.
  repeat first
    [ apply keeps_files_read_text | apply keeps_files_read_json
    | apply keeps_files_assertEqual_text | apply keeps_files_assert_eq
    | apply keeps_files_dry_run | apply keeps_files_when
    | apply keeps_files_bind | intro ].
Qed.

(** The dry run never raises. *)
Lemma dry_run_returns (cd : bool) (d1 d2 : string) (a1 b1 a2 b2 a3 b3 : json)
  (w : world) :
  fst (dry_run text_diff json_diff cd d1 d2 a1 b1 a2 b2 a3 b3 w) = Returns tt.
Proof.
  unfold dry_run, st_try.
  match goal with
  | |- context [match ?m w with _ => _ end] => destruct (m w) as [[[]|x] w']
  end; reflexivity.
Qed.

(** *** Which mode a call is in *)

Lemma decide_set_baseline_result (baseline vb : bool) (path : string) (w : world) :
  decide_set_baseline baseline vb path w =
    (Returns (baseline || vb || negb (baseline_present w path)),
     if exists_in w path then w
     else {| files := files w; dirs := {[path]} ∪ dirs w; stdout := stdout w |}).
Proof.
  unfold decide_set_baseline, baseline_present, exists_in, make_dir,
    path_exists.
  unfold_St. simpl.
  destruct (bool_decide (path ∈ dirs w) || bool_decide (is_Some (files w !! path)));
    simpl.
  - destruct baseline, vb; simpl;
      repeat match goal with
             | |- context [bool_decide ?P] => destruct (bool_decide P); simpl
             end; reflexivity.
  - rewrite !orb_true_r.
    repeat match goal with
           | |- context [bool_decide ?P] => destruct (bool_decide P); simpl
           end; reflexivity.
Qed.

Lemma check_window_rejected (test_id : string) (vb : bool) (pg : page)
  (name : option string) (level : py_value) (baseline cd : bool) (w : world) :
  level_accepted level = false ->
  check_window STORAGE_FOLDER h text_diff json_diff test_id vb pg name level
    baseline cd w
  = (Raises (Raised Exception_ level_error_message), w).
Proof.
  unfold level_accepted, check_window. intros Hl.
  apply negb_false_iff in Hl. rewrite Hl. reflexivity.
Qed.

Lemma check_window_accepted (test_id : string) (vb : bool) (pg : page)
  (name : option string) (level : py_value) (baseline cd : bool) (w : world) :
  level_accepted level = true ->
  let path := baseline_path STORAGE_FOLDER test_id (text_or name "default") in
  let w1 := with_folders STORAGE_FOLDER path w in
  check_window STORAGE_FOLDER h text_diff json_diff test_id vb pg name level
    baseline cd w
  = if baseline || vb || negb (baseline_present (with_storage_folder STORAGE_FOLDER w) path)
    then (Returns tt,
          {| files := baseline_files path pg (files w1); dirs := dirs w1;
             stdout := stdout w1 |})
    else compare_to_baseline h text_diff json_diff path pg
           (normalize_level level) cd (level_1_of (page_tags pg))
           (level_2_of (page_tags pg)) (level_3_of (page_tags pg)) w1.
Proof.
  intros Hl path w1. unfold level_accepted in Hl.
  apply negb_true_iff in Hl. unfold check_window. rewrite Hl.
  fold (text_or name "default"). fold path.
  change (make_dir STORAGE_FOLDER ≫= _) with
    (make_dir STORAGE_FOLDER ≫= fun _ : unit =>
       decide_set_baseline baseline vb path ≫= fun set_baseline =>
       st_when set_baseline
         (write_baseline path pg (level_1_of (page_tags pg))
            (level_2_of (page_tags pg)) (level_3_of (page_tags pg))) ≫= fun _ =>
       st_when (negb set_baseline)
         (compare_to_baseline h text_diff json_diff path pg
            (normalize_level level) cd (level_1_of (page_tags pg))
            (level_2_of (page_tags pg)) (level_3_of (page_tags pg)))).
  unfold make_dir at 1. unfold mbind at 1. unfold St_bind at 1.
  unfold st_modify at 1. cbv beta iota.
  fold (with_storage_folder STORAGE_FOLDER w).
  unfold mbind at 1. unfold St_bind at 1.
  rewrite decide_set_baseline_result.
  change (if exists_in (with_storage_folder STORAGE_FOLDER w) path then with_storage_folder STORAGE_FOLDER w
          else _) with w1.
  destruct (baseline || vb || negb (baseline_present (with_storage_folder STORAGE_FOLDER w) path)).
  - reflexivity.
  - unfold st_when at 1. unfold mbind at 1. unfold St_bind at 1.
    unfold mret at 1. unfold St_ret at 1. cbv beta iota. reflexivity.
Qed.

Lemma files_with_folders (path : string) (w : world) :
  files (with_folders STORAGE_FOLDER path w) = files w.
Proof. unfold with_folders. destruct (exists_in _ path); reflexivity. Qed.

Lemma with_folders_present (path : string) (w : world) :
  baseline_present (with_storage_folder STORAGE_FOLDER w) path = true ->
  with_folders STORAGE_FOLDER path w = with_storage_folder STORAGE_FOLDER w.
Proof.
  unfold baseline_present, with_folders. fold (with_storage_folder STORAGE_FOLDER w).
  rewrite !andb_true_iff. intros [[[[[-> _] _] _] _] _]. reflexivity.
Qed.

(** What the comparison does once the stored files are read. *)
Lemma compare_to_baseline_result (path : string) (pg : page) (v : py_value)
  (cd : bool) (l1 l2 l3 : json) (u : string) (j1 j2 j3 : json) (w : world) :
  files w !! page_url_file path = Some (Text u) ->
  files w !! level_1_file path = Some (Json j1) ->
  files w !! level_2_file path = Some (Json j2) ->
  files w !! level_3_file path = Some (Json j3) ->
  compare_to_baseline h text_diff json_diff path pg v cd l1 l2 l3 w
  = (st_when (negb (py_eq_int v 0) && cd)
       (assertEqual_text text_diff (get_domain_url h (PyStr.strip u))
          (get_domain_url h (page_url pg)) domain_fail);;
     st_when (py_eq_int v 3) (assert_eq json_diff j3 l3 level_3_failure);;
     st_when (py_eq_int v 2) (assert_eq json_diff j2 l2 level_2_failure);;
     st_when (py_eq_int v 1) (assert_eq json_diff j1 l1 level_1_failure);;
     st_when (py_eq_int v 0)
       (dry_run text_diff json_diff cd (get_domain_url h (page_url pg))
          (get_domain_url h (PyStr.strip u)) j1 l1 j2 l2 j3 l3)) w.
Proof.
  intros Hu H1 H2 H3. unfold compare_to_baseline, read_text, read_json.
  unfold_St. rewrite Hu, H1, H2, H3. reflexivity.
Qed.

End CheckWindowFacts.

Section CheckWindowTheorems.
Context (STORAGE_FOLDER : string) (h : helpers)
        (text_diff : string -> string -> string -> string)
        (json_diff : json -> json -> string -> string).

Lemma py_eq_int_other (v : py_value) (j k : Z) :
  py_eq_int v k = true -> j <> k -> py_eq_int v j = false.
Proof.
  intros Hk Hne. destruct (py_eq_int v j) eqn:Hj; [|reflexivity].
  exfalso. apply Hne. eapply py_eq_int_inj; eassumption.
Qed.

Lemma level_accepted_of_eq (level : py_value) (k : Z) :
  In k [0; 1; 2; 3] -> py_eq_int (normalize_level level) k = true ->
  level_accepted level = true.
Proof.
  intros Hin Hk. unfold level_accepted, level_rejected.
  simpl in Hin. destruct Hin as [<-|[<-|[<-|[<-|[]]]]]; rewrite Hk; simpl;
    rewrite ?andb_false_r; reflexivity.
Qed.

Lemma level_accepted_eq (level : py_value) :
  level_accepted level = true ->
  exists k, In k [0; 1; 2; 3] /\ py_eq_int (normalize_level level) k = true.
Proof.
  unfold level_accepted, level_rejected.
  rewrite !negb_andb, !negb_involutive, !orb_true_iff.
  intros [[[H|H]|H]|H]; eexists; (split; [|exact H]); simpl; auto.
Qed.

(** The outcome of the comparison at a level equal to 1, 2 or 3. *)
Lemma compare_level_outcome (path : string) (pg : page) (v : py_value)
  (cd : bool) (u : string) (j1 j2 j3 : json) (w : world) (k : Z) :
  files w !! page_url_file path = Some (Text u) ->
  files w !! level_1_file path = Some (Json j1) ->
  files w !! level_2_file path = Some (Json j2) ->
  files w !! level_3_file path = Some (Json j3) ->
  In k [1; 2; 3] -> py_eq_int v k = true ->
  let r := compare_to_baseline h text_diff json_diff path pg v cd
             (level_1_of (page_tags pg)) (level_2_of (page_tags pg))
             (level_3_of (page_tags pg)) w in
  let domains_agree :=
    negb cd || String.eqb (get_domain_url h (PyStr.strip u))
                          (get_domain_url h (page_url pg)) in
  let stored := if k =? 1 then j1 else if k =? 2 then j2 else j3 in
  (fst r = Returns tt
   <-> domains_agree = true /\ stored = tag_list_of k (page_tags pg))
  /\ (fst r <> Returns tt -> exists x, fst r = Raises x).
Proof.
  intros Hu H1 H2 H3 Hin Hk r domains_agree stored. subst r.
  rewrite (compare_to_baseline_result h text_diff json_diff path pg _ _ _ _ _
             u j1 j2 j3) by assumption.
  assert (H0 : py_eq_int v 0 = false).
  { apply (py_eq_int_other _ 0 k Hk). simpl in Hin. lia. }
  rewrite H0. unfold assertEqual_text. unfold_St. simpl.
  subst domains_agree stored. unfold tag_list_of.
  simpl in Hin. destruct Hin as [<-|[<-|[<-|[]]]].
  - rewrite (py_eq_int_other _ 3 1 Hk), (py_eq_int_other _ 2 1 Hk), Hk by lia.
    destruct cd; simpl.
    + destruct (String.eqb _ _); simpl.
      * rewrite assert_eq_result. destruct (json_eqb j1 _) eqn:Hj; simpl.
        -- apply json_eqb_eq in Hj. split; [tauto|congruence].
        -- split; [|eauto]. split; [discriminate|].
           intros [_ Heq]. apply json_eqb_eq in Heq. congruence.
      * split; [|eauto]. split; [discriminate|intros [? _]; discriminate].
    + rewrite assert_eq_result. destruct (json_eqb j1 _) eqn:Hj; simpl.
      * apply json_eqb_eq in Hj. split; [tauto|congruence].
      * split; [|eauto]. split; [discriminate|].
        intros [_ Heq]. apply json_eqb_eq in Heq. congruence.
  - rewrite (py_eq_int_other _ 3 2 Hk), (py_eq_int_other _ 1 2 Hk), Hk by lia.
    destruct cd; simpl.
    + destruct (String.eqb _ _); simpl.
      * rewrite assert_eq_result. destruct (json_eqb j2 _) eqn:Hj; simpl.
        -- apply json_eqb_eq in Hj. split; [tauto|congruence].
        -- split; [|eauto]. split; [discriminate|].
           intros [_ Heq]. apply json_eqb_eq in Heq. congruence.
      * split; [|eauto]. split; [discriminate|intros [? _]; discriminate].
    + rewrite assert_eq_result. destruct (json_eqb j2 _) eqn:Hj; simpl.
      * apply json_eqb_eq in Hj. split; [tauto|congruence].
      * split; [|eauto]. split; [discriminate|].
        intros [_ Heq]. apply json_eqb_eq in Heq. congruence.
  - rewrite (py_eq_int_other _ 2 3 Hk), (py_eq_int_other _ 1 3 Hk), Hk by lia.
    destruct cd; simpl.
    + destruct (String.eqb _ _); simpl.
      * rewrite assert_eq_result. destruct (json_eqb j3 _) eqn:Hj; simpl.
        -- apply json_eqb_eq in Hj. split; [tauto|congruence].
        -- split; [|eauto]. split; [discriminate|].
           intros [_ Heq]. apply json_eqb_eq in Heq. congruence.
      * split; [|eauto]. split; [discriminate|intros [? _]; discriminate].
    + rewrite assert_eq_result. destruct (json_eqb j3 _) eqn:Hj; simpl.
      * apply json_eqb_eq in Hj. split; [tauto|congruence].
      * split; [|eauto]. split; [discriminate|].
        intros [_ Heq]. apply json_eqb_eq in Heq. congruence.
Qed.

(** The outcome of the comparison at a level equal to 0. *)
Lemma compare_level_0_outcome (path : string) (pg : page) (v : py_value)
  (cd : bool) (l1 l2 l3 : json) (u : string) (j1 j2 j3 : json) (w : world) :
  files w !! page_url_file path = Some (Text u) ->
  files w !! level_1_file path = Some (Json j1) ->
  files w !! level_2_file path = Some (Json j2) ->
  files w !! level_3_file path = Some (Json j3) ->
  py_eq_int v 0 = true ->
  fst (compare_to_baseline h text_diff json_diff path pg v cd l1 l2 l3 w)
  = Returns tt.
Proof.
  intros Hu H1 H2 H3 Hk.
  rewrite (compare_to_baseline_result h text_diff json_diff path pg _ _ _ _ _
             u j1 j2 j3) by assumption.
  rewrite Hk, (py_eq_int_other _ 3 0 Hk), (py_eq_int_other _ 2 0 Hk),
    (py_eq_int_other _ 1 0 Hk) by lia.
  unfold_St. simpl. apply dry_run_returns.
Qed.

(** In the mode that compares, a call is the comparison. *)
Lemma check_window_compares (test_id : string) (pg : page)
  (name : option string) (level : py_value) (cd : bool) (w : world) :
  level_accepted level = true ->
  let path := baseline_path STORAGE_FOLDER test_id (text_or name "default") in
  baseline_present (with_storage_folder STORAGE_FOLDER w) path = true ->
  check_window STORAGE_FOLDER h text_diff json_diff test_id false pg name
    level false cd w
  = compare_to_baseline h text_diff json_diff path pg (normalize_level level)
      cd (level_1_of (page_tags pg)) (level_2_of (page_tags pg))
      (level_3_of (page_tags pg)) (with_storage_folder STORAGE_FOLDER w).
Proof.
  intros Hl path Hp. rewrite check_window_accepted by assumption.
  fold path. rewrite Hp. simpl. now rewrite with_folders_present.
Qed.



End CheckWindowTheorems.

Section CheckWindowBaseline.
Context (STORAGE_FOLDER : string) (h : helpers)
        (text_diff : string -> string -> string -> string)
        (json_diff : json -> json -> string -> string).

Lemma suffix_paths_differ (path a b : string) :
  a <> b -> path +:+ a <> path +:+ b.
Proof. intros Hne Heq. apply Hne. eapply String.app_inj. exact Heq. Qed.

Lemma baseline_path_not_storage (test_id name suffix : string) :
  baseline_path STORAGE_FOLDER test_id name +:+ suffix <> STORAGE_FOLDER.
Proof.
  unfold baseline_path. rewrite string_app_assoc.
  apply string_app_ne_self. discriminate.
Qed.

Lemma exists_in_with_storage (w : world) (p : string) :
  p <> STORAGE_FOLDER ->
  exists_in (with_storage_folder STORAGE_FOLDER w) p = exists_in w p.
Proof.
  intros Hne. unfold exists_in. simpl. f_equal.
  apply bool_decide_ext. rewrite elem_of_union, elem_of_singleton. tauto.
Qed.

Lemma baseline_present_with_storage (w : world) (test_id name : string) :
  baseline_present (with_storage_folder STORAGE_FOLDER w)
    (baseline_path STORAGE_FOLDER test_id name)
  = baseline_present w (baseline_path STORAGE_FOLDER test_id name).
Proof.
  unfold baseline_present, page_url_file, screenshot_file, level_1_file,
    level_2_file, level_3_file.
  rewrite !exists_in_with_storage; [reflexivity|..];
    try apply baseline_path_not_storage.
  generalize (baseline_path_not_storage test_id name "").
  assert (Hnil : forall s, s +:+ "" = s)
    by (induction s as [|c s IH]; [reflexivity|];
        change (String c (s +:+ "") = String c s); now rewrite IH).
  now rewrite Hnil.
Qed.

(** The five files of a baseline, once written. *)
Lemma baseline_files_lookup (path : string) (pg : page) (fs : gmap string content) :
  baseline_files path pg fs !! page_url_file path = Some (Text (page_url pg))
  /\ baseline_files path pg fs !! screenshot_file path
     = Some (Png (page_screenshot pg))
  /\ baseline_files path pg fs !! level_1_file path
     = Some (Json (level_1_of (page_tags pg)))
  /\ baseline_files path pg fs !! level_2_file path
     = Some (Json (level_2_of (page_tags pg)))
  /\ baseline_files path pg fs !! level_3_file path
     = Some (Json (level_3_of (page_tags pg))).
Proof.
  unfold baseline_files, page_url_file, screenshot_file, level_1_file,
    level_2_file, level_3_file.
  repeat split;
    repeat first
      [ apply lookup_insert_eq
      | rewrite lookup_insert_ne by (apply suffix_paths_differ; discriminate) ].
Qed.

Lemma baseline_files_keeps (path : string) (pg : page)
  (fs : gmap string content) (p : string) :
  is_Some (fs !! p) -> is_Some (baseline_files path pg fs !! p).
Proof.
  intros Hp. unfold baseline_files.
  repeat (rewrite lookup_insert; case_decide; [eauto|]). assumption.
Qed.

Lemma path_in_with_folders (path : string) (w : world) :
  exists_in (with_folders STORAGE_FOLDER path w) path = true.
Proof.
  unfold with_folders.
  destruct (exists_in (with_storage_folder STORAGE_FOLDER w) path) eqn:He;
    [assumption|].
  unfold exists_in. simpl. rewrite bool_decide_eq_true_2 by set_solver.
  reflexivity.
Qed.

Lemma baseline_present_written (path : string) (pg : page) (w : world) :
  exists_in w path = true ->
  baseline_present
    (with_storage_folder STORAGE_FOLDER
       {| files := baseline_files path pg (files w); dirs := dirs w;
          stdout := stdout w |})
    path = true.
Proof.
  intros Hd. destruct (baseline_files_lookup path pg (files w))
    as (H1 & H2 & H3 & H4 & H5).
  unfold baseline_present, exists_in in *. simpl.
  rewrite H1, H2, H3, H4, H5.
  rewrite !(bool_decide_eq_true_2 (is_Some (Some _))) by eauto.
  rewrite !orb_true_r, !andb_true_r.
  apply orb_true_iff in Hd. apply orb_true_iff.
  destruct Hd as [Hd|Hd]; [left|right].
  - apply bool_decide_eq_true in Hd. apply bool_decide_eq_true. set_solver.
  - apply bool_decide_eq_true in Hd. apply bool_decide_eq_true.
    now apply baseline_files_keeps.
Qed.


End CheckWindowBaseline.




(** ** [str.strip] is idempotent *)

Lemma lstrip_drop_spaces (s : string) :
  PyStr.lstrip s = string_of_list_ascii (drop_spaces (list_ascii_of_string s)).
Proof.
  induction s as [|c s IH]; [reflexivity|]. simpl.
  destruct (PyStr.is_space c); [exact IH|].
  simpl. now rewrite string_of_list_ascii_of_string.
Qed.

Lemma strip_drop_spaces (s : string) :
  PyStr.strip s =
  string_of_list_ascii
    (List.rev (drop_spaces (List.rev (drop_spaces (list_ascii_of_string s))))).
Proof.
  unfold PyStr.strip, PyStr.rev.
  rewrite !lstrip_drop_spaces, !list_ascii_of_string_of_list_ascii.
  reflexivity.
Qed.

Lemma drop_spaces_idem (l : list ascii) : drop_spaces (drop_spaces l) = drop_spaces l.
Proof.
  induction l as [|c l IH]; [reflexivity|]. simpl.
  destruct (PyStr.is_space c) eqn:Hc; [exact IH|]. simpl. now rewrite Hc.
Qed.

Lemma drop_spaces_snoc (l : list ascii) (c : ascii) :
  PyStr.is_space c = false -> drop_spaces (l ++ [c]) = drop_spaces l ++ [c].
Proof.
  intros Hc. induction l as [|a l IH]; simpl; [now rewrite Hc|].
  destruct (PyStr.is_space a); [exact IH|reflexivity].
Qed.

Lemma drop_spaces_head (l : list ascii) :
  drop_spaces l = [] \/ exists c l', drop_spaces l = c :: l' /\ PyStr.is_space c = false.
Proof.
  induction l as [|c l IH]; [now left|]. simpl.
  destruct (PyStr.is_space c) eqn:Hc; [exact IH|]. right. eauto.
Qed.

Lemma strip_idempotent (s : string) : PyStr.strip (PyStr.strip s) = PyStr.strip s.
Proof.
  rewrite (strip_drop_spaces (PyStr.strip s)), (strip_drop_spaces s).
  rewrite list_ascii_of_string_of_list_ascii. f_equal.
  set (t := drop_spaces (list_ascii_of_string s)).
  assert (Hu : drop_spaces (List.rev (drop_spaces (List.rev t)))
               = List.rev (drop_spaces (List.rev t))).
  { destruct (drop_spaces_head (list_ascii_of_string s)) as [Ht|(c & t' & Ht & Hc)];
      fold t in Ht; rewrite Ht; [reflexivity|].
    simpl. rewrite drop_spaces_snoc by assumption.
    rewrite rev_app_distr. simpl. now rewrite Hc. }
  rewrite Hu, rev_involutive, drop_spaces_idem. reflexivity.
Qed.

(** ** The shadow-DOM text waits *)

Lemma count_app (p : call -> bool) (l1 l2 : list call) :
  count p (l1 ++ l2) = (count p l1 + count p l2)%nat.
Proof. unfold count. now rewrite filter_app, length_app. Qed.

Lemma count_cons (p : call -> bool) (c : call) (l : list call) :
  count p (c :: l) = ((if p c then 1 else 0) + count p l)%nat.
Proof.
  unfold count. rewrite filter_cons.
  destruct (p c); case_decide; simpl; congruence.
Qed.

Lemma count_rev (p : call -> bool) (l : list call) :
  count p (List.rev l) = count p l.
Proof.
  induction l as [|c l IH]; [reflexivity|]. simpl.
  rewrite count_app, IH, !count_cons. unfold count at 2. simpl. lia.
Qed.

Lemma M_bind_run {A B} (m : M A) (k : A -> M B) (e : env) (log : list call) :
  (m ≫= k) e log =
    match m e log with
    | (Returns a, log') => k a e log'
    | (Raises x, log') => (Raises x, log')
    end.
Proof. reflexivity. Qed.

Lemma perform_run (c : call) (e : env) (log : list call) :
  perform c e log = (e log c, c :: log).
Proof. reflexivity. Qed.

Section ShadowTextFacts.
Context (cfg : config) (matches : string -> string -> bool)
        (loop_msg final_msg : string -> string -> string)
        (selector : string) (e : env).

Lemma shadow_text_attempt_run (msg : string -> string -> string)
  (text : string) (log : list call) :
  shadow_text_attempt matches msg text selector e log =
    (Returns
       match e log (GetShadowText selector) with
       | Raises x => (Raises x, text)
       | Returns actual =>
           if negb (matches (PyStr.strip actual) (PyStr.strip text))
           then (Raises (timeout_exception ElementNotVisibleException
                           (msg (PyStr.strip text) selector)),
                 PyStr.strip text)
           else (Returns true, PyStr.strip text)
       end,
     GetShadowText selector :: log).
Proof.
  unfold shadow_text_attempt. unfold_M.
  destruct (e log (GetShadowText selector)) as [actual|x]; [|reflexivity].
  destruct (negb _); reflexivity.
Qed.

Local Abbreviation failed T := (reads_failed matches T selector e).

Lemma reads_failed_step (T : string) (c : call) (log : list call) :
  (c = GetShadowText selector ->
   read_matches matches T selector e log = false) ->
  failed T log -> failed T (c :: log).
Proof. intros; split; assumption. Qed.

(** What the polling loop guarantees, whatever the environment does. *)
Lemma shadow_text_loop_spec (T : string) (stop_ms : Z) (n : nat) :
  forall (text : string) (log : list call),
    PyStr.strip text = T ->
    failed T log ->
    exists new,
      snd (shadow_text_loop matches loop_msg n text selector stop_ms e log)
      = new ++ log
      /\ Forall (shadow_wait_call selector) new
      /\ (count is_shadow_read new <= n)%nat
      /\ (count is_sleep new <= n)%nat
      /\ (length new <= 3 * n)%nat
      /\ loop_outcome matches selector e T (new ++ log)
           (fst (shadow_text_loop matches loop_msg n text selector stop_ms
                   e log)).
Proof.
  induction n as [|n IH]; intros text log Ht Hf.
  - exists []. simpl. repeat split; try constructor; try lia; assumption.
  - cbn [shadow_text_loop].
    rewrite M_bind_run, shadow_text_attempt_run.
    assert (Hread : shadow_wait_call selector (GetShadowText selector))
      by (now left).
    assert (Hclock : shadow_wait_call selector TimeTime) by (right; now left).
    assert (Hsleep : shadow_wait_call selector (Sleep 100)) by (right; now right).
    set (log1 := GetShadowText selector :: log).
    (* the except branch, from a text that strips to T *)
    assert (Hexcept : forall text1, PyStr.strip text1 = T ->
      read_matches matches T selector e log = false ->
      let r := (now_ms ← perform TimeTime;
                if stop_ms <=? now_ms then mret (None, text1) else
                perform (Sleep 100);;
                shadow_text_loop matches loop_msg n text1 selector stop_ms)
                 e log1 in
      exists new,
        snd r = new ++ log
        /\ Forall (shadow_wait_call selector) new
        /\ (count is_shadow_read new <= S n)%nat
        /\ (count is_sleep new <= S n)%nat
        /\ (length new <= 3 * S n)%nat
        /\ loop_outcome matches selector e T (new ++ log) (fst r)).
    { intros text1 Ht1 Hnm r. subst r.
      assert (Hf1 : failed T log1) by (apply reads_failed_step; auto).
      assert (Hf2 : failed T (TimeTime :: log1))
        by (apply reads_failed_step; [discriminate|assumption]).
      rewrite M_bind_run, perform_run.
      destruct (e log1 TimeTime) as [now_ms|x] eqn:Hnow.
      - destruct (stop_ms <=? now_ms).
        + exists [TimeTime; GetShadowText selector]. simpl.
          repeat split; try (repeat constructor; assumption);
            try (rewrite ?count_cons; unfold count; simpl; lia);
            try (simpl; lia); try discriminate; try assumption; auto.
        + rewrite M_bind_run, perform_run.
          assert (Hf3 : failed T (Sleep 100 :: TimeTime :: log1))
            by (apply reads_failed_step; [discriminate|assumption]).
          destruct (e (TimeTime :: log1) (Sleep 100)) as [[]|x] eqn:Hsl.
          * destruct (IH text1 (Sleep 100 :: TimeTime :: log1) Ht1 Hf3)
              as (new & Hnew & Hall & Hr & Hs & Hlen & Hres).
            exists (new ++ [Sleep 100; TimeTime; GetShadowText selector]).
            rewrite Hnew. rewrite <- app_assoc. split; [reflexivity|].
            split; [apply Forall_app; split; [assumption|]; repeat constructor;
                    assumption|].
            rewrite !count_app, !count_cons, length_app.
            unfold count at 2 4. simpl.
            repeat split; try lia. exact Hres.
          * exists [Sleep 100; TimeTime; GetShadowText selector].
            split; [reflexivity|].
            split; [repeat constructor; assumption|].
            rewrite !count_cons. unfold count. simpl.
            repeat split; try lia; try discriminate; try assumption; auto.
            eexists _, _. split; [reflexivity|]. exact Hsl.
      - exists [TimeTime; GetShadowText selector].
        split; [reflexivity|].
        split; [repeat constructor; assumption|].
        rewrite !count_cons. unfold count. simpl.
        repeat split; try lia; try discriminate; try assumption; auto.
        eexists _, _. split; [reflexivity|]. exact Hnow. }
    destruct (e log (GetShadowText selector)) as [actual|x] eqn:Hread1.
    + rewrite Ht. destruct (matches (PyStr.strip actual) T) eqn:Hm; simpl.
      * exists [GetShadowText selector].
        split; [reflexivity|].
        split; [repeat constructor; assumption|].
        rewrite !count_cons. unfold count. simpl.
        repeat split; try lia.
        exists log. repeat split; try assumption.
        unfold read_matches. now rewrite Hread1.
      * apply Hexcept; [rewrite <- Ht; apply strip_idempotent|].
        unfold read_matches. now rewrite Hread1.
    + simpl. apply Hexcept; [exact Ht|].
      unfold read_matches. now rewrite Hread1.
Qed.

(** The wait as a whole: the first reading of the clock, the loop, and
    the final check after it. *)
Lemma shadow_text_wait_spec (text : string) :
  polling_wait_spec cfg matches final_msg text selector e
    (shadow_text_wait cfg matches loop_msg final_msg text selector).
Proof.
  unfold polling_wait_spec, shadow_text_wait.
  cbv zeta.
  set (N := Z.to_nat (SMALL_TIMEOUT cfg * 10)).
  set (T := PyStr.strip text).
  assert (Hread : shadow_wait_call selector (GetShadowText selector))
    by (now left).
  assert (Hclock : shadow_wait_call selector TimeTime) by (right; now left).
  rewrite M_bind_run, perform_run.
  destruct (e [] TimeTime) as [start_ms|x] eqn:Hstart.
  - rewrite M_bind_run.
    assert (Hf0 : failed T [TimeTime])
      by (apply reads_failed_step; [discriminate|exact I]).
    destruct (shadow_text_loop_spec T (start_ms + SMALL_TIMEOUT cfg * 1000) N
                text [TimeTime] eq_refl Hf0)
      as (new & Hnew & Hall & Hr & Hs & Hlen & Hres).
    destruct (shadow_text_loop matches loop_msg N text selector
                (start_ms + SMALL_TIMEOUT cfg * 1000) e [TimeTime])
      as [[[[b|] text']|x] log'] eqn:Hloop; simpl in Hnew, Hres; subst log'.
    + (* an iteration returned *)
      destruct Hres as (-> & log0 & Hlog0 & Hm & Hf).
      cbn [fst snd mret M_ret ret].
      split; [apply Forall_app; split; [assumption|repeat constructor;
              assumption]|].
      rewrite count_app, count_app, length_app, !count_cons.
      unfold count at 2 4. simpl.
      repeat split; try lia. exists log0. auto.
    + (* the loop ended without a match: the final check *)
      destruct Hres as (Ht' & Hf).
      rewrite M_bind_run, shadow_text_attempt_run, Ht'.
      set (log1 := new ++ [TimeTime]) in *.
      assert (Hall1 : Forall (shadow_wait_call selector)
                        (GetShadowText selector :: log1)).
      { constructor; [assumption|]. apply Forall_app; split; [assumption|].
        repeat constructor; assumption. }
      assert (Hc1 : (count is_shadow_read (GetShadowText selector :: log1)
                     <= N + 1)%nat).
      { subst log1. rewrite count_cons, count_app, count_cons.
        unfold count at 2. simpl. lia. }
      assert (Hc2 : (count is_sleep (GetShadowText selector :: log1)
                     <= N)%nat).
      { subst log1. rewrite count_cons, count_app, count_cons.
        unfold count at 2. simpl. lia. }
      assert (Hc3 : (length (GetShadowText selector :: log1)
                     <= 3 * N + 2)%nat).
      { subst log1. simpl. rewrite length_app. simpl. lia. }
      destruct (e log1 (GetShadowText selector)) as [actual|x] eqn:Hfin.
      * destruct (matches (PyStr.strip actual) T) eqn:Hm; simpl.
        -- repeat split; try assumption. exists log1. repeat split; auto.
           unfold read_matches. now rewrite Hfin.
        -- repeat split; try assumption.
           ++ intros _. unfold read_matches. now rewrite Hfin.
           ++ eexists _, _. split; [reflexivity|]. right.
              repeat split. now exists actual.
      * simpl. repeat split; try assumption.
        -- intros _. unfold read_matches. now rewrite Hfin.
        -- eexists _, _. split; [reflexivity|]. now left.
    + (* the clock or the sleep raised *)
      destruct Hres as (Hf & c & log0 & Hlog0 & Hx).
      cbn [fst snd].
      split; [apply Forall_app; split; [assumption|repeat constructor;
              assumption]|].
      rewrite count_app, count_app, length_app, !count_cons.
      unfold count at 2 4. simpl.
      repeat split; try lia; try assumption.
      exists c, log0. auto.
  - simpl. repeat split; try (repeat constructor; assumption);
      try (rewrite ?count_cons; unfold count; simpl; lia); try discriminate.
    eexists _, _. split; [reflexivity|]. now left.
Qed.

End ShadowTextFacts.


(** The text shows up at the third reading: the wait returns [True]
    after three readings and two sleeps. *)
Example wait_for_shadow_text_visible_found :
  run (wait_for_shadow_text_visible cfg_chrome "Hello" "div#host::shadow span")
      env_text_at_third_read
  = (Returns true,
     [TimeTime;
      GetShadowText "div#host::shadow span"; TimeTime; Sleep 100;
      GetShadowText "div#host::shadow span"; TimeTime; Sleep 100;
      GetShadowText "div#host::shadow span"]).
Proof. vm_compute. reflexivity. Qed.

(** The text never shows up: the wait ends with the timeout exception
    of its final check, after 61 readings and 60 sleeps. *)
Example wait_for_exact_shadow_text_visible_timeout :
  let m := wait_for_exact_shadow_text_visible cfg_chrome " Hello World "
             "div#host::shadow span" in
  result_of m env_text_never
  = Raises (timeout_exception ElementNotVisibleException
              (exact_text_not_visible_message "Hello World"
                 "div#host::shadow span"))
  /\ count is_shadow_read (trace_of m env_text_never) = 61%nat
  /\ count is_sleep (trace_of m env_text_never) = 60%nat.
Proof. vm_compute. repeat split. Qed.


(** ** The typing step of [update_text] *)

Lemma mret_run {A} (a : A) (e : env) (log : list call) :
  (mret a : M A) e log = (Returns a, log).
Proof. reflexivity. Qed.

Ltac split_log l base :=
  lazymatch l with
  | base => constr:(@nil call)
  | ?c :: ?l' => let r := split_log l' base in constr:(c :: r)
  end.

Ltac step_M :=
  repeat first
    [ rewrite M_bind_run | rewrite perform_run | rewrite mret_run ].


(** With an old ChromeDriver the method raises the generic exception
    with the improved message, right after the failed keystrokes. *)
Example update_text_old_chromedriver :
  run (update_text cfg_chrome spec_helpers (PyText "input#q") "hello"
         CSS_SELECTOR None false) env_old_chromedriver
  = (Raises (Raised Exception_
               (chromedriver_update_message
                  "unknown error: call function result missing 'value'")),
     [CheckScope; WaitForElementVisible "input#q" CSS_SELECTOR 10;
      DemoModeHighlightIfActive "input#q" CSS_SELECTOR;
      ScrollToElement 0%nat "input#q" CSS_SELECTOR;
      ElementClear 0%nat; ElementSendKeys 0%nat backspaces;
      DemoModePauseIfActive true; CurrentUrl;
      ElementSendKeys 0%nat "hello"]).
Proof. vm_compute. reflexivity. Qed.

(** A stale element: one re-wait, one sleep, and the text typed again
    into the element found anew. *)
Example update_text_stale_once :
  run (update_text cfg_chrome spec_helpers (PyText "input#q") "hello"
         CSS_SELECTOR None false) env_stale_once
  = (Returns tt,
     [CheckScope; WaitForElementVisible "input#q" CSS_SELECTOR 10;
      DemoModeHighlightIfActive "input#q" CSS_SELECTOR;
      ScrollToElement 1%nat "input#q" CSS_SELECTOR;
      ElementClear 1%nat; ElementSendKeys 1%nat backspaces;
      DemoModePauseIfActive true; CurrentUrl;
      ElementSendKeys 1%nat "hello"; WaitForReadyStateComplete;
      Sleep 160; WaitForElementVisible "input#q" CSS_SELECTOR 10;
      ElementClear 2%nat; ElementSendKeys 2%nat "hello"]).
Proof. vm_compute. reflexivity. Qed.

(** An element that stays stale: the second failure is not handled, the
    method raises it as it is. *)
Example update_text_always_stale :
  result_of (update_text cfg_chrome spec_helpers (PyText "input#q") "hello"
               CSS_SELECTOR None false) env_always_stale
  = Raises (Raised StaleElementReferenceException "stale element reference")
  /\ count is_sleep
       (trace_of (update_text cfg_chrome spec_helpers (PyText "input#q")
                    "hello" CSS_SELECTOR None false) env_always_stale)
     = 1%nat.
Proof. vm_compute. split; reflexivity. Qed.

(** ** The [try] statement of [click] *)

Lemma try_except_run {A} (m : M A) (k : exn -> M A) (e : env)
  (log : list call) :
  try_except m k e log =
    match m e log with
    | (Returns a, log') => (Returns a, log')
    | (Raises x, log') => k x e log'
    end.
Proof. reflexivity. Qed.

Lemma raise_run {A} (x : exn) (e : env) (log : list call) :
  (raise x : M A) e log = (Raises x, log).
Proof. reflexivity. Qed.

Ltac run_M :=
  repeat first
    [ rewrite M_bind_run | rewrite try_except_run | rewrite perform_run
    | rewrite mret_run | rewrite raise_run ].

Ltac destruct_call e :=
  match goal with
  | |- context [e ?l ?c] =>
      lazymatch goal with
      | H : e l c = _ |- _ => fail
      | _ => destruct (e l c) as [?r|?y] eqn:?Hcall
      end
  end.

Ltac destruct_if :=
  match goal with
  | |- context [if ?b then _ else _] => destruct b eqn:?Hif
  end.

Ltac close_log base :=
  match goal with
  | |- exists mid, (_, ?L) = (_, mid ++ base) /\ _ =>
      let n := split_log L base in exists n
  | |- exists mid, ?L = mid ++ base /\ _ =>
      let n := split_log L base in exists n
  end.

Lemma new_tab_special_case_guarded (gate : bool) (el : element) (e : env)
  (log : list call) :
  exists fl mid,
    try_except (new_tab_special_case gate el) (fun _ => mret Next) e log
    = (Returns fl, mid ++ log)
    /\ Forall (fun c => is_new_tab_call c = true) mid
    /\ (fl = Returned -> mid <> []).
Proof.
  unfold new_tab_special_case.
  assert (Hclose : forall fl mid,
            Forall (fun c => is_new_tab_call c = true) mid ->
            (fl = Returned -> mid <> []) ->
            exists fl' mid',
              (Returns fl, mid ++ log) = (Returns fl', mid' ++ log)
              /\ Forall (fun c => is_new_tab_call c = true) mid'
              /\ (fl' = Returned -> mid' <> [])).
  { intros fl mid H1 H2. exists fl, mid. auto. }
  destruct gate;
    repeat first [ progress run_M | destruct_call e | destruct_if
                 | match goal with
                   | |- context [match ?o with Some _ => _ | None => _ end] =>
                       destruct o eqn:?Hopt
                   end ];
    match goal with
    | |- exists fl mid, (Returns ?f, ?L) = _ /\ _ =>
        let n := split_log L log in
        apply (Hclose f n);
        [ repeat constructor | first [discriminate | intros _; discriminate] ]
    end.
Qed.

Lemma count_nil (p : call -> bool) : count p [] = 0%nat.
Proof. reflexivity. Qed.

Lemma count_new_tab_calls (mid : list call) :
  Forall (fun c => is_new_tab_call c = true) mid ->
  count is_click_attempt mid = 0%nat /\ count is_sleep mid = 0%nat.
Proof.
  induction 1 as [|c mid Hc _ [IH1 IH2]]; [now split|].
  rewrite !count_cons, IH1, IH2. now destruct c.
Qed.

Ltac count_calls :=
  rewrite ?count_cons, ?count_nil; cbn; lia.

Section ClickFacts.
Context (cfg : config) (selector : string) (by_ : By) (timeout : Z)
        (e : env).

Lemma click_try_raises (el : element) (log log1 : list call) (x : exn) :
  click_try cfg el selector by_ e log = (Raises x, log1) ->
  exists log0,
    log1 = first_click cfg selector by_ el :: log0
    /\ e log0 (first_click cfg selector by_ el) = Raises x.
Proof.
  unfold click_try, first_click, retry_click, safari_click.
  destruct (String.eqb (browser cfg) "ie" && By_eqb by_ LINK_TEXT).
  { run_M. destruct_call e; intros [= <- <-]. eauto. }
  destruct (String.eqb (browser cfg) "safari").
  { destruct (By_eqb by_ LINK_TEXT); run_M; destruct_call e;
      intros [= <- <-]; eauto. }
  rewrite M_bind_run.
  destruct (new_tab_special_case_guarded (headless cfg) el e log)
    as (fl & mid & -> & _).
  destruct fl; run_M; [discriminate|].
  destruct_call e; intros [= <- <-]. eauto.
Qed.

Lemma click_on_stale_spec (log1 : list call) :
  let r := click_on_stale cfg selector by_ timeout e log1 in
  exists new,
    snd r = new ++ log1
    /\ (count is_click_attempt new <= 3)%nat
    /\ (count is_sleep new <= 1)%nat
    /\ stale_retry_spec cfg selector by_ timeout e new r.
Proof.
  unfold click_on_stale, stale_retry_spec, stale_retry_calls, retry_click,
    safari_click.
  destruct (String.eqb (browser cfg) "safari");
    [destruct (By_eqb by_ LINK_TEXT)|];
    repeat first [progress run_M | destruct_call e];
    cbn [fst snd]; close_log log1;
    (split; [reflexivity|]); (split; [count_calls|]);
    (split; [count_calls|]);
    match goal with
    | H : e _ (PageWaitForElementVisible _ _ _) = Returns ?r |- _ => exists r
    | _ => exists 0%nat
    end;
    (split; [eexists; simpl; reflexivity|]);
    first [ split; reflexivity
          | eexists _, _; split; [reflexivity|]; split; [eassumption|];
            discriminate ].
Qed.

Lemma click_on_webdriver_error_spec (log1 : list call) :
  let r := click_on_webdriver_error selector by_ timeout e log1 in
  exists new,
    snd r = new ++ log1
    /\ (count is_click_attempt new <= 3)%nat
    /\ (count is_sleep new <= 1)%nat
    /\ webdriver_fallback_spec selector by_ timeout e new r.
Proof.
  unfold click_on_webdriver_error, webdriver_fallback_spec,
    webdriver_fallback_calls, last_call_returned.
  repeat first [progress run_M | destruct_call e];
    cbn [fst snd]; close_log log1;
    (split; [reflexivity|]); (split; [count_calls|]);
    (split; [count_calls|]);
    match goal with
    | H : e _ (PageWaitForElementVisible _ _ _) = Returns ?r |- _ => exists r
    | _ => exists 0%nat
    end;
    (split; [eexists; simpl; reflexivity|]);
    first [ split; [reflexivity|]; eexists _, _; split; [reflexivity|];
            split; [reflexivity|];
            match goal with H : e _ _ = Returns _ |- _ => now rewrite H end
          | eexists _, _; split; [reflexivity|]; split; [eassumption|];
            reflexivity ].
Qed.

Lemma click_on_not_interactable_spec (log1 : list call) :
  let r := click_on_not_interactable cfg selector by_ timeout e log1 in
  exists new,
    snd r = new ++ log1
    /\ (count is_click_attempt new <= 3)%nat
    /\ (count is_sleep new <= 1)%nat
    /\ not_interactable_retry_spec cfg selector by_ timeout e new r.
Proof.
  unfold click_on_not_interactable, not_interactable_retry_spec,
    not_interactable_retry_head, raised_by_last_call.
  cbv zeta.
  rewrite M_bind_run, perform_run.
  destruct_call e.
  2:{ cbn [fst snd]. close_log log1. split; [reflexivity|].
      split; [count_calls|]. split; [count_calls|].
      exists [], 0%nat. split; [constructor|]. split; [eauto|].
      left. eexists. simpl. reflexivity. }
  rewrite M_bind_run, perform_run.
  destruct_call e.
  2:{ cbn [fst snd]. close_log log1. split; [reflexivity|].
      split; [count_calls|]. split; [count_calls|].
      exists [], 0%nat. split; [constructor|]. split; [eauto|].
      left. eexists. simpl. reflexivity. }
  rewrite M_bind_run, perform_run.
  destruct_call e.
  2:{ cbn [fst snd]. close_log log1. split; [reflexivity|].
      split; [count_calls|]. split; [count_calls|].
      exists [], 0%nat. split; [constructor|]. split; [eauto|].
      left. eexists. simpl. reflexivity. }
  rename r1 into el'.
  rewrite M_bind_run.
  match goal with
  | |- context [try_except _ _ e ?l] =>
      destruct (new_tab_special_case_guarded true el' e l)
        as (fl & mid & -> & Hmid & Hne)
  end.
  destruct (count_new_tab_calls mid Hmid) as [Hc1 Hc2].
  assert (Hrev : Forall (fun c => is_new_tab_call c = true) (List.rev mid))
    by (now apply Forall_rev).
  destruct fl.
  - (* the special case returned from [click] *)
    rewrite mret_run. cbn [fst snd].
    exists (mid ++ [PageWaitForElementVisible selector by_ timeout;
                    Sleep 100; WaitForReadyStateComplete]).
    split; [now rewrite <- app_assoc|].
    rewrite !count_app, Hc1, Hc2.
    split; [count_calls|]. split; [count_calls|].
    exists (List.rev mid), el'. split; [assumption|].
    split; [now rewrite rev_app_distr|].
    intros Hnil. apply (Hne eq_refl).
    apply (f_equal (@List.rev call)) in Hnil.
    now rewrite rev_involutive in Hnil.
  - unfold retry_click, safari_click.
    pose (head := [PageWaitForElementVisible selector by_ timeout;
                   Sleep 100; WaitForReadyStateComplete]).
    destruct (String.eqb (browser cfg) "safari");
      [destruct (By_eqb by_ LINK_TEXT)|];
      repeat first [progress run_M | destruct_call e];
      cbn [fst snd];
      match goal with
      | |- exists new, ?L = new ++ log1 /\ _ =>
          let n := split_log L
                     (mid ++ PageWaitForElementVisible selector by_ timeout
                          :: Sleep 100 :: WaitForReadyStateComplete :: log1) in
          exists (n ++ mid ++ head)
      end;
      (split; [now rewrite <- !app_assoc|]);
      rewrite !count_app, Hc1, Hc2;
      (split; [subst head; count_calls|]);
      (split; [subst head; count_calls|]);
      exists (List.rev mid), el'; (split; [assumption|]);
      subst head; rewrite !rev_app_distr; simpl;
      first [ rewrite <- ?app_assoc; reflexivity
            | split; [eexists _, _; split; [reflexivity|eassumption]|];
              right;
              first [ left; rewrite <- ?app_assoc; reflexivity
                    | right; rewrite <- ?app_assoc; reflexivity ] ].
Qed.

End ClickFacts.



(** A stale element: one sleep, one re-wait, one re-scroll and one more
    click, on the element found anew. *)
Example click_stale_once :
  run (click cfg_chrome spec_helpers (PyText "button#go") CSS_SELECTOR
         None 0 true) env_stale_click_once
  = (Returns tt,
     [CheckScope; PageWaitForElementVisible "button#go" CSS_SELECTOR 6;
      DemoModeHighlightIfActive "button#go" CSS_SELECTOR;
      ScrollToElement 1%nat "button#go" CSS_SELECTOR; CurrentUrl;
      WindowHandlesCount; ElementClick 1%nat; WaitForReadyStateComplete;
      Sleep 160; PageWaitForElementVisible "button#go" CSS_SELECTOR 6;
      ScrollToElement 2%nat "button#go" CSS_SELECTOR;
      ElementClick 2%nat; WindowHandlesCount]).
Proof. vm_compute. reflexivity. Qed.

(** A link that is not interactable and opens a new tab: the handler
    opens it in a new window and [click] returns, with no re-scroll
    and no other click. *)
Example click_not_interactable_new_tab :
  let m := click cfg_chrome spec_helpers (PyText "a#docs") CSS_SELECTOR
             None 0 true in
  result_of m env_hidden_new_tab_link = Returns tt
  /\ count is_click_attempt (trace_of m env_hidden_new_tab_link) = 1%nat
  /\ last (trace_of m env_hidden_new_tab_link) = Some (SwitchToWindow "").
Proof. vm_compute. repeat split. Qed.

(** ** The recorder *)

Lemma leb_total (s t : string) : PyStr.leb s t = true \/ PyStr.leb t s = true.
Proof.
  revert t. induction s as [|a s IH]; intros [|b t]; simpl; auto.
  destruct (Nat.ltb_spec (nat_of_ascii a) (nat_of_ascii b)) as [Hab|Hab];
    [now left|].
  destruct (Nat.ltb_spec (nat_of_ascii b) (nat_of_ascii a)) as [Hba|Hba];
    [now right|].
  apply IH.
Qed.

Lemma leb_trans (s t u : string) :
  PyStr.leb s t = true -> PyStr.leb t u = true -> PyStr.leb s u = true.
Proof.
  revert t u. induction s as [|a s IH]; intros [|b t] [|c u]; simpl; auto;
    try discriminate.
  destruct (Nat.ltb_spec (nat_of_ascii a) (nat_of_ascii b)) as [Hab|Hab];
  destruct (Nat.ltb_spec (nat_of_ascii b) (nat_of_ascii a)) as [Hba|Hba];
  destruct (Nat.ltb_spec (nat_of_ascii b) (nat_of_ascii c)) as [Hbc|Hbc];
  destruct (Nat.ltb_spec (nat_of_ascii c) (nat_of_ascii b)) as [Hcb|Hcb];
  destruct (Nat.ltb_spec (nat_of_ascii a) (nat_of_ascii c)) as [Hac|Hac];
  destruct (Nat.ltb_spec (nat_of_ascii c) (nat_of_ascii a)) as [Hca|Hca];
  try lia; try discriminate; auto.
  apply IH.
Qed.

#[local] Instance str_le_total : Total str_le.
Proof. intros s t. apply leb_total. Qed.

#[local] Instance str_le_trans : Transitive str_le.
Proof. intros s t u. apply leb_trans. Qed.

Lemma sorted_keys (keys : list string) :
  StronglySorted str_le (sorted keys) /\ sorted keys ≡ₚ keys.
Proof.
  split; [apply (StronglySorted_merge_sort str_le)|apply merge_sort_Permutation].
Qed.

(** The gathering loops keep each raw action once. *)
Lemma note_action_fold (l : list action) (used : list action) :
  NoDup used ->
  let lists := fold_left note_action l (used, used) in
  fst lists = snd lists /\ NoDup (snd lists)
  /\ forall a, a ∈ snd lists <-> a ∈ used \/ a ∈ l.
Proof.
  revert used. induction l as [|b l IH]; intros used Hnd; simpl.
  - split; [reflexivity|]. split; [assumption|]. intros a.
    rewrite elem_of_nil. tauto.
  - case_bool_decide as Hin.
    + destruct (IH used Hnd) as (H1 & H2 & H3).
      split; [assumption|]. split; [assumption|]. intros a.
      rewrite H3, elem_of_cons. split; [tauto|].
      intros [?|[->|?]]; auto.
    + assert (Hnd' : NoDup (used ++ [b])).
      { apply NoDup_app. repeat split; auto; [|apply NoDup_singleton].
        intros x Hx ->%list_elem_of_singleton. contradiction. }
      destruct (IH (used ++ [b]) Hnd') as (H1 & H2 & H3).
      split; [assumption|]. split; [assumption|]. intros a.
      rewrite H3, elem_of_app, !elem_of_cons, elem_of_nil. tauto.
Qed.

Lemma raw_actions_of_spec (tabs : list (list action)) (extra : list action) :
  NoDup (raw_actions_of tabs extra)
  /\ forall a, a ∈ raw_actions_of tabs extra <-> a ∈ concat tabs \/ a ∈ extra.
Proof.
  unfold raw_actions_of.
  assert (Htabs : forall used, NoDup used ->
            let lists := fold_left (fun lists tab_actions =>
                           fold_left note_action tab_actions lists)
                           tabs (used, used) in
            fst lists = snd lists /\ NoDup (snd lists)
            /\ forall a, a ∈ snd lists <-> a ∈ used \/ a ∈ concat tabs).
  { induction tabs as [|tab tabs IH]; intros used Hnd; simpl.
    - split; [reflexivity|]. split; [assumption|]. intros a.
      rewrite elem_of_nil. tauto.
    - destruct (note_action_fold tab used Hnd) as (H1 & H2 & H3).
      destruct (fold_left note_action tab (used, used)) as [u r].
      simpl in *. subst u.
      destruct (IH r H2) as (H4 & H5 & H6).
      split; [assumption|]. split; [assumption|]. intros a.
      rewrite H6, H3, elem_of_app. tauto. }
  destruct (Htabs [] (NoDup_nil_2)) as (H1 & H2 & H3).
  destruct (fold_left _ tabs ([], [])) as [u r]. simpl in *. subst u.
  destruct (note_action_fold extra r H2) as (H4 & H5 & H6).
  split; [exact H5|]. intros a. rewrite H6, H3, elem_of_nil. tauto.
Qed.

(** *** Decimal numerals *)

Lemma digit_char_spec (d : nat) :
  (d < 10)%nat ->
  is_digit (PyStr.digit_char d) = true
  /\ digit_of (PyStr.digit_char d) = N.of_nat d.
Proof.
  intros Hd. unfold is_digit, digit_of, PyStr.digit_char.
  rewrite nat_ascii_embedding by lia. split.
  - apply andb_true_iff. split; apply Nat.leb_le; lia.
  - f_equal. lia.
Qed.

Lemma all_digits_app (s t : string) :
  all_digits (s +:+ t) = all_digits s && all_digits t.
Proof.
  induction s as [|c s IH]; [reflexivity|].
  change (is_digit c && all_digits (s +:+ t)
          = is_digit c && all_digits s && all_digits t).
  now rewrite IH, andb_assoc.
Qed.

Lemma decimal_value_app (s t : string) :
  decimal_value (s +:+ t)
  = (decimal_value s * 10 ^ N.of_nat (String.length t) + decimal_value t)%N.
Proof.
  induction s as [|c s IH]; [reflexivity|].
  change (digit_of c * 10 ^ N.of_nat (String.length (s +:+ t))
          + decimal_value (s +:+ t)
          = (digit_of c * 10 ^ N.of_nat (String.length s) + decimal_value s)
            * 10 ^ N.of_nat (String.length t) + decimal_value t)%N.
  rewrite IH, string_app_length, Nat2N.inj_add, N.pow_add_r. lia.
Qed.

Lemma decimal_value_bound (s : string) :
  all_digits s = true ->
  (decimal_value s < 10 ^ N.of_nat (String.length s))%N.
Proof.
  induction s as [|c s IH]; intros Hs; [simpl; lia|].
  simpl in Hs. apply andb_true_iff in Hs as [Hc Hs]. specialize (IH Hs).
  unfold is_digit in Hc. apply andb_true_iff in Hc as [_ Hc].
  apply Nat.leb_le in Hc.
  cbn [decimal_value String.length]. rewrite Nat2N.inj_succ, N.pow_succ_r'.
  assert (digit_of c <= 9)%N by (unfold digit_of; lia).
  nia.
Qed.

(** The digits that [digits_fuel] puts before [acc] are the decimal
    numeral of [n], when the fuel suffices. *)
Lemma digits_fuel_spec (fuel : nat) :
  forall (n : N) (acc : string),
    (n < 2 ^ N.of_nat fuel)%N -> fuel <> O ->
    exists D,
      PyStr.digits_fuel fuel n acc = D +:+ acc
      /\ all_digits D = true /\ decimal_value D = n.
Proof.
  induction fuel as [|fuel IH]; intros n acc Hn Hf; [congruence|].
  cbn [PyStr.digits_fuel].
  assert (Hmod : (N.to_nat (n mod 10) < 10)%nat).
  { pose proof (N.mod_upper_bound n 10). lia. }
  destruct (digit_char_spec _ Hmod) as [Hd Hv].
  rewrite N2Nat.id in Hv.
  remember (PyStr.digit_char (N.to_nat (n mod 10))) as d eqn:Hdeq.
  clear Hdeq.
  destruct (N.ltb_spec n 10) as [Hlt|Hge].
  - exists (String d EmptyString). split; [reflexivity|].
    split; [cbn [all_digits]; now rewrite Hd|].
    cbn [decimal_value String.length]. rewrite Hv.
    rewrite N.mod_small by assumption.
    change (N.of_nat 0) with 0%N. rewrite N.pow_0_r. lia.
  - assert (Hdiv : (n / 10 < 2 ^ N.of_nat fuel)%N).
    { rewrite Nat2N.inj_succ, N.pow_succ_r' in Hn.
      apply N.Div0.div_lt_upper_bound. lia. }
    assert (Hf' : fuel <> O).
    { intros ->. change (2 ^ N.of_nat 0)%N with 1%N in Hdiv.
      assert (1 <= n / 10)%N; [|lia].
      apply N.div_le_lower_bound; lia. }
    destruct (IH (n / 10)%N (String d acc) Hdiv Hf') as (D & HD & Hall & Hval).
    exists (D +:+ String d EmptyString). rewrite HD.
    split; [now rewrite string_app_assoc|].
    split; [rewrite all_digits_app, Hall; cbn [all_digits]; now rewrite Hd|].
    rewrite decimal_value_app, Hval.
    cbn [decimal_value String.length]. rewrite Hv.
    pose proof (N.div_mod' n 10).
    change (N.of_nat 0) with 0%N. change (N.of_nat 1) with 1%N.
    rewrite N.pow_0_r, N.pow_1_r. lia.
Qed.

Lemma str_N_spec (n : N) :
  all_digits (PyStr.str_N n) = true /\ decimal_value (PyStr.str_N n) = n.
Proof.
  unfold PyStr.str_N.
  destruct (digits_fuel_spec (S (N.to_nat (N.log2 n))) n EmptyString)
    as (D & HD & Hall & Hval); [| congruence |].
  - rewrite Nat2N.inj_succ, N2Nat.id.
    destruct n as [|p]; [reflexivity|]. apply N.log2_spec. lia.
  - rewrite HD.
    assert (HE : D +:+ "" = D).
    { clear. induction D as [|c D IH]; [reflexivity|].
      change (String c (D +:+ "") = String c D). now rewrite IH. }
    rewrite HE. auto.
Qed.

Lemma str_int_spec (z : Z) :
  0 <= z ->
  all_digits (PyStr.str_int z) = true
  /\ decimal_value (PyStr.str_int z) = Z.to_N z.
Proof.
  intros Hz. destruct z as [|p|p]; [split; reflexivity| |lia].
  apply (str_N_spec (Npos p)).
Qed.

(** On numerals of the same length, the order of the texts is the
    order of the numbers, whatever follows the numerals. *)
Lemma leb_numerals (s t r1 r2 : string) :
  all_digits s = true -> all_digits t = true ->
  String.length s = String.length t ->
  PyStr.leb (s +:+ r1) (t +:+ r2) = true ->
  (decimal_value s <= decimal_value t)%N.
Proof.
  revert t. induction s as [|a s IH]; intros [|b t] Hs Ht Hlen Hle;
    try (simpl in Hlen; discriminate Hlen).
  { cbn [decimal_value]. lia. }
  simpl in Hs, Ht, Hlen.
  apply andb_true_iff in Hs as [Ha Hs]. apply andb_true_iff in Ht as [Hb Ht].
  injection Hlen as Hlen.
  change (PyStr.leb (String a (s +:+ r1)) (String b (t +:+ r2)) = true) in Hle.
  cbn [PyStr.leb] in Hle.
  cbn [decimal_value]. rewrite <- Hlen.
  pose proof (decimal_value_bound s Hs) as Hbs.
  pose proof (decimal_value_bound t Ht) as Hbt. rewrite <- Hlen in Hbt.
  unfold is_digit in Ha, Hb.
  apply andb_true_iff in Ha as [Ha1 Ha2]. apply andb_true_iff in Hb as [Hb1 Hb2].
  apply Nat.leb_le in Ha1, Ha2, Hb1, Hb2.
  destruct (Nat.ltb_spec (nat_of_ascii a) (nat_of_ascii b)) as [Hab|Hab].
  - assert (digit_of a + 1 <= digit_of b)%N by (unfold digit_of; lia). nia.
  - destruct (Nat.ltb_spec (nat_of_ascii b) (nat_of_ascii a)) as [Hba|Hba];
      [discriminate|].
    assert (digit_of a = digit_of b) as -> by (unfold digit_of; lia).
    specialize (IH t Hs Ht Hlen Hle). lia.
Qed.

Lemma action_key_order (a b : action) :
  0 <= time_stamp a -> 0 <= time_stamp b ->
  String.length (PyStr.str_int (time_stamp a))
  = String.length (PyStr.str_int (time_stamp b)) ->
  str_le (action_key a) (action_key b) ->
  time_stamp a <= time_stamp b.
Proof.
  intros Ha Hb Hlen Hle.
  destruct (str_int_spec _ Ha) as [Hda Hva].
  destruct (str_int_spec _ Hb) as [Hdb Hvb].
  unfold str_le, action_key in Hle.
  pose proof (leb_numerals _ _ _ _ Hda Hdb Hlen Hle) as H.
  rewrite Hva, Hvb in H. lia.
Qed.

Section RecorderFacts.
Context (reuse_session : bool) (js_start_time : Z).

Local Abbreviation kept := (kept_action reuse_session js_start_time).
Local Abbreviation fill := (fill_action_dict reuse_session js_start_time).

(** Every entry of [action_dict] is a kept raw action under its own
    key, and every kept raw action has its key in [action_dict]. *)
Lemma fill_action_dict_spec (raw : list action) :
  (forall key a, fill raw !! key = Some a ->
                 a ∈ raw /\ kept a = true /\ action_key a = key)
  /\ (forall a, a ∈ raw -> kept a = true -> is_Some (fill raw !! action_key a)).
Proof.
  unfold fill_action_dict.
  set (f := fun (action_dict : gmap string action) a =>
              if reuse_session && (time_stamp a <? js_start_time)
              then action_dict else <[action_key a := a]> action_dict).
  assert (Hgen : forall raw d0,
            (forall key a, fold_left f raw d0 !! key = Some a ->
               d0 !! key = Some a
               \/ (a ∈ raw /\ kept a = true /\ action_key a = key))
            /\ (forall a, a ∈ raw -> kept a = true ->
                  is_Some (fold_left f raw d0 !! action_key a))
            /\ (forall key, is_Some (d0 !! key) ->
                  is_Some (fold_left f raw d0 !! key))).
  { clear raw. induction raw as [|b raw IH]; intros d0; simpl.
    - split; [auto|]. split; [|auto].
      intros a Ha. now apply elem_of_nil in Ha.
    - destruct (IH (f d0 b)) as (H1 & H2 & H3).
      assert (Hkeep : forall key, is_Some (d0 !! key) ->
                is_Some (f d0 b !! key)).
      { intros key Hk. unfold f. destruct (_ && _); [assumption|].
        destruct (decide (action_key b = key)) as [<-|Hne].
        - rewrite lookup_insert_eq. eauto.
        - now rewrite lookup_insert_ne. }
      split; [|split].
      + intros key a Ha. apply H1 in Ha as [Ha|(Hin & Hk & Hkey)].
        * unfold f in Ha.
          destruct (reuse_session && (time_stamp b <? js_start_time)) eqn:Hb;
            [now left|].
          destruct (decide (action_key b = key)) as [<-|Hne].
          -- rewrite lookup_insert_eq in Ha. injection Ha as <-. right.
             split; [apply elem_of_cons; now left|].
             split; [|reflexivity]. unfold kept_action. now rewrite Hb.
          -- rewrite lookup_insert_ne in Ha by assumption. now left.
        * right. split; [apply elem_of_cons; now right|]. auto.
      + intros a Ha Hk. apply elem_of_cons in Ha as [->|Ha]; [|auto].
        apply H3. unfold f. unfold kept_action in Hk.
        apply negb_true_iff in Hk. rewrite Hk.
        rewrite lookup_insert_eq. eauto.
      + intros key Hk. apply H3, Hkeep, Hk. }
  destruct (Hgen raw ∅) as (H1 & H2 & _). split; [|exact H2].
  intros key a Ha. apply H1 in Ha as [Ha|Ha]; [|exact Ha].
  now rewrite lookup_empty in Ha.
Qed.

Lemma omap_lookup_keys (d : gmap string action) (keys : list string) :
  (forall key, key ∈ keys -> exists a, d !! key = Some a /\ action_key a = key) ->
  action_key <$> omap (fun key => d !! key) keys = keys.
Proof.
  induction keys as [|k keys IH]; intros Hk; [reflexivity|].
  destruct (Hk k) as (a & Ha & Hkey); [apply elem_of_cons; now left|].
  cbn [omap list_omap]. rewrite Ha. cbn [fmap list_fmap].
  rewrite Hkey. f_equal. apply IH. intros key Hin. apply Hk.
  apply elem_of_cons. now right.
Qed.

Lemma srt_actions_of_spec (d : gmap string action) :
  (forall key a, d !! key = Some a -> action_key a = key) ->
  action_key <$> srt_actions_of d = sorted (map_to_list d).*1
  /\ forall a, a ∈ srt_actions_of d <-> d !! action_key a = Some a.
Proof.
  intros Hd.
  assert (Hkeys : forall key, key ∈ sorted (map_to_list d).*1
                              <-> is_Some (d !! key)).
  { intros key. destruct (sorted_keys (map_to_list d).*1) as [_ Hperm].
    rewrite Hperm. rewrite list_elem_of_fmap. split.
    - intros ([k a] & -> & Hin). apply elem_of_map_to_list in Hin. eauto.
    - intros [a Ha]. exists (key, a). split; [reflexivity|].
      now apply elem_of_map_to_list. }
  split.
  - apply omap_lookup_keys. intros key Hin. apply Hkeys in Hin as [a Ha].
    exists a. split; [assumption|]. now apply Hd.
  - intros a. unfold srt_actions_of. rewrite list_elem_of_omap. split.
    + intros (key & Hin & Ha). now rewrite (Hd _ _ Ha).
    + intros Ha. exists (action_key a). split; [|assumption].
      apply Hkeys. eauto.
Qed.

Lemma StronglySorted_fmap_weaken {A B C} (f : A -> B) (g : A -> C)
  (R : relation B) (Q : relation C) (l : list A) :
  (forall x y, x ∈ l -> y ∈ l -> R (f x) (f y) -> Q (g x) (g y)) ->
  StronglySorted R (f <$> l) -> StronglySorted Q (g <$> l).
Proof.
  induction l as [|x l IH]; intros HRQ Hs; [constructor|].
  cbn [fmap list_fmap] in *. apply StronglySorted_inv in Hs as [Hs Hall].
  constructor.
  - apply IH; [|exact Hs]. intros y z Hy Hz. apply HRQ; apply elem_of_cons; auto.
  - apply Forall_forall. intros z Hz.
    apply list_elem_of_fmap in Hz as (y & -> & Hy). apply HRQ.
    + apply elem_of_cons; now left.
    + apply elem_of_cons; now right.
    + rewrite Forall_forall in Hall. apply Hall. now apply list_elem_of_fmap_2.
Qed.


End RecorderFacts.



(** ** Properties of the further methods of Part I *)

Lemma text_or_nonempty (o : option string) (d : string) :
  d <> "" -> text_or o d <> "".
Proof.
  intros Hd. unfold text_or. destruct o as [s|]; [|assumption].
  destruct (String.eqb s "") eqn:Hs; [assumption|].
  now apply String.eqb_neq.
Qed.

Lemma St_bind_run {S A B} (m : St S A) (k : A -> St S B) (s : S) :
  (m ≫= k) s =
    match m s with
    | (Returns a, s') => k a s'
    | (Raises x, s') => (Raises x, s')
    end.
Proof. reflexivity. Qed.

Lemma st_get_run {S} (s : S) : st_get s = (Returns s, s).
Proof. reflexivity. Qed.

(** ** Presentations: [create_presentation] and [add_slide] *)

Lemma presentations_ok_new : presentations_ok new_builders.
Proof. intros n [l Hl]. simpl in Hl. now rewrite lookup_empty in Hl. Qed.

Lemma presentations_ok_with_presentation (header tr n : string) (b : builders) :
  tr ∈ valid_transitions ->
  presentations_ok b -> presentations_ok (with_presentation header tr n b).
Proof.
  intros Htr Hwf m. simpl. destruct (decide (n = m)) as [->|Hne].
  - rewrite !lookup_insert_eq. eauto.
  - rewrite !lookup_insert_ne by assumption. apply Hwf.
Qed.

Lemma valid_transition_lower (t : string) :
  t ∈ valid_transitions -> PyStr.lower t = t.
Proof.
  unfold valid_transitions. rewrite !elem_of_cons, elem_of_nil.
  intros [->|[->|[->|[->|[->|[->|[]]]]]]]; reflexivity.
Qed.

Lemma none_is_valid : "none" ∈ valid_transitions.
Proof. unfold valid_transitions. apply elem_of_cons. now left. Qed.

Section PresentationFacts.
Context (Reveal_MIN_CSS : string) (Reveal_theme_css : string -> string).

Lemma create_presentation_default (n : string) (b : builders) :
  n <> "" ->
  create_presentation Reveal_MIN_CSS Reveal_theme_css (Some n)
    (Some "default") (Some "default") b
  = (Returns tt,
     with_presentation
       (presentation_header Reveal_MIN_CSS (Reveal_theme_css "serif"))
       "none" n b).
Proof.
  intros Hn. unfold create_presentation. unfold_St.
  assert (Hn' : text_or (Some n) "default" = n).
  { unfold text_or. apply String.eqb_neq in Hn. now rewrite Hn. }
  rewrite Hn'. reflexivity.
Qed.

(** X1.  [create_presentation(name, theme, transition)], for a theme and a
    transition of ASCII characters: the call raises its [Exception]
    when the theme or the transition, in lower case, is not a valid
    one, and [self] is then as it was; otherwise it returns and the
    presentation [name] is made anew -- whatever slides it had are
    gone, its header is its only fragment -- with the transition
    stored, and no other presentation, chart or tour changes. *)
Theorem create_presentation_spec (name theme transition : option string)
  (b : builders) :
  is_ascii (default "" theme) = true ->
  is_ascii (default "" transition) = true ->
  let n := text_or name "default" in
  let th := chosen_theme theme in
  let tr := chosen_transition transition in
  let r := create_presentation Reveal_MIN_CSS Reveal_theme_css name theme
             transition b in
  if bool_decide (th ∈ valid_themes) && bool_decide (tr ∈ valid_transitions)
  then
    fst r = Returns tt
    /\ _presentation_slides (snd r) !! n
       = Some [presentation_header Reveal_MIN_CSS (Reveal_theme_css th)]
    /\ _presentation_transition (snd r) !! n = Some tr
    /\ (forall m, m <> n ->
          _presentation_slides (snd r) !! m = _presentation_slides b !! m
          /\ _presentation_transition (snd r) !! m
             = _presentation_transition b !! m)
    /\ _tour_steps (snd r) = _tour_steps b
    /\ _chart_data (snd r) = _chart_data b
    /\ (presentations_ok b -> presentations_ok (snd r))
  else
    exists msg, r = (Raises (Raised Exception_ msg), b).
Proof.
  intros _ _ n th tr r. subst r. unfold create_presentation.
  fold n. fold (chosen_theme theme). fold th.
  fold (chosen_transition transition). fold tr.
  unfold_St.
  destruct (bool_decide (th ∈ valid_themes)) eqn:Hth; cbn [negb andb];
    [|eexists; reflexivity].
  destruct (bool_decide (tr ∈ valid_transitions)) eqn:Htr; cbn [negb];
    [|eexists; reflexivity].
  cbn [fst snd]. split; [reflexivity|].
  cbn [_presentation_slides _presentation_transition set_presentation
       _tour_steps _chart_data].
  rewrite !lookup_insert_eq. split; [reflexivity|]. split; [reflexivity|].
  split; [|split; [reflexivity|split; [reflexivity|]]].
  - intros m Hm. rewrite !lookup_insert_ne by congruence. split; reflexivity.
  - intros Hok. apply bool_decide_eq_true in Htr.
    now apply (presentations_ok_with_presentation _ tr n b).
Qed.

(** X2.  [add_slide(content, image, code, iframe, content2, notes,
    transition, name)], when every presentation of [self] has a valid
    transition and the transition given is of ASCII characters.  The
    presentation [name] (["default"] when none is given) is created
    first, with the theme and the transition of the defaults, if it is
    missing.  With no transition given, the call uses the one of the
    presentation and never raises.  The call raises its [Exception]
    when the transition, in lower case, is not a valid one, and [self]
    is then as it was apart from the presentation just created.
    Otherwise it appends exactly one fragment, the slide, to the
    presentation, and nothing else changes. *)
Theorem add_slide_spec
  (content image code iframe content2 notes transition name : option string)
  (b : builders) :
  presentations_ok b ->
  is_ascii (default "" transition) = true ->
  let n := text_or name "default" in
  let b1 := if bool_decide (is_Some (_presentation_slides b !! n)) then b
            else with_presentation
                   (presentation_header Reveal_MIN_CSS
                      (Reveal_theme_css "serif")) "none" n b in
  let r := add_slide Reveal_MIN_CSS Reveal_theme_css content image code
             iframe content2 notes transition name b in
  presentations_ok (snd r)
  /\ (truthy_text transition = false -> fst r = Returns tt)
  /\ exists slides0 tr0,
       _presentation_slides b1 !! n = Some slides0
       /\ _presentation_transition b1 !! n = Some tr0
       /\ let tr := PyStr.lower
                      (if negb (truthy_text transition) then tr0
                       else if bool_decide (transition = Some "default")
                       then "none" else default "" transition) in
          if bool_decide (tr ∈ valid_transitions)
          then r = (Returns tt,
                    set_presentation
                      (fun d => <[n := slides0
                                  ++ [slide_html tr (text_or content "") image
                                        code iframe (text_or content2 "")
                                        (text_or notes "")]]> d)
                      (fun d => d) b1)
          else r = (Raises (transition_not_found tr), b1).
Proof.
  intros Hwf _ n b1 r.
  assert (Hn : n <> "") by (apply text_or_nonempty; discriminate).
  assert (Hwf1 : presentations_ok b1).
  { subst b1. destruct (bool_decide _); [assumption|].
    apply presentations_ok_with_presentation; [apply none_is_valid|assumption]. }
  assert (Hlook : exists slides0 tr0,
             _presentation_slides b1 !! n = Some slides0
             /\ _presentation_transition b1 !! n = Some tr0
             /\ tr0 ∈ valid_transitions).
  { subst b1. case_bool_decide as Hin.
    - destruct Hin as [l Hl]. destruct (Hwf n) as (t & Ht & Hv); eauto.
    - simpl. rewrite !lookup_insert_eq.
      eexists _, _. repeat split. apply none_is_valid. }
  destruct Hlook as (slides0 & tr0 & Hs & Ht & Hv).
  assert (Hr : r =
    (let tr := PyStr.lower
                      (if negb (truthy_text transition) then tr0
                       else if bool_decide (transition = Some "default")
                       then "none" else default "" transition) in
          if bool_decide (tr ∈ valid_transitions)
          then (Returns tt,
                    set_presentation
                      (fun d => <[n := slides0
                                  ++ [slide_html tr (text_or content "") image
                                        code iframe (text_or content2 "")
                                        (text_or notes "")]]> d)
                      (fun d => d) b1)
          else (Raises (transition_not_found tr), b1))).
  { subst r. unfold add_slide. fold n. unfold_St.
    assert (Hstep : (if negb (bool_decide (is_Some (_presentation_slides b !! n)))
                     then create_presentation Reveal_MIN_CSS Reveal_theme_css
                            (Some n) (Some "default") (Some "default")
                     else (fun s => (Returns tt, s))) b = (Returns tt, b1)).
    { subst b1. destruct (bool_decide _); simpl; [reflexivity|].
      now apply create_presentation_default. }
    rewrite Hstep. cbv beta iota. rewrite Ht.
    destruct (negb (truthy_text transition)); cbv beta iota zeta.
    - destruct (bool_decide (PyStr.lower tr0 ∈ valid_transitions));
        cbn [negb]; cbv beta iota; [|reflexivity].
      unfold append_to. rewrite Hs. reflexivity.
    - destruct (bool_decide (transition = Some "default")); cbv beta iota.
      + destruct (bool_decide (PyStr.lower "none" ∈ valid_transitions));
          cbn [negb]; cbv beta iota; [|reflexivity].
        unfold append_to. rewrite Hs. reflexivity.
      + destruct (bool_decide (PyStr.lower (default "" transition)
                               ∈ valid_transitions));
          cbn [negb]; cbv beta iota; [|reflexivity].
        unfold append_to. rewrite Hs. reflexivity. }
  split; [|split].
  - rewrite Hr. cbv zeta.
    destruct (bool_decide (_ ∈ valid_transitions)); cbn [snd]; [|exact Hwf1].
    intros m. simpl. destruct (decide (n = m)) as [<-|Hne].
    + rewrite lookup_insert_eq. intros _. eauto.
    + rewrite lookup_insert_ne by assumption. apply Hwf1.
  - intros Hfalsy. rewrite Hr. cbv zeta. rewrite Hfalsy. cbn [negb].
    rewrite (valid_transition_lower tr0 Hv).
    now rewrite (bool_decide_eq_true_2 _ Hv).
  - exists slides0, tr0. split; [assumption|]. split; [assumption|].
    cbv zeta in *. destruct (bool_decide (_ ∈ valid_transitions)); exact Hr.
Qed.

End PresentationFacts.

Lemma add_slide_spec_witness :
  presentations_ok new_builders
  /\ fst (add_slide "reveal.min.css" sample_theme_css (Some "<h1>Hi</h1>")
            None None None None None None None new_builders) = Returns tt.
Proof.
  split; [exact presentations_ok_new|].
  destruct (add_slide_spec "reveal.min.css" sample_theme_css
              (Some "<h1>Hi</h1>") None None None None None None None
              new_builders presentations_ok_new eq_refl) as (_ & H & _).
  exact (H eq_refl).
Defined.

Lemma create_presentation_spec_witness :
  fst (create_presentation "reveal.min.css" sample_theme_css (Some "talk")
         (Some "SKY") (Some "Zoom") new_builders) = Returns tt
  /\ _presentation_transition
       (snd (create_presentation "reveal.min.css" sample_theme_css
               (Some "talk") (Some "SKY") (Some "Zoom") new_builders))
     !! "talk" = Some "zoom".
Proof.
  pose proof (create_presentation_spec "reveal.min.css" sample_theme_css
                (Some "talk") (Some "SKY") (Some "Zoom") new_builders
                eq_refl eq_refl) as H.
  cbv zeta in H.
  replace (bool_decide (chosen_theme (Some "SKY") ∈ valid_themes)) with true
    in H by (symmetry; apply bool_decide_eq_true; vm_compute;
             repeat first [apply list_elem_of_here | apply list_elem_of_further]).
  replace (bool_decide (chosen_transition (Some "Zoom") ∈ valid_transitions))
    with true in H
    by (symmetry; apply bool_decide_eq_true; vm_compute;
        repeat first [apply list_elem_of_here | apply list_elem_of_further]).
  cbn [andb] in H. destruct H as (H1 & _ & H3 & _).
  split; [exact H1|]. exact H3.
Defined.

(** ** Tours: [add_tour_step] with a selector that is no name selector *)

Section TourStepFacts.
Context (h : helpers) (c1 c2 : string) (sbt : string -> option string).

Lemma tour_append_result (n step : string) (l : list string) (s : builders) :
  _tour_steps s !! n = Some l ->
  tour_append n step s
  = (Returns tt, set_tour_steps (fun d => <[n := l ++ [step]]> d) s).
Proof.
  intros Hl. unfold tour_append, append_to. unfold_St. rewrite Hl. reflexivity.
Qed.

Lemma tour_header_result (n : string) (s : builders) :
  tour_header n s
  = match _tour_steps s !! n with
    | Some (t :: _) => (Returns t, s)
    | Some [] => (Raises (Raised IndexError "list index out of range"), s)
    | None => (Raises (Raised KeyError n), s)
    end.
Proof.
  unfold tour_header. unfold_St.
  destruct (_tour_steps s !! n) as [[|t l]|]; reflexivity.
Qed.

Lemma create_tour_introjs (n : string) (b : builders) :
  n <> "" ->
  exists b1,
    create_tour c1 c2 (Some n) (Some "introjs") b = (Returns tt, b1)
    /\ _tour_steps b1 = <[n := [introjs_tour_header]]> (_tour_steps b)
    /\ _chart_data b1 = _chart_data b /\ _chart_label b1 = _chart_label b
    /\ _presentation_slides b1 = _presentation_slides b.
Proof.
  intros Hn.
  assert (Hn' : text_or (Some n) "default" = n).
  { unfold text_or. apply String.eqb_neq in Hn. now rewrite Hn. }
  assert (Hc : create_tour c1 c2 (Some n) (Some "introjs")
               = create_introjs_tour c1 c2 (Some n)).
  { unfold create_tour. rewrite Hn'.
    cbv beta iota zeta delta -[create_bootstrap_tour create_hopscotch_tour
      create_introjs_tour create_driverjs_tour create_shepherd_tour].
    reflexivity. }
  rewrite Hc. unfold create_introjs_tour, start_tour. rewrite Hn'.
  unfold_St. eexists. split; [reflexivity|]. repeat split.
Qed.

Ltac tour_step_tail sbt n s Hs :=
  unfold add_bootstrap_tour_step, add_driverjs_tour_step,
    add_hopscotch_tour_step, add_introjs_tour_step, add_shepherd_tour_step;
  unfold_St;
  repeat first
    [ rewrite tour_header_result, Hs
    | match goal with
      | |- context [if ?c then _ else _] => destruct c
      | |- context [match sbt ?t with Some _ => _ | None => _ end] =>
          destruct (sbt t)
      end
    | progress cbv beta iota ];
  first
    [ right; eexists; reflexivity
    | left; rewrite (tour_append_result n _ _ s Hs); eexists; reflexivity ].

Ltac tour_step_returns sbt n s Hs Hlib :=
  unfold add_bootstrap_tour_step, add_driverjs_tour_step,
    add_hopscotch_tour_step, add_introjs_tour_step, add_shepherd_tour_step;
  unfold_St;
  repeat first
    [ rewrite tour_header_result, Hs
    | match goal with
      | |- context [if PyStr.contains ?t ?k then _ else _] =>
          destruct (PyStr.contains t k) eqn:?
      | |- context [if ?c then _ else _] => destruct c
      end
    | progress cbn [negb andb]
    | progress cbv beta iota ];
  first
    [ rewrite (tour_append_result n _ _ s Hs); reflexivity
    | exfalso; unfold names_a_tour_library in Hlib;
      repeat match goal with
             | H : PyStr.contains _ _ = false |- _ =>
                 rewrite H in Hlib; clear H
             end;
      discriminate Hlib ].


Lemma tour_library_header_names (theme header : string) :
  tour_library_header theme = Some header ->
  names_a_tour_library header = true.
Proof.
  unfold tour_library_header.
  repeat match goal with
         | |- context [if ?c then _ else _] => destruct c
         end;
    intros [= <-]; vm_compute; reflexivity.
Qed.

Lemma create_tour_library (name : option string) (theme header : string)
  (b : builders) :
  tour_library_header (PyStr.lower theme) = Some header ->
  exists b1,
    create_tour c1 c2 name (Some theme) b = (Returns tt, b1)
    /\ _tour_steps b1
       = <[text_or name "default" := [header]]> (_tour_steps b)
    /\ _chart_data b1 = _chart_data b
    /\ _presentation_slides b1 = _presentation_slides b.
Proof.
  intros Hh.
  assert (Hne : String.eqb theme "" = false).
  { destruct theme; [discriminate Hh|reflexivity]. }
  assert (Hn : text_or (Some (text_or name "default")) "default"
               = text_or name "default").
  { unfold text_or at 1.
    destruct (String.eqb (text_or name "default") "") eqn:He; [|reflexivity].
    apply String.eqb_eq in He.
    exfalso. revert He. apply text_or_nonempty. discriminate. }
  unfold create_tour. rewrite Hne. cbv zeta.
  unfold tour_library_header in Hh.
  repeat match type of Hh with
         | (if String.eqb ?a ?k then _ else _) = _ =>
             destruct (String.eqb a k) eqn:?
         end;
    try discriminate Hh; injection Hh as <-;
    unfold create_bootstrap_tour, create_hopscotch_tour, create_introjs_tour,
      create_driverjs_tour, start_tour; rewrite Hn; unfold_St;
    eexists; (split; [reflexivity|]); repeat split.
Qed.


End TourStepFacts.



(** ** Charts: series and labels *)

Lemma charts_complete_new : charts_complete new_builders.
Proof. intros n [l Hl]. simpl in Hl. now rewrite lookup_empty in Hl. Qed.

Lemma add_series_to_chart_run (data_name chart_name : option string)
  (b : builders) (c : Z) (l : list string) :
  let cn := text_or chart_name "default" in
  _chart_series_count b !! cn = Some c ->
  _chart_data b !! cn = Some l ->
  add_series_to_chart data_name chart_name b
  = (Returns tt,
     set_chart_series (fun d => d) (fun d => <[cn := false]> d)
       (set_chart_data
          (fun d => <[cn := l ++ [series_fragment
                                   (if negb (truthy_text data_name)
                                    then "Series " +:+ PyStr.str_int (c + 1)
                                    else default "" data_name)]]> d)
          (set_chart_series (fun d => <[cn := c + 1]> d) (fun d => d) b))).
Proof.
  intros cn Hc Hl. unfold add_series_to_chart. fold cn.
  unfold append_to. unfold_St. rewrite Hc. cbn. rewrite Hl. reflexivity.
Qed.

Section SeriesFacts.
Context (highchart_markup : Z -> chart_spec -> string)
        (str_float : spec_float -> string).

(** X4.  [add_series_to_chart(data_name, chart_name)] on charts made by the
    chart methods.  Unlike [add_data_point], it creates no chart: when
    the chart [chart_name] (["default"] when none is given) is missing
    it raises [KeyError] and [self] is as it was.  Otherwise it
    returns, having counted one more series, appended exactly one
    fragment -- the opening of the series, named [data_name] or
    ["Series n"] for the [n]-th series -- to the data of the chart, and
    marked the chart as past its first series; the labels, the other
    charts, the tours and the presentations are as they were. *)
Theorem add_series_to_chart_spec (data_name chart_name : option string)
  (b : builders) :
  charts_complete b ->
  let cn := text_or chart_name "default" in
  let r := add_series_to_chart data_name chart_name b in
  match _chart_series_count b !! cn with
  | None => r = (Raises (Raised KeyError cn), b)
  | Some c =>
      exists l,
        _chart_data b !! cn = Some l
        /\ fst r = Returns tt
        /\ _chart_data (snd r)
           = <[cn := l ++ [series_fragment
                            (if negb (truthy_text data_name)
                             then "Series " +:+ PyStr.str_int (c + 1)
                             else default "" data_name)]]> (_chart_data b)
        /\ _chart_series_count (snd r) = <[cn := c + 1]> (_chart_series_count b)
        /\ _chart_first_series (snd r) = <[cn := false]> (_chart_first_series b)
        /\ _chart_label (snd r) = _chart_label b
        /\ _chart_count (snd r) = _chart_count b
        /\ _tour_steps (snd r) = _tour_steps b
        /\ _presentation_slides (snd r) = _presentation_slides b
  end.
Proof.
  intros Hc cn r. subst r.
  destruct (_chart_series_count b !! cn) as [c|] eqn:Hcount.
  - destruct (Hc cn) as [l Hl]; [eauto|]. exists l. split; [assumption|].
    rewrite (add_series_to_chart_run data_name chart_name b c l Hcount Hl).
    repeat split.
  - unfold add_series_to_chart. fold cn. unfold_St. rewrite Hcount.
    reflexivity.
Qed.

(** X5.  The labels of a chart come from its first series only: once
    [add_series_to_chart] has returned for a chart, [add_data_point] on
    that chart -- whatever the label, the value and the colour, and
    whether it returns or raises -- leaves the labels of every chart as
    they were. *)
Theorem labels_from_first_series_only (data_name chart_name : option string)
  (label : string) (value : py_value) (color : option string) (b : builders) :
  charts_complete b ->
  is_Some (_chart_series_count b !! text_or chart_name "default") ->
  let b' := snd (add_series_to_chart data_name chart_name b) in
  _chart_label
    (snd (add_data_point highchart_markup str_float label value color
            chart_name b'))
  = _chart_label b.
Proof.
  intros Hc [c Hcount] b'. set (cn := text_or chart_name "default") in *.
  destruct (Hc cn) as [l Hl]; [eauto|].
  subst b'.
  rewrite (add_series_to_chart_run data_name chart_name b c l Hcount Hl).
  cbn [snd]. fold cn.
  set (b1 := set_chart_series _ _ _).
  assert (Hd : exists l1, _chart_data b1 !! cn = Some l1).
  { subst b1. cbn. rewrite lookup_insert_eq. eauto. }
  destruct Hd as [l1 Hl1].
  assert (Hf : _chart_first_series b1 !! cn = Some false).
  { subst b1. cbn. now rewrite lookup_insert_eq. }
  assert (Hlab : _chart_label b1 = _chart_label b) by reflexivity.
  rewrite <- Hlab. clearbody b1.
  unfold add_data_point. fold cn. unfold_St.
  rewrite Hl1. rewrite (bool_decide_eq_true_2 (is_Some (Some l1))) by eauto.
  cbn [negb]. cbv beta iota.
  destruct (negb (is_int_or_float _)); [reflexivity|].
  unfold append_to. rewrite Hl1. cbn. rewrite Hf. reflexivity.
Qed.

End SeriesFacts.

(** A second series added to the chart that [add_data_point] created. *)
Lemma add_series_to_chart_spec_witness :
  charts_complete (with_new_pie_chart sample_markup "default" new_builders)
  /\ fst (add_series_to_chart (Some "2021") None
            (with_new_pie_chart sample_markup "default" new_builders))
     = Returns tt.
Proof.
  assert (Hc : charts_complete
                 (with_new_pie_chart sample_markup "default" new_builders)).
  { intros n. cbn. destruct (decide ("default" = n)) as [<-|Hne].
    - rewrite !lookup_insert_eq. eauto.
    - rewrite !lookup_insert_ne by assumption. rewrite lookup_empty.
      intros [? ?]; discriminate. }
  split; [exact Hc|].
  pose proof (add_series_to_chart_spec (Some "2021") None _ Hc) as H.
  cbv zeta in H.
  change (_chart_series_count
            (with_new_pie_chart sample_markup "default" new_builders)
            !! text_or None "default")
    with (<["default" := 1]> (∅ : gmap string Z) !! "default") in H.
  rewrite lookup_insert_eq in H. destruct H as (l & _ & H & _). exact H.
Defined.

Lemma labels_from_first_series_only_witness :
  _chart_label
    (snd (add_data_point sample_markup sample_str_float "Q1" (PyInt 3) None
            None
            (snd (add_series_to_chart (Some "2021") None
                    (with_new_pie_chart sample_markup "default"
                       new_builders)))))
  = _chart_label (with_new_pie_chart sample_markup "default" new_builders).
Proof.
  apply (labels_from_first_series_only sample_markup sample_str_float).
  - intros n. cbn. destruct (decide ("default" = n)) as [<-|Hne].
    + rewrite !lookup_insert_eq. eauto.
    + rewrite !lookup_insert_ne by assumption. rewrite lookup_empty.
      intros [? ?]; discriminate.
  - cbn. rewrite lookup_insert_eq. eauto.
Defined.

(** ** The default timeouts *)


Lemma set_default_timeout_keeps_saved (timeout : py_value)
  (s s1 : timeout_state) :
  set_default_timeout timeout s = inr s1 ->
  sb_config_SMALL_TIMEOUT s1 = sb_config_SMALL_TIMEOUT s
  /\ sb_config_LARGE_TIMEOUT s1 = sb_config_LARGE_TIMEOUT s
  /\ overrided_default_timeouts s1 = true
  /\ sb_config_is_timeout_changed s1 = Some true.
Proof.
  unfold set_default_timeout. destruct (negb (has_browser s)); [discriminate|].
  destruct timeout as [| |z|f| |]; try discriminate.
  - destruct (z <? 0); [discriminate|].
    destruct (float_of_int z) as [t|]; [|discriminate].
    destruct (SFltb t min_timeout); [|destruct (SFltb max_timeout t)];
      intros [= <-]; repeat split.
  - destruct (SFltb f float_zero); [discriminate|].
    destruct (SFltb f min_timeout); [|destruct (SFltb max_timeout f)];
      intros [= <-]; repeat split.
Qed.

(** X7.  In a pure Python run whose default timeouts are truthy: [setUp]
    keeps a copy of the two settings and leaves them as they are; and
    after any [set_default_timeout] that returned, both
    [reset_default_timeout] (or [tearDown]) and the [setUp] of the next
    test put the two settings back to what they were. *)
Theorem default_timeouts_restored (timeout : py_value) (s0 : timeout_state) :
  sb_config_is_timeout_changed s0 = None ->
  py_not (settings_SMALL_TIMEOUT s0) = false ->
  py_not (settings_LARGE_TIMEOUT s0) = false ->
  exists s,
    setUp_timeouts s0 = inr s
    /\ settings_SMALL_TIMEOUT s = settings_SMALL_TIMEOUT s0
    /\ settings_LARGE_TIMEOUT s = settings_LARGE_TIMEOUT s0
    /\ forall s1,
         set_default_timeout timeout s = inr s1 ->
         (exists s2,
            reset_default_timeout s1 = inr s2
            /\ settings_SMALL_TIMEOUT s2 = settings_SMALL_TIMEOUT s0
            /\ settings_LARGE_TIMEOUT s2 = settings_LARGE_TIMEOUT s0
            /\ overrided_default_timeouts s2 = false
            /\ sb_config_is_timeout_changed s2 = Some false)
         /\ (exists s3,
               setUp_timeouts s1 = inr s3
               /\ settings_SMALL_TIMEOUT s3 = settings_SMALL_TIMEOUT s0
               /\ settings_LARGE_TIMEOUT s3 = settings_LARGE_TIMEOUT s0).
Proof.
  intros Hnew Hsmall Hlarge.
  eexists. split.
  { unfold setUp_timeouts. rewrite Hnew. cbn. reflexivity. }
  cbn [settings_SMALL_TIMEOUT settings_LARGE_TIMEOUT].
  split; [reflexivity|]. split; [reflexivity|].
  intros s1 Hset.
  apply set_default_timeout_keeps_saved in Hset as (H1 & H2 & H3 & H4).
  cbn in H1, H2.
  split.
  - unfold reset_default_timeout, saved_timeouts.
    rewrite H3, H1, H2, Hsmall, Hlarge. eexists. split; [reflexivity|].
    repeat split.
  - unfold setUp_timeouts, saved_timeouts.
    rewrite !H4. cbn [default]. rewrite H1, H2, Hsmall, Hlarge.
    eexists. split; [reflexivity|]. repeat split.
Qed.

(** [set_default_timeout(90)] stores 60.0, and [reset_default_timeout]
    brings 6 and 10 back. *)
Lemma default_timeouts_restored_witness :
  exists s s1 s2,
    setUp_timeouts initial_timeouts = inr s
    /\ set_default_timeout (PyInt 90) s = inr s1
    /\ settings_SMALL_TIMEOUT s1 = PyFloat max_timeout
    /\ reset_default_timeout s1 = inr s2
    /\ settings_SMALL_TIMEOUT s2 = PyInt 6
    /\ settings_LARGE_TIMEOUT s2 = PyInt 10.
Proof.
  destruct (default_timeouts_restored (PyInt 90) initial_timeouts
              eq_refl eq_refl eq_refl) as (s & Hs & _ & _ & H).
  injection Hs as <-.
  destruct (H _ eq_refl) as [(s2 & Hr & H1 & H2 & _) _].
  eexists _, _, s2. split; [reflexivity|]. split; [reflexivity|].
  split; [reflexivity|]. split; [exact Hr|]. split; [exact H1|exact H2].
Defined.

(** ** The time limit of a test *)

Lemma shr_1_nonneg (mrs : shr_record) :
  0 <= shr_m mrs -> 0 <= shr_m (shr_1 mrs).
Proof.
  destruct mrs as [m r s]. cbn [shr_m]. intros Hm.
  destruct m as [|[p|p|]|p]; cbn; lia.
Qed.

Lemma iter_pos_shr_1_nonneg (p : positive) (mrs : shr_record) :
  0 <= shr_m mrs -> 0 <= shr_m (SpecFloat.iter_pos shr_1 p mrs).
Proof.
  revert mrs. induction p as [p IH|p IH|]; intros mrs Hm; cbn [SpecFloat.iter_pos].
  - apply IH, IH, shr_1_nonneg, Hm.
  - apply IH, IH, Hm.
  - apply shr_1_nonneg, Hm.
Qed.

Lemma shr_fexp_nonneg (m e : Z) (l : location) :
  0 <= m -> 0 <= shr_m (fst (shr_fexp 53 1024 m e l)).
Proof.
  intros Hm. unfold shr_fexp, shr.
  assert (H0 : 0 <= shr_m (shr_record_of_loc m l))
    by (destruct l as [|[ | | ]]; exact Hm).
  destruct (fexp 53 1024 (Zdigits2 m + e) - e) as [|p|p]; cbn [fst];
    auto using iter_pos_shr_1_nonneg.
Qed.

(** Rounding a positive number gives zero, a positive number or the
    positive infinity. *)
Lemma binary_round_aux_positive (mx ex : Z) (lx : location) :
  0 <= mx ->
  match binary_round_aux 53 1024 false mx ex lx with
  | S754_zero false | S754_finite false _ _ | S754_infinity false => True
  | _ => False
  end.
Proof.
  intros Hm. unfold binary_round_aux.
  pose proof (shr_fexp_nonneg mx ex lx Hm) as H1.
  destruct (shr_fexp 53 1024 mx ex lx) as [mrs' e']. cbn [fst] in H1.
  assert (H2 : 0 <= round_nearest_even (shr_m mrs') (loc_of_shr_record mrs')).
  { unfold round_nearest_even.
    destruct (loc_of_shr_record mrs') as [|[ | | ]]; try lia.
    destruct (Z.even _); lia. }
  pose proof (shr_fexp_nonneg _ e' loc_Exact H2) as H3.
  destruct (shr_fexp 53 1024 _ e' loc_Exact) as [mrs'' e''].
  cbn [fst] in H3.
  destruct (shr_m mrs'') as [|m|m]; [exact I| |lia].
  destruct (e'' <=? 1024 - 53); exact I.
Qed.

Lemma int_of_float_nonneg (m : positive) (e ms : Z) :
  int_of_float (S754_finite false m e) = inr ms -> 0 <= ms.
Proof.
  cbn. intros [= <-]. destruct (Z.leb_spec 0 e).
  - apply Z.mul_nonneg_nonneg; [lia|]. apply Z.pow_nonneg. lia.
  - apply Z.div_pos; [lia|]. apply Z.pow_pos_nonneg; lia.
Qed.

Section TimeLimitFacts.
Context (float_of_str : string -> option spec_float)
        (float_of_object : option spec_float).

(** X8.  [set_time_limit(time_limit)] raises when [self] is out of scope,
    changing nothing, and when the limit, as a [float], is the positive
    infinity or is so large that a thousand times it is: then
    [sb_config.time_limit] holds the limit while [self.time_limit] and
    [sb_config.time_limit_ms] are as they were.  It raises in no other
    case.  When it returns, the three attributes are all [None], or
    [self.time_limit] and [sb_config.time_limit] hold the same [float],
    which is greater than zero, and [sb_config.time_limit_ms] holds an
    [int] that is not negative: the whole milliseconds of the limit.
    They are all [None] whenever the argument is falsy, cannot be
    converted by [float()], or is not greater than zero as a [float]
    (so for a NaN). *)
Theorem set_time_limit_spec (time_limit : py_value) (s : time_limit_state) :
  let limit := if py_not time_limit then None
               else py_float float_of_str float_of_object time_limit in
  match set_time_limit float_of_str float_of_object time_limit s with
  | (Some Limit_out_of_scope, s') => time_limit_in_scope s = false /\ s' = s
  | (Some Limit_overflow, s') =>
      time_limit_in_scope s = true
      /\ exists f,
           limit = Some f /\ SFltb float_zero f = true
           /\ int_of_float (SFmul 53 1024 f float_1000) = inl Limit_overflow
           /\ sb_config_time_limit s' = PyFloat f
           /\ self_time_limit s' = self_time_limit s
           /\ sb_config_time_limit_ms s' = sb_config_time_limit_ms s
  | (Some Limit_not_a_number, _) => False
  | (None, s') =>
      time_limit_in_scope s = true
      /\ match limit with
         | Some f =>
             if SFltb float_zero f then
               exists ms,
                 int_of_float (SFmul 53 1024 f float_1000) = inr ms
                 /\ 0 <= ms
                 /\ self_time_limit s' = PyFloat f
                 /\ sb_config_time_limit s' = PyFloat f
                 /\ sb_config_time_limit_ms s' = PyInt ms
             else
               self_time_limit s' = PyNone
               /\ sb_config_time_limit s' = PyNone
               /\ sb_config_time_limit_ms s' = PyNone
         | None =>
             self_time_limit s' = PyNone
             /\ sb_config_time_limit s' = PyNone
             /\ sb_config_time_limit_ms s' = PyNone
         end
  end.
Proof.
  cbv zeta. unfold set_time_limit.
  destruct (time_limit_in_scope s) eqn:Hscope; cbn [negb]; [|now split].
  destruct (py_not time_limit) eqn:Hnot; [now repeat split|].
  destruct (py_float float_of_str float_of_object time_limit) as [f|] eqn:Hf;
    [|now repeat split].
  destruct (SFltb float_zero f) eqn:Hpos.
  2:{ rewrite andb_false_r. now repeat split. }
  assert (Hsign : match f with
                  | S754_finite false _ _ | S754_infinity false => True
                  | _ => False
                  end).
  { destruct f as [[|]|[|]| |[|] m e]; try discriminate Hpos; exact I. }
  destruct f as [[|]|[|]| |[|] m e]; try contradiction; clear Hsign.
  - cbn. split; [reflexivity|]. eexists. now repeat split.
  - cbn [py_not negb andb].
    pose proof (binary_round_aux_positive
                  (Z.pos (m * 8796093022208000)) (e + -43) loc_Exact
                  ltac:(lia)) as Hr.
    change (SFmul 53 1024 (S754_finite false m e) float_1000)
      with (binary_round_aux 53 1024 false (Z.pos (m * 8796093022208000))
              (e + -43) loc_Exact).
    destruct (binary_round_aux 53 1024 false _ (e + -43) loc_Exact)
      as [[|]|[|]| |[|] m' e'] eqn:Hmul; try contradiction.
    + split; [reflexivity|]. exists 0.
      repeat split; try reflexivity; lia.
    + split; [reflexivity|]. exists (S754_finite false m e).
      split; [reflexivity|]. split; [exact Hpos|].
      split; [|now repeat split].
      change (SFmul 53 1024 (S754_finite false m e) float_1000)
        with (binary_round_aux 53 1024 false (Z.pos (m * 8796093022208000))
                (e + -43) loc_Exact).
      rewrite Hmul. reflexivity.
    + split; [reflexivity|].
      eexists. split; [reflexivity|].
      split; [exact (int_of_float_nonneg m' e' _ eq_refl)|]. now repeat split.
Qed.

End TimeLimitFacts.

(** The two constants are the [float]s of 1 and 1000. *)
Example float_constants :
  float_of_int 1 = Some float_one /\ float_of_int 1000 = Some float_1000.
Proof. split; reflexivity. Qed.

(** [set_time_limit(2)] gives 2000 milliseconds; a limit of a quarter
    of a millisecond gives none; an infinite limit raises
    [OverflowError] and leaves the attributes in disagreement. *)
Example set_time_limit_examples :
  let s0 := {| time_limit_in_scope := true; self_time_limit := PyNone;
               sb_config_time_limit := PyNone;
               sb_config_time_limit_ms := PyNone |} in
  sb_config_time_limit_ms
    (snd (set_time_limit (fun _ => None) None (PyInt 2) s0)) = PyInt 2000
  /\ sb_config_time_limit_ms
       (snd (set_time_limit (fun _ => None) None
               (PyFloat (S754_finite false 1 (-12))) s0)) = PyInt 0
  /\ set_time_limit (fun _ => None) None (PyFloat (S754_infinity false)) s0
     = (Some Limit_overflow,
        {| time_limit_in_scope := true; self_time_limit := PyNone;
           sb_config_time_limit := PyFloat (S754_infinity false);
           sb_config_time_limit_ms := PyNone |}).
Proof. cbv zeta. repeat split; vm_compute; reflexivity. Qed.

(** ** Deferred assertions: the methods *)

Lemma MS_bind_run {S A B} (m : MS S A) (k : A -> MS S B) (s : S) (e : env)
  (log : list call) :
  (m ≫= k) s e log =
    match m s e log with
    | ((Returns a, s'), log') => k a s' e log'
    | ((Raises x, s'), log') => ((Raises x, s'), log')
    end.
Proof. reflexivity. Qed.

Lemma ms_try_run {S A} (m : MS S A) (k : exn -> MS S A) (s : S) (e : env)
  (log : list call) :
  ms_try m k s e log =
    match m s e log with
    | ((Returns a, s'), log') => ((Returns a, s'), log')
    | ((Raises x, s'), log') => k x s' e log'
    end.
Proof. reflexivity. Qed.

Lemma ms_lift_perform_run {S} (c : call) (s : S) (e : env) (log : list call) :
  ms_lift (perform c) s e log = ((e log c, s), c :: log).
Proof. reflexivity. Qed.

Lemma ms_ret_run {S A} (a : A) (s : S) (e : env) (log : list call) :
  (mret a : MS S A) s e log = ((Returns a, s), log).
Proof. reflexivity. Qed.

Lemma ms_modify_run {S} (f : S -> S) (s : S) (e : env) (log : list call) :
  ms_modify f s e log = ((Returns tt, f s), log).
Proof. reflexivity. Qed.

Lemma ms_get_run {S} (s : S) (e : env) (log : list call) :
  ms_get s e log = ((Returns s, s), log).
Proof. reflexivity. Qed.

Lemma ms_lift_run {S A} (m : M A) (s : S) (e : env) (log : list call) :
  ms_lift m s e log = ((fst (m e log), s), snd (m e log)).
Proof. unfold ms_lift. now destruct (m e log). Qed.

Ltac run_MS :=
  repeat first
    [ rewrite MS_bind_run | rewrite ms_try_run | rewrite ms_lift_perform_run
    | rewrite ms_ret_run | rewrite ms_modify_run | rewrite ms_get_run ].

(** The prologue on timeouts only checks the scope: it returns, or
    raises what the scope check raised. *)
Lemma resolve_timeout_run (cfg : config) (timeout : option Z) (dflt : Z)
  (e : env) (log : list call) :
  (exists t, resolve_timeout cfg timeout dflt e log = (Returns t, log))
  \/ (exists t, resolve_timeout cfg timeout dflt e log
                = (Returns t, CheckScope :: log)
                /\ e log CheckScope = Returns tt)
  \/ (exists x, resolve_timeout cfg timeout dflt e log
                = (Raises x, CheckScope :: log)
                /\ e log CheckScope = Raises x).
Proof.
  unfold resolve_timeout, get_new_timeout.
  destruct (multiplier_set cfg && _); [|left; eexists; reflexivity].
  rewrite M_bind_run, perform_run.
  destruct (e log CheckScope) as [[]|x] eqn:Hs.
  - right; left. destruct (timeout_multiplier cfg); eexists; split;
      reflexivity.
  - right; right. exists x. split; reflexivity.
Qed.

Section DeferredFacts.
Context (cfg : config) (MINI_TIMEOUT : Z)
        (unquote : string -> outcome string)
        (str_exc_info : exn -> string).

Lemma get_current_url_run (e : env) (log : list call) :
  (exists u, get_current_url unquote e log
             = (Returns u, CurrentUrl :: CheckScope :: log))
  \/ (exists x c log0,
        get_current_url unquote e log = (Raises x, c :: log0)
        /\ e log0 c = Raises x /\ (c = CheckScope \/ c = CurrentUrl)).
Proof.
  unfold get_current_url. rewrite M_bind_run, perform_run.
  destruct (e log CheckScope) as [[]|x] eqn:Hs;
    [|right; exists x, CheckScope, log; auto].
  rewrite M_bind_run, perform_run.
  destruct (e (CheckScope :: log) CurrentUrl) as [u|x] eqn:Hu;
    [|right; exists x, CurrentUrl, (CheckScope :: log); auto].
  left. destruct (PyStr.contains u "%"); [|eexists; reflexivity].
  destruct (unquote u); eexists; reflexivity.
Qed.

(** The [try] statement on the URL returns a timeout and leaves the
    count and the failures alone, whatever the driver does. *)
Lemma deferred_url_step (timeout : Z) (d1 : deferred_state) (e : env)
  (log : list call) :
  exists t d2 log2,
    ms_try
      (url ← ms_lift (get_current_url unquote);
       d ← ms_get;
       if String.eqb url (last_url_of_deferred_assert d) then mret 1
       else
         ms_modify (fun d =>
           {| deferred_assert_count := deferred_assert_count d;
              deferred_assert_failures := deferred_assert_failures d;
              last_url_of_deferred_assert := url;
              printed := printed d |});;
         mret timeout)
      (fun _ => mret timeout) d1 e log
    = ((Returns t, d2), log2)
    /\ deferred_assert_count d2 = deferred_assert_count d1
    /\ deferred_assert_failures d2 = deferred_assert_failures d1
    /\ printed d2 = printed d1.
Proof.
  rewrite ms_try_run, MS_bind_run, ms_lift_run.
  destruct (get_current_url_run e log) as [[u Hu]|(x & c & log0 & Hx & _)].
  - rewrite Hu. cbn [fst snd]. run_MS.
    destruct (String.eqb u (last_url_of_deferred_assert d1)); run_MS;
      eexists _, _, _; (split; [reflexivity|]); repeat split.
  - rewrite Hx. cbn [fst snd]. run_MS.
    eexists _, _, _. split; [reflexivity|]. repeat split.
Qed.

(** X9.  [deferred_assert_element]: a failure of the wait for the element
    never leaves the method.  When the wait returns, the method returns
    [True] and the failures are as they were; when the wait raises, the
    method records exactly one failure, numbered with the count of the
    deferred assertions made so far, and returns [False].  Either way
    it has counted one more assertion.  It raises only what the scope
    check or the reading of the current URL raised, with the failures
    as they were; and it prints nothing. *)
Theorem deferred_assert_element_spec (selector : string) (by_ : By)
  (timeout : option Z) (d : deferred_state) (e : env) (log : list call) :
  let run := deferred_assert_element cfg MINI_TIMEOUT unquote str_exc_info
               selector by_ timeout d e log in
  let r := fst (fst run) in
  let d' := snd (fst run) in
  let log' := snd run in
  printed d' = printed d
  /\ match r with
     | Returns true =>
         deferred_assert_count d' = deferred_assert_count d + 1
         /\ deferred_assert_failures d' = deferred_assert_failures d
         /\ exists t log0 el,
              log' = WaitForElementVisible selector by_ t :: log0
              /\ e log0 (WaitForElementVisible selector by_ t) = Returns el
     | Returns false =>
         deferred_assert_count d' = deferred_assert_count d + 1
         /\ exists t log0 x url,
              e log0 (WaitForElementVisible selector by_ t) = Raises x
              /\ log' = CurrentUrl :: CheckScope
                        :: WaitForElementVisible selector by_ t :: log0
              /\ e (CheckScope :: WaitForElementVisible selector by_ t :: log0)
                   CurrentUrl = Returns url
              /\ deferred_assert_failures d'
                 = deferred_assert_failures d
                   ++ ["CHECK #"
                       +:+ PyStr.str_int (deferred_assert_count d + 1)
                       +:+ ": (" +:+ url +:+ ")" +:+ nl +:+ " "
                       +:+ exc_message_text str_exc_info
                             (get_exception_message x)]
     | Raises x =>
         deferred_assert_failures d' = deferred_assert_failures d
         /\ (d' = d \/ deferred_assert_count d' = deferred_assert_count d + 1)
         /\ exists c log0,
              log' = c :: log0 /\ e log0 c = Raises x
              /\ (c = CheckScope \/ c = CurrentUrl)
     end.
Proof.
  intros run r d' log'. subst r d' log' run.
  unfold deferred_assert_element.
  rewrite MS_bind_run, ms_lift_perform_run.
  destruct (e log CheckScope) as [[]|x] eqn:Hs.
  2:{ cbn [fst snd]. split; [reflexivity|]. split; [reflexivity|].
      split; [now left|]. exists CheckScope, log. auto. }
  rewrite MS_bind_run, ms_lift_run.
  assert (Hres : (exists t, fst (resolve_timeout cfg timeout MINI_TIMEOUT e
                                   (CheckScope :: log)) = Returns t)
                 \/ exists x, resolve_timeout cfg timeout MINI_TIMEOUT e
                                (CheckScope :: log)
                              = (Raises x, CheckScope :: CheckScope :: log)
                              /\ e (CheckScope :: log) CheckScope = Raises x).
  { destruct (resolve_timeout_run cfg timeout MINI_TIMEOUT e (CheckScope :: log))
      as [[t Ht]|[[t [Ht _]]|[x Hx]]]; [left|left|right; eauto];
      exists t; now rewrite Ht. }
  destruct Hres as [[t0 Ht0]|[x [Hx Hex]]].
  2:{ rewrite Hx. cbn [fst snd]. split; [reflexivity|].
      split; [reflexivity|]. split; [now left|].
      exists CheckScope, (CheckScope :: log). auto. }
  rewrite Ht0. set (log1 := snd (resolve_timeout _ _ _ _ _)).
  rewrite MS_bind_run, ms_modify_run.
  set (d1 := {| deferred_assert_count := deferred_assert_count d + 1;
                deferred_assert_failures := deferred_assert_failures d;
                last_url_of_deferred_assert := last_url_of_deferred_assert d;
                printed := printed d |}).
  rewrite MS_bind_run.
  destruct (deferred_url_step t0 d1 e log1)
    as (t & d2 & log2 & -> & Hc2 & Hf2 & Hp2).
  rewrite ms_try_run, MS_bind_run, ms_lift_perform_run.
  destruct (e log2 (WaitForElementVisible selector by_ t)) as [el|x] eqn:Hw.
  - rewrite ms_ret_run. cbn [fst snd].
    split; [now rewrite Hp2|]. split; [now rewrite Hc2|].
    split; [now rewrite Hf2|]. eauto.
  - unfold add_deferred_assert_failure.
    rewrite MS_bind_run, MS_bind_run, ms_lift_perform_run.
    destruct (e (WaitForElementVisible selector by_ t :: log2) CheckScope)
      as [[]|y] eqn:Hs2.
    2:{ cbn [fst snd]. split; [now rewrite Hp2|].
        split; [now rewrite Hf2|]. split; [right; now rewrite Hc2|].
        eexists _, _. split; [reflexivity|]. split; [exact Hs2|now left]. }
    rewrite MS_bind_run, ms_lift_perform_run.
    destruct (e (CheckScope :: WaitForElementVisible selector by_ t :: log2)
                CurrentUrl) as [url|y] eqn:Hu.
    2:{ cbn [fst snd]. split; [now rewrite Hp2|].
        split; [now rewrite Hf2|]. split; [right; now rewrite Hc2|].
        eexists _, _. split; [reflexivity|]. split; [exact Hu|now right]. }
    rewrite ms_modify_run, ms_ret_run. cbn [fst snd].
    cbn [printed deferred_assert_count deferred_assert_failures].
    split; [now rewrite Hp2|]. split; [now rewrite Hc2|].
    exists t, log2, x, url. split; [exact Hw|]. split; [reflexivity|].
    split; [exact Hu|]. now rewrite Hf2, Hc2.
Qed.

End DeferredFacts.

(** X10.  [process_deferred_asserts(print_only)]: with no failure recorded it
    returns and changes nothing.  With failures it takes them all off
    [self] -- also when it raises -- and either prints or raises, as an
    [Exception], the text that lists them in the order they were
    recorded; so a second call right after it returns and changes
    nothing. *)
Theorem process_deferred_asserts_spec (test_id : string) (print_only : bool)
  (d : deferred_state) :
  let r := process_deferred_asserts test_id print_only d in
  let output := deferred_exception_output test_id (deferred_assert_failures d) in
  deferred_assert_failures (snd r) = []
  /\ deferred_assert_count (snd r) = deferred_assert_count d
  /\ (deferred_assert_failures d = [] -> r = (Returns tt, d))
  /\ (deferred_assert_failures d <> [] ->
      if print_only
      then fst r = Returns tt /\ printed (snd r) = printed d ++ [output]
      else fst r = Raises (Raised Exception_ output)
           /\ printed (snd r) = printed d)
  /\ (forall print_only',
        process_deferred_asserts test_id print_only' (snd r)
        = (Returns tt, snd r)).
Proof.
  intros r output. subst r output. unfold process_deferred_asserts.
  unfold_St.
  destruct (deferred_assert_failures d) as [|f fs] eqn:Hf.
  - cbn [fst snd]. rewrite Hf. repeat split; try congruence.
  - destruct print_only; cbn [fst snd deferred_assert_failures
      deferred_assert_count printed];
      (split; [reflexivity|]); (split; [reflexivity|]);
      (split; [discriminate|]); split; try (intros _; split; reflexivity);
      intros p; reflexivity.
Qed.

(** Two deferred assertions on a missing element, then the report. *)
Example deferred_asserts_reported :
  let check := deferred_assert_element cfg_chrome 3 (fun u => Returns u)
                 (fun _ => "") "h9" CSS_SELECTOR None in
  let first := check new_deferred_state env_element_missing [] in
  let second := check (snd (fst first)) env_element_missing (snd first) in
  fst (fst second) = Returns false
  /\ fst (process_deferred_asserts "tests.test_x" false (snd (fst second)))
     = Raises (Raised Exception_
                 (nl +:+ "*** DEFERRED ASSERTION FAILURES FROM: tests.test_x"
                  +:+ nl
                  +:+ "CHECK #1: (https://example.com/)" +:+ nl
                  +:+ " Element {h9} was not present!" +:+ nl
                  +:+ "CHECK #2: (https://example.com/)" +:+ nl
                  +:+ " Element {h9} was not present!" +:+ nl)).
Proof. vm_compute. split; reflexivity. Qed.

(** ** The recorder: the passes that mark the page loads *)

Lemma marked_refl (a : action) : marked a a.
Proof. repeat split. now left. Qed.

Lemma set_kind_not_page_load (k : string) (a : action) :
  k = "_skip" \/ k = "f_url" -> is_page_load (set_kind k a) = false.
Proof. intros [->| ->]; reflexivity. Qed.

Lemma marked_trans (a b c : action) : marked a b -> marked b c -> marked a c.
Proof.
  intros (Ht & Hv & Hs & Hk) (Ht' & Hv' & Hs' & Hk').
  split; [congruence|]. split; [congruence|]. split; [congruence|].
  destruct Hk as [Hk|[Ha Hk]], Hk' as [Hk'|[Hb Hk']].
  - left. congruence.
  - right. split; [|assumption]. unfold is_page_load in *. now rewrite <- Hk.
  - right. split; [assumption|]. now rewrite Hk'.
  - exfalso. unfold is_page_load in Hb. destruct Hk as [Hk|Hk];
      rewrite Hk in Hb; discriminate.
Qed.

Lemma Forall2_marked_refl (l : list action) : Forall2 marked l l.
Proof. induction l; constructor; auto using marked_refl. Qed.

Lemma Forall2_marked_trans (l1 l2 l3 : list action) :
  Forall2 marked l1 l2 -> Forall2 marked l2 l3 -> Forall2 marked l1 l3.
Proof.
  intros H12. revert l3. induction H12 as [|a b l1 l2 Hab _ IH];
    intros l3 H23; inversion H23; subst; constructor;
    eauto using marked_trans.
Qed.

Lemma marks_one_marked (l l' : list action) :
  marks_one l l' -> Forall2 marked l l'.
Proof.
  intros [->|(i & x & k & Hi & Hx & Hk & ->)]; [apply Forall2_marked_refl|].
  rewrite <- (list_insert_id l i x Hi) at 1.
  apply Forall2_insert; [apply Forall2_marked_refl|].
  repeat split. right. auto.
Qed.

Lemma for_each_index_marked
  (body : nat -> action -> action -> list action -> list action)
  (l0 : list action) :
  (forall n a prev l,
     l !! S n = Some a -> l !! n = Some prev ->
     marks_one l (body (S n) a prev l)) ->
  Forall2 marked l0 (for_each_index body l0).
Proof.
  intros Hbody. unfold for_each_index.
  generalize (seq 0 (length l0)) as idx. intros idx.
  assert (H : forall l, Forall2 marked l0 l ->
            Forall2 marked l0
              (fold_left
                 (fun l n =>
                    match n with
                    | O => l
                    | S p =>
                        match l !! n, l !! p with
                        | Some a, Some prev => body n a prev l
                        | _, _ => l
                        end
                    end) idx l)).
  { induction idx as [|n idx IH]; intros l Hl; [exact Hl|].
    cbn [fold_left]. apply IH. destruct n as [|p]; [exact Hl|].
    destruct (l !! S p) as [a|] eqn:Ha; [|exact Hl].
    destruct (l !! p) as [prev|] eqn:Hp; [|exact Hl].
    eapply Forall2_marked_trans; [exact Hl|].
    apply marks_one_marked, Hbody; assumption. }
  apply H, Forall2_marked_refl.
Qed.

Lemma page_load_of_conj (a : action) (c : bool) :
  is_page_load a && c = true -> is_page_load a = true.
Proof. now intros [? _]%andb_true_iff. Qed.

Lemma mark_after_skipped_open_marked (l : list action) :
  Forall2 marked l (mark_after_skipped_open l).
Proof.
  apply for_each_index_marked. intros n a prev l' Ha Hp.
  destruct (is_page_load a && _) eqn:Hc; [|now left].
  right. exists (S n), a, "_skip". split; [exact Ha|].
  split; [eapply page_load_of_conj; exact Hc|]. split; [now left|reflexivity].
Qed.

Lemma mark_after_click_on_link_marked (l : list action) :
  Forall2 marked l (mark_after_click_on_link l).
Proof.
  apply for_each_index_marked. intros n a prev l' Ha Hp.
  destruct (is_page_load a && _) eqn:Hc; [|now left].
  destruct (String.eqb (without_final_slash _) _); [|now left].
  right. exists (S n), a, "f_url". split; [exact Ha|].
  split; [eapply page_load_of_conj; exact Hc|]. split; [now right|reflexivity].
Qed.

Lemma mark_repeated_page_load_marked (l : list action) :
  Forall2 marked l (mark_repeated_page_load l).
Proof.
  apply for_each_index_marked. intros n a prev l' Ha Hp.
  destruct (is_page_load a && is_page_load prev) eqn:Hc; [|now left].
  destruct (String.eqb (without_final_slash _) _); [|now left].
  apply andb_true_iff in Hc as [_ Hc].
  right. exists n, prev, "_skip". cbn [pred]. split; [exact Hp|].
  split; [exact Hc|]. split; [now left|reflexivity].
Qed.

Lemma mark_after_submit_marked (l : list action) :
  Forall2 marked l (mark_after_submit l).
Proof.
  apply for_each_index_marked. intros n a prev l' Ha Hp.
  destruct (is_page_load a && _ && _) eqn:Hc; [|now left].
  apply andb_true_iff in Hc as [Hc _]. apply page_load_of_conj in Hc.
  destruct (String.eqb (kind prev) "click" || String.eqb (kind prev) "js_cl").
  - destruct (_ || _); [|now left].
    right. exists (S n), a, "f_url". split; [exact Ha|].
    split; [exact Hc|]. split; [now right|reflexivity].
  - destruct (String.eqb (kind prev) "input"); [|now left].
    destruct (PyStr.endswith _ _); [|now left].
    right. exists (S n), a, "f_url". split; [exact Ha|].
    split; [exact Hc|]. split; [now right|reflexivity].
Qed.

(** X11.  The marking passes keep the actions in place: as many actions, in
    the same order, each with its target, its value and its time
    stamp; the kind of an action changes only when the action is a page
    load (["begin"] or ["_url_"]), and then to ["_skip"] or ["f_url"].
    So every action that is no page load is as it was. *)
Theorem mark_page_loads_frame (srt_actions : list action) :
  let out := mark_page_loads srt_actions in
  Forall2 marked srt_actions out
  /\ length out = length srt_actions
  /\ (forall i a, srt_actions !! i = Some a -> is_page_load a = false ->
                  out !! i = Some a).
Proof.
  intros out.
  assert (H : Forall2 marked srt_actions out).
  { subst out. unfold mark_page_loads.
    eapply Forall2_marked_trans; [|apply mark_after_submit_marked].
    eapply Forall2_marked_trans; [|apply mark_repeated_page_load_marked].
    eapply Forall2_marked_trans; [|apply mark_after_click_on_link_marked].
    apply mark_after_skipped_open_marked. }
  split; [exact H|]. split; [symmetry; eapply Forall2_length; exact H|].
  intros i a Ha Hnl.
  destruct (Forall2_lookup_l _ _ _ _ _ H Ha) as (a' & Ha' & Ht & Hv & Hs & Hk).
  rewrite Ha'. f_equal.
  destruct Hk as [Hk|[Hk _]]; [|congruence].
  destruct a, a'. cbn in *. congruence.
Qed.

Lemma marked_page_load (a a' : action) :
  marked a a' -> is_page_load a' = true ->
  is_page_load a = true /\ value a' = value a.
Proof.
  intros (_ & Hv & _ & Hk) Hp. split; [|exact Hv].
  destruct Hk as [Hk|[_ [Hk|Hk]]].
  - unfold is_page_load in *. now rewrite <- Hk.
  - unfold is_page_load in Hp. rewrite Hk in Hp. discriminate.
  - unfold is_page_load in Hp. rewrite Hk in Hp. discriminate.
Qed.

(** After the third pass, no two page loads in a row have the same
    URL. *)
Lemma mark_repeated_page_load_spec (l0 : list action) (i : nat)
  (a b : action) :
  mark_repeated_page_load l0 !! i = Some a ->
  mark_repeated_page_load l0 !! S i = Some b ->
  is_page_load a = true -> is_page_load b = true ->
  without_final_slash (value a) <> without_final_slash (value b).
Proof.
  unfold mark_repeated_page_load, for_each_index.
  set (step := fun (l : list action) (n : nat) =>
         match n with
         | O => l
         | S p =>
             match l !! n, l !! p with
             | Some a, Some prev =>
                 if is_page_load a && is_page_load prev then
                   if String.eqb (without_final_slash (value prev))
                                 (without_final_slash (value a))
                   then <[pred n := set_kind "_skip" prev]> l else l
                 else l
             | _, _ => l
             end
         end).
  assert (Inv : forall k,
            let l := fold_left step (seq 0 k) l0 in
            (forall j, k <= S j -> l !! j = l0 !! j)%nat
            /\ (forall j x, l !! j = Some x ->
                  exists x0, l0 !! j = Some x0
                             /\ value x = value x0
                             /\ (x = x0 \/ is_page_load x = false))
            /\ (forall j x y0, (S j < k)%nat ->
                  l !! j = Some x -> l0 !! S j = Some y0 ->
                  is_page_load x = true -> is_page_load y0 = true ->
                  without_final_slash (value x)
                  <> without_final_slash (value y0))).
  { induction k as [|k IH].
    - cbn. split; [reflexivity|]. split; [eauto|]. intros; lia.
    - rewrite seq_S, fold_left_app. cbn [fold_left Nat.add].
      cbv zeta in IH. set (l := fold_left step (seq 0 k) l0) in *.
      destruct IH as (H2 & H3 & H4).
      destruct k as [|p].
      { cbn [step]. split; [intros; apply H2; lia|]. split; [exact H3|].
        intros; lia. }
      cbn [step].
      destruct (l !! S p) as [x1|] eqn:Hx1.
      2:{ split; [intros; apply H2; lia|]. split; [exact H3|].
          intros j x y0 Hj Hx Hy0 Hpx Hpy.
          destruct (decide (j = p)) as [->|Hne]; [|apply (H4 j); auto; lia].
          rewrite <- (H2 (S p)) in Hy0 by lia. congruence. }
      destruct (l !! p) as [x0|] eqn:Hx0.
      2:{ split; [intros; apply H2; lia|]. split; [exact H3|].
          intros j x y0 Hj Hx Hy0 Hpx Hpy.
          destruct (decide (j = p)) as [->|Hne]; [|apply (H4 j); auto; lia].
          congruence. }
      assert (Hsame : forall j x y0,
                (S j < S (S p))%nat -> l !! j = Some x -> l0 !! S j = Some y0 ->
                is_page_load x = true -> is_page_load y0 = true ->
                (is_page_load x1 && is_page_load x0 = false
                 \/ String.eqb (without_final_slash (value x0))
                               (without_final_slash (value x1)) = false) ->
                without_final_slash (value x) <> without_final_slash (value y0)).
      { intros j x y0 Hj Hx Hy0 Hpx Hpy Hc.
        destruct (decide (j = p)) as [->|Hne]; [|apply (H4 j); auto; lia].
        rewrite <- (H2 (S p)) in Hy0 by lia.
        assert (x = x0) by congruence. assert (y0 = x1) by congruence.
        subst x y0. destruct Hc as [Hc|Hc].
        - rewrite Hpx, Hpy in Hc. discriminate.
        - now apply String.eqb_neq in Hc. }
      destruct (is_page_load x1 && is_page_load x0) eqn:Hc.
      2:{ split; [intros; apply H2; lia|]. split; [exact H3|].
          intros j x y0 Hj Hx Hy0 Hpx Hpy. eapply Hsame; eauto. }
      destruct (String.eqb (without_final_slash (value x0))
                           (without_final_slash (value x1))) eqn:He.
      2:{ split; [intros; apply H2; lia|]. split; [exact H3|].
          intros j x y0 Hj Hx Hy0 Hpx Hpy. eapply Hsame; eauto. }
      cbn [pred]. split; [|split].
      + intros j Hj. rewrite list_lookup_insert_ne by lia. apply H2. lia.
      + intros j x Hx. destruct (decide (j = p)) as [->|Hne].
        * rewrite list_lookup_insert_eq in Hx
            by (apply lookup_lt_Some in Hx0; exact Hx0).
          injection Hx as <-.
          destruct (H3 p x0 Hx0) as (z & Hz & Hv & _).
          exists z. split; [exact Hz|]. split; [exact Hv|]. now right.
        * rewrite list_lookup_insert_ne in Hx by congruence. now apply H3.
      + intros j x y0 Hj Hx Hy0 Hpx Hpy.
        destruct (decide (j = p)) as [->|Hne].
        * rewrite list_lookup_insert_eq in Hx
            by (apply lookup_lt_Some in Hx0; exact Hx0).
          injection Hx as <-. discriminate Hpx.
        * rewrite list_lookup_insert_ne in Hx by congruence.
          apply (H4 j); auto. lia. }
  intros Ha Hb Hpa Hpb.
  destruct (Inv (length l0)) as (_ & H3 & H4).
  fold step in Ha, Hb.
  destruct (H3 _ _ Hb) as (b0 & Hb0 & Hvb & [->|Hnb]); [|congruence].
  apply (H4 i a b0); auto.
  apply lookup_lt_Some in Hb0. exact Hb0.
Qed.

(** X12.  In the list that the marking passes leave, no two page loads in a
    row have the same URL (up to one final ["/"]): of two such page
    loads the first has been marked ["_skip"]. *)
Theorem no_page_load_twice_in_a_row (srt_actions : list action) (i : nat)
  (a b : action) :
  mark_page_loads srt_actions !! i = Some a ->
  mark_page_loads srt_actions !! S i = Some b ->
  is_page_load a = true -> is_page_load b = true ->
  without_final_slash (value a) <> without_final_slash (value b).
Proof.
  unfold mark_page_loads.
  set (p2 := mark_after_click_on_link (mark_after_skipped_open srt_actions)).
  intros Ha Hb Hpa Hpb.
  pose proof (mark_after_submit_marked (mark_repeated_page_load p2)) as Hm.
  destruct (Forall2_lookup_r _ _ _ _ _ Hm Ha) as (a3 & Ha3 & Hma).
  destruct (Forall2_lookup_r _ _ _ _ _ Hm Hb) as (b3 & Hb3 & Hmb).
  destruct (marked_page_load _ _ Hma Hpa) as [Hpa3 Hva].
  destruct (marked_page_load _ _ Hmb Hpb) as [Hpb3 Hvb].
  rewrite Hva, Hvb.
  exact (mark_repeated_page_load_spec p2 i a3 b3 Ha3 Hb3 Hpa3 Hpb3).
Qed.

(** Of the two loads of the same page the first is skipped; the second
    and the load of the other page stay, with different URLs. *)
Lemma no_page_load_twice_in_a_row_witness :
  mark_page_loads recorded_reload !! 0%nat
  = Some {| kind := "_skip"; target := ""; value := "https://example.com/";
            time_stamp := 1000 |}
  /\ without_final_slash "https://example.com"
     <> without_final_slash "https://example.com/docs".
Proof.
  split; [reflexivity|].
  exact (no_page_load_twice_in_a_row recorded_reload 1
           {| kind := "_url_"; target := ""; value := "https://example.com";
              time_stamp := 2000 |}
           {| kind := "_url_"; target := "";
              value := "https://example.com/docs"; time_stamp := 9000 |}
           eq_refl eq_refl eq_refl eq_refl).
Defined.

(** ** Referral traffic *)

Section ReferralFacts.
Context (cfg : config) (h : helpers) (is_valid_url : string -> bool).

(** The validation loop of the chain calls nothing: it raises for the
    first page that is not valid, and returns when there is none. *)
Lemma validation_loop_first_invalid (l1 : list string) (p : string)
  (l2 : list string) (e : env) (log : list call) :
  Forall (fun q => is_valid_url q = true) l1 -> is_valid_url p = false ->
  for_each (l1 ++ p :: l2) (fun page =>
      if negb (is_valid_url page)
      then raise (Raised Exception_ (invalid_page_message page))
      else mret tt) e log
  = (Raises (Raised Exception_ (invalid_page_message p)), log).
Proof.
  intros Hl1 Hp. induction Hl1 as [|q l1 Hq _ IH]; cbn [app for_each].
  - rewrite M_bind_run, Hp. reflexivity.
  - rewrite M_bind_run, Hq. cbn [negb]. rewrite mret_run. exact IH.
Qed.

Lemma validation_loop_all_valid (pages : list string) (e : env)
  (log : list call) :
  Forall (fun q => is_valid_url q = true) pages ->
  for_each pages (fun page =>
      if negb (is_valid_url page)
      then raise (Raised Exception_ (invalid_page_message page))
      else mret tt) e log
  = (Returns tt, log).
Proof.
  induction 1 as [|q l Hq _ IH]; cbn [for_each]; [reflexivity|].
  rewrite M_bind_run, Hq. cbn [negb]. rewrite mret_run. exact IH.
Qed.

Lemma generate_referral_chain_run_invalid (l1 : list string) (p : string)
  (l2 : list string) (e : env) (log : list call) :
  e log CheckScope = Returns tt ->
  (2 <= length (l1 ++ p :: l2))%nat ->
  Forall (fun q => is_valid_url q = true) l1 -> is_valid_url p = false ->
  generate_referral_chain cfg h is_valid_url (PageSeq (l1 ++ p :: l2)) e log
  = (Raises (Raised Exception_ (invalid_page_message p)), CheckScope :: log).
Proof.
  intros Hscope Hlen Hl1 Hp. unfold generate_referral_chain.
  rewrite M_bind_run, perform_run, Hscope.
  apply Nat.ltb_ge in Hlen. rewrite Hlen.
  rewrite M_bind_run, (validation_loop_first_invalid l1 p l2 _ _ Hl1 Hp).
  reflexivity.
Qed.

(** X13.  [generate_referral_chain(pages)], called in scope with a list or a
    tuple: with fewer than two pages, or with a page that is not a
    valid URL, the call raises an [Exception] -- for the first such
    page -- and has done nothing but the scope check: no script is
    run and nothing is clicked, whatever the pages before the invalid
    one are.  With two valid pages or more it is the referrals to the
    pages, in order, each from the current page and with no selector
    to click afterwards. *)
Theorem generate_referral_chain_validates_first (pages : list string)
  (e : env) (log : list call) :
  e log CheckScope = Returns tt ->
  let r := generate_referral_chain cfg h is_valid_url (PageSeq pages) e log in
  ((length pages < 2)%nat ->
     r = (Raises (Raised Exception_
            "Exception: At least two website pages required for chaining!"),
          CheckScope :: log))
  /\ (forall l1 p l2,
        (2 <= length pages)%nat -> pages = l1 ++ p :: l2 ->
        Forall (fun q => is_valid_url q = true) l1 ->
        is_valid_url p = false ->
        r = (Raises (Raised Exception_ (invalid_page_message p)),
             CheckScope :: log))
  /\ ((2 <= length pages)%nat ->
      Forall (fun q => is_valid_url q = true) pages ->
      r = for_each pages
            (fun page => generate_referral cfg h is_valid_url None page None)
            e (CheckScope :: log)).
Proof.
  intros Hscope r. subst r. unfold generate_referral_chain.
  rewrite M_bind_run, perform_run, Hscope.
  split; [|split].
  - intros Hlen. apply Nat.ltb_lt in Hlen. rewrite Hlen. reflexivity.
  - intros l1 p l2 Hlen -> Hl1 Hp.
    apply Nat.ltb_ge in Hlen. rewrite Hlen.
    rewrite M_bind_run, (validation_loop_first_invalid l1 p l2 _ _ Hl1 Hp).
    reflexivity.
  - intros Hlen Hall. apply Nat.ltb_ge in Hlen. rewrite Hlen.
    rewrite M_bind_run, (validation_loop_all_valid _ _ _ Hall). reflexivity.
Qed.

(** X14.  [generate_traffic_chain(pages, loops)] with [loops] zero or
    negative returns after the scope check, whatever [pages] is: the
    pages are not even validated.  With [loops] positive and, among
    two pages or more, one that is not a valid URL, it raises as the
    chain does in its first loop, after two scope checks and nothing
    else. *)
Theorem generate_traffic_chain_edges (pages : pages_arg) (loops : Z)
  (e : env) (log : list call) :
  (forall l, e l CheckScope = Returns tt) ->
  let r := generate_traffic_chain cfg h is_valid_url pages loops e log in
  (loops <= 0 -> r = (Returns tt, CheckScope :: log))
  /\ (forall l1 p l2,
        0 < loops -> pages = PageSeq (l1 ++ p :: l2) ->
        (2 <= length (l1 ++ p :: l2))%nat ->
        Forall (fun q => is_valid_url q = true) l1 ->
        is_valid_url p = false ->
        r = (Raises (Raised Exception_ (invalid_page_message p)),
             CheckScope :: CheckScope :: log)).
Proof.
  intros Hscope r. subst r. unfold generate_traffic_chain, repeat_times.
  rewrite M_bind_run, perform_run, Hscope.
  split.
  - intros Hl. replace (Z.to_nat loops) with O by lia. reflexivity.
  - intros l1 p l2 Hl -> Hlen Hl1 Hp.
    destruct (Z.to_nat loops) as [|n] eqn:Hn; [lia|].
    cbn [seq for_each]. rewrite !M_bind_run.
    rewrite (generate_referral_chain_run_invalid l1 p l2 e
               (CheckScope :: log)) by auto.
    reflexivity.
Qed.

End ReferralFacts.

(** The second page of the chain is no URL: nothing is done on the
    first. *)
Lemma generate_referral_chain_validates_first_witness :
  generate_referral_chain cfg_chrome spec_helpers sample_is_valid_url
    (PageSeq ["https://seleniumbase.io"; "seleniumbase"; "https://xkcd.com"])
    env_found []
  = (Raises (Raised Exception_ (invalid_page_message "seleniumbase")),
     [CheckScope]).
Proof.
  pose proof (generate_referral_chain_validates_first cfg_chrome spec_helpers
                sample_is_valid_url
                ["https://seleniumbase.io"; "seleniumbase"; "https://xkcd.com"]
                env_found [] eq_refl) as H.
  cbv zeta in H. destruct H as (_ & H & _).
  apply (H ["https://seleniumbase.io"] "seleniumbase" ["https://xkcd.com"]).
  - cbn. lia.
  - reflexivity.
  - repeat constructor.
  - reflexivity.
Defined.

Lemma generate_traffic_chain_edges_witness :
  generate_traffic_chain cfg_chrome spec_helpers sample_is_valid_url
    (PageSeq ["seleniumbase"]) 0 env_found []
  = (Returns tt, [CheckScope]).
Proof.
  pose proof (generate_traffic_chain_edges cfg_chrome spec_helpers
                sample_is_valid_url (PageSeq ["seleniumbase"]) 0
                env_found [] (fun _ => eq_refl)) as H.
  cbv zeta in H. destruct H as [H _]. apply H. lia.
Defined.

(** ** [click_nth_visible_element] *)

Lemma lift_run {A} (o : outcome A) (e : env) (log : list call) :
  lift o e log = (o, log).
Proof. reflexivity. Qed.

Section ClickNthFacts.
Context (cfg : config) (h : helpers) (by_repr : By -> string)
        (page_wait_for_element_present : string -> By -> Z -> M element)
        (page_find_visible_elements : string -> By -> M (list element))
        (wait_for_shadow_element_present : string -> M element).

Lemma choose_nth_returns (selector : string) (by_ : By) (number n1 : Z)
  (elements : list element) (el : element) :
  choose_nth by_repr selector by_ number elements = Returns (n1, el) ->
  number <= Z.of_nat (length elements)
  /\ n1 = Z.max (number - 1) 0
  /\ elements !! Z.to_nat n1 = Some el.
Proof.
  unfold choose_nth.
  destruct (Z.ltb_spec (Z.of_nat (length elements)) number) as [Hlt|Hge];
    [discriminate|].
  assert (Hn : (if number - 1 <? 0 then 0 else number - 1)
               = Z.max (number - 1) 0)
    by (destruct (Z.ltb_spec (number - 1) 0); lia).
  rewrite Hn.
  destruct (elements !! Z.to_nat (Z.max (number - 1) 0)) as [x|] eqn:Hx;
    [|discriminate].
  intros [= <- <-]. auto.
Qed.

(** X15.  The retry of [click_nth_visible_element] does not click the
    element asked for.  When the first click (or the scroll before it)
    raises a stale-element or a not-interactable error and the handler
    gets a new list of visible elements, the handler runs the choosing
    statements on the [number] that the first attempt has already
    lowered by one: it asks for [number - 1] elements only, and clicks
    the element at index [max(number - 2, 0)] of the new list -- for
    [number >= 2] the visible element before the one asked for.  With
    an empty new list (and [number <= 1]) it raises [IndexError]. *)
Theorem click_nth_visible_element_retry
  (selector : pyarg) (number : Z) (by0 : By) (timeout : option Z)
  (e : env) (log log1 log2 log3 log4 log5 : list call)
  (sel : string) (by_ : By) (t n1 : Z) (elements elements2 : list element)
  (el : element) (x : exn) :
  click_nth_prologue cfg h page_wait_for_element_present
    wait_for_shadow_element_present selector by0 timeout e log
  = (Returns (sel, by_, t), log1) ->
  find_visible_elements h page_find_visible_elements sel by_ 0 e log1
  = (Returns elements, log2) ->
  choose_nth by_repr sel by_ number elements = Returns (n1, el) ->
  click_nth_attempt el e log2 = (Raises x, log3) ->
  is_Stale (class_of x) || is_ENI (class_of x) = true ->
  click_nth_recover cfg h page_wait_for_element_present
    wait_for_shadow_element_present sel by_ t e log3 = (Returns tt, log4) ->
  find_visible_elements h page_find_visible_elements sel by_ 0 e log4
  = (Returns elements2, log5) ->
  n1 = Z.max (number - 1) 0
  /\ elements !! Z.to_nat n1 = Some el
  /\ click_nth_visible_element cfg h by_repr page_wait_for_element_present
       page_find_visible_elements wait_for_shadow_element_present
       selector number by0 timeout e log
     = if Z.of_nat (length elements2) <? n1
       then (Raises (Raised Exception_
                       (not_enough_elements_message by_repr sel by_ n1)),
             log5)
       else match elements2 !! Z.to_nat (Z.max (number - 2) 0) with
            | Some el2 => (e log5 (ElementClick el2), ElementClick el2 :: log5)
            | None =>
                (Raises (Raised IndexError "list index out of range"), log5)
            end.
Proof.
  intros Hpro Hfind Hchoose Hatt Hx Hrec Hfind2.
  destruct (choose_nth_returns _ _ _ _ _ _ Hchoose) as (Hlen & Hn1 & Hel).
  split; [exact Hn1|]. split; [exact Hel|].
  unfold click_nth_visible_element.
  rewrite M_bind_run, Hpro. cbv beta iota.
  rewrite M_bind_run, Hfind, M_bind_run, lift_run, Hchoose. cbv beta iota.
  rewrite try_except_run, Hatt. unfold click_nth_handler. rewrite Hx.
  rewrite M_bind_run, Hrec, M_bind_run, Hfind2, M_bind_run, lift_run.
  unfold choose_nth.
  destruct (Z.of_nat (length elements2) <? n1); [reflexivity|].
  assert (Hidx : (if n1 - 1 <? 0 then 0 else n1 - 1) = Z.max (number - 2) 0)
    by (destruct (Z.ltb_spec (n1 - 1) 0); lia).
  rewrite Hidx.
  destruct (elements2 !! Z.to_nat (Z.max (number - 2) 0)) as [el2|];
    [|reflexivity].
  cbv beta iota. rewrite perform_run. reflexivity.
Qed.

End ClickNthFacts.

(** Asked for the third visible checkbox, the retry clicks the
    second. *)
Lemma click_nth_visible_element_retry_witness :
  exists log5,
    click_nth_visible_element cfg_chrome spec_helpers By_value
      (fun _ _ _ => mret 20%nat) three_checkboxes (fun _ => mret 20%nat)
      (PyText "input.box") 3 CSS_SELECTOR None env_checkboxes_stale []
    = (Returns tt, ElementClick 22%nat :: log5).
Proof.
  edestruct (click_nth_visible_element_retry cfg_chrome spec_helpers By_value
               (fun _ _ _ => mret 20%nat) three_checkboxes
               (fun _ => mret 20%nat)
               (PyText "input.box") 3 CSS_SELECTOR None env_checkboxes_stale
               []) as (_ & _ & H);
    [reflexivity | reflexivity | reflexivity | reflexivity | reflexivity
    | reflexivity | reflexivity |].
  eexists. rewrite H. reflexivity.
Defined.

